(** * Copperx Telegram bot: conversation flows, gateway and auth service

    A shallow embedding of the TypeScript sources of the bot
    (commands/transfer.ts, commands/auth.ts, services/transfer.ts,
    services/wallet.ts, services/auth.ts) together with the properties
    that the specification states about them.

    Conventions.
    - A JavaScript string is a [string]: a sequence of 8-bit code units
      (the Latin-1 range of UTF-16).  Literal reply texts are carried as
      they stand in the sources and are never inspected by the code.
    - A JavaScript number is the exact rational it denotes ([Q]); the one
      non-rational number the code can produce, NaN, is a separate value.
      The amounts the flows parse have at most six fractional digits, so
      the double nearest to one is zero, or negative, exactly when the
      amount is; time values are integers below 2^53.
    - [Record<number, any>] and [Map<string, string>] are finite maps.
    - An asynchronous handler is a function from the state it closes over,
      the event and the outcomes of the calls it awaits, to the new state
      and the list of actions it performed, in program order.  Events
      that arrive while a handler waits for one of these calls are not
      modelled.
    - Sending a message, answering a callback query and reading or writing
      the session store are taken to succeed; logging is left out.
    - Of commands/transfer.ts the three conversations are modelled, of
      commands/auth.ts the login flow. *)

From Stdlib Require Import Ascii QArith Qround.
From stdpp Require Import gmap strings list pretty.
Close Scope Q_scope.
Set Warnings "-register-all".
Set Default Proof Using "Type".
Local Open Scope string_scope.
Local Open Scope list_scope.
Local Open Scope Z_scope.

(* ===================================================================== *)
(** ** Strings of the JavaScript runtime *)
(* ===================================================================== *)

Module JsString.

Definition code (c : ascii) : N := N_of_ascii c.

Definition in_range (lo hi : N) (c : ascii) : bool :=
  ((lo <=? code c) && (code c <=? hi))%N.

(** [\d] of a JavaScript regular expression: ASCII digits only. *)
Definition is_digit (c : ascii) : bool := in_range 48 57 c.
Definition is_upper (c : ascii) : bool := in_range 65 90 c.
Definition is_lower (c : ascii) : bool := in_range 97 122 c.
Definition is_alpha (c : ascii) : bool := is_upper c || is_lower c.

(** White space of [String.prototype.trim] and of [\s]: TAB, LF, VT, FF,
    CR, SPACE and NBSP are the members below U+0100. *)
Definition is_ws (c : ascii) : bool :=
  in_range 9 13 c || (code c =? 32)%N || (code c =? 160)%N.

Definition not_ws (c : ascii) : bool := negb (is_ws c).

Definition char_is (x : ascii) (c : ascii) : bool := (code c =? code x)%N.

Fixpoint all_chars (p : ascii -> bool) (s : string) : bool :=
  match s with
  | EmptyString => true
  | String c s' => p c && all_chars p s'
  end.

Fixpoint filter_chars (p : ascii -> bool) (s : string) : string :=
  match s with
  | EmptyString => EmptyString
  | String c s' => if p c then String c (filter_chars p s') else filter_chars p s'
  end.

Definition is_empty (s : string) : bool :=
  match s with EmptyString => true | _ => false end.

Fixpoint trimStart (s : string) : string :=
  match s with
  | EmptyString => EmptyString
  | String c s' => if is_ws c then trimStart s' else s
  end.

Fixpoint trimEnd (s : string) : string :=
  match s with
  | EmptyString => EmptyString
  | String c s' =>
      let t := trimEnd s' in
      if is_ws c && is_empty t then EmptyString else String c t
  end.

Definition trim (s : string) : string := trimEnd (trimStart s).

Fixpoint startsWith (p s : string) : bool :=
  match p, s with
  | EmptyString, _ => true
  | String a p', String b s' => char_is a b && startsWith p' s'
  | String _ _, EmptyString => false
  end.

Fixpoint includes (p s : string) : bool :=
  startsWith p s ||
  match s with
  | EmptyString => false
  | String _ s' => includes p s'
  end.

Definition lower_char (c : ascii) : ascii :=
  if is_upper c || (in_range 192 222 c && negb (code c =? 215)%N)
  then ascii_of_N (code c + 32) else c.

Fixpoint toLowerCase (s : string) : string :=
  match s with
  | EmptyString => EmptyString
  | String c s' => String (lower_char c) (toLowerCase s')
  end.

(** [s.replace(/\s+/g, '')]: scanning left to right, every maximal run
    of white space is matched once and replaced by the empty string. *)
Fixpoint skip_ws_run (s : string) : string :=
  match s with
  | EmptyString => EmptyString
  | String c s' => if is_ws c then skip_ws_run s' else s
  end.

Fixpoint replace_ws_runs (fuel : nat) (s : string) : string :=
  match fuel with
  | O => s
  | S fuel' =>
      match s with
      | EmptyString => EmptyString
      | String c s' =>
          if is_ws c then replace_ws_runs fuel' (skip_ws_run s')
          else String c (replace_ws_runs fuel' s')
      end
  end.

Definition remove_whitespace (s : string) : string :=
  replace_ws_runs (String.length s) s.

(** The prefix test behind a literal pattern, optionally with the [i]
    flag; the rest of the subject after the match. *)
Fixpoint strip_prefix (ci : bool) (p s : string) : option string :=
  match p, s with
  | EmptyString, _ => Some s
  | String a p', String b s' =>
      if (if ci then char_is (lower_char a) (lower_char b) else char_is a b)
      then strip_prefix ci p' s' else None
  | String _ _, EmptyString => None
  end.

(** First alternative, in the order written, that matches at the head. *)
Fixpoint strip_any (ci : bool) (alts : list string) (s : string) : option string :=
  match alts with
  | [] => None
  | p :: rest =>
      match strip_prefix ci p s with
      | Some s' => Some s'
      | None => strip_any ci rest s
      end
  end.

(** [s.replace(/a|b|.../g, by)] for non-empty literal alternatives. *)
Fixpoint replace_all (fuel : nat) (ci : bool) (alts : list string) (by_ : string)
    (s : string) : string :=
  match fuel with
  | O => s
  | S fuel' =>
      match s with
      | EmptyString => EmptyString
      | String c s' =>
          match strip_any ci alts s with
          | Some rest => by_ +:+ replace_all fuel' ci alts by_ rest
          | None => String c (replace_all fuel' ci alts by_ s')
          end
      end
  end.

(** [s.replace(/a/, by)]: the first match only. *)
Fixpoint replace_first (ci : bool) (p by_ : string) (s : string) : string :=
  match strip_prefix ci p s with
  | Some rest => by_ +:+ rest
  | None =>
      match s with
      | EmptyString => EmptyString
      | String c s' => String c (replace_first ci p by_ s')
      end
  end.

(** [join sep l] of strings already converted by ToString. *)
Fixpoint join (sep : string) (l : list string) : string :=
  match l with
  | [] => ""
  | [x] => x
  | x :: rest => x +:+ sep +:+ join sep rest
  end.

End JsString.

(* ===================================================================== *)
(** ** Regular expressions *)
(* ===================================================================== *)

(** The patterns of the sources are anchored ([^...$]) and use only
    character classes, concatenation, alternation, [?], [*], [+] and
    bounded repetition; [test] on an anchored pattern is membership of the
    whole string in the language, decided here by derivatives. *)
Module Regex.
Import JsString.

Inductive regex : Type :=
| Void
| Eps
| Cls (p : ascii -> bool)
| Cat (r1 r2 : regex)
| Alt (r1 r2 : regex)
| Star (r : regex).

Definition Plus (r : regex) : regex := Cat r (Star r).
Definition Opt (r : regex) : regex := Alt Eps r.

(** [r{0,n}] and [r{1,n}] *)
Fixpoint Upto (n : nat) (r : regex) : regex :=
  match n with
  | O => Eps
  | S n' => Opt (Cat r (Upto n' r))
  end.
Definition Rep1 (n : nat) (r : regex) : regex := Cat r (Upto (pred n) r).

(** [r{n,}] *)
Fixpoint Times (n : nat) (r : regex) : regex :=
  match n with
  | O => Eps
  | S n' => Cat r (Times n' r)
  end.
Definition AtLeast (n : nat) (r : regex) : regex := Cat (Times n r) (Star r).

Fixpoint nullable (r : regex) : bool :=
  match r with
  | Void => false
  | Eps => true
  | Cls _ => false
  | Cat a b => nullable a && nullable b
  | Alt a b => nullable a || nullable b
  | Star _ => true
  end.

Fixpoint deriv (c : ascii) (r : regex) : regex :=
  match r with
  | Void => Void
  | Eps => Void
  | Cls p => if p c then Eps else Void
  | Cat a b =>
      if nullable a then Alt (Cat (deriv c a) b) (deriv c b)
      else Cat (deriv c a) b
  | Alt a b => Alt (deriv c a) (deriv c b)
  | Star a => Cat (deriv c a) (Star a)
  end.

Fixpoint test (r : regex) (s : string) : bool :=
  match s with
  | EmptyString => nullable r
  | String c s' => test (deriv c r) s'
  end.

(** Denotation, against which [test] is checked below. *)
Inductive lang : regex -> string -> Prop :=
| L_eps : lang Eps ""
| L_cls p c : p c = true -> lang (Cls p) (String c "")
| L_cat a b s t : lang a s -> lang b t -> lang (Cat a b) (s +:+ t)
| L_alt_l a b s : lang a s -> lang (Alt a b) s
| L_alt_r a b s : lang b s -> lang (Alt a b) s
| L_star_nil a : lang (Star a) ""
| L_star_cons a c s t :
    lang a (String c s) -> lang (Star a) t -> lang (Star a) (String c s +:+ t).

(** Some class of [r] accepts [c]. *)
Fixpoint alphabet (r : regex) (c : ascii) : bool :=
  match r with
  | Void | Eps => false
  | Cls p => p c
  | Cat a b | Alt a b => alphabet a c || alphabet b c
  | Star a => alphabet a c
  end.

(** Syntactically empty language. *)
Fixpoint barren (r : regex) : bool :=
  match r with
  | Void => true
  | Eps | Cls _ | Star _ => false
  | Cat a b => barren a || barren b
  | Alt a b => barren a && barren b
  end.

End Regex.

(** The three validation patterns of the commands. *)
Module Patterns.
Import JsString Regex.

(** [[a-zA-Z0-9._%+-]] *)
Definition email_local (c : ascii) : bool :=
  is_alpha c || is_digit c ||
  char_is "." c || char_is "_" c || char_is "%" c || char_is "+" c || char_is "-" c.

(** [[a-zA-Z0-9.-]] *)
Definition email_domain (c : ascii) : bool :=
  is_alpha c || is_digit c || char_is "." c || char_is "-" c.

(** [/^[a-zA-Z0-9._%+-]+@[a-zA-Z0-9.-]+\.[a-zA-Z]{2,}$/] *)
Definition EMAIL_REGEX : regex :=
  Cat (Plus (Cls email_local))
    (Cat (Cls (char_is "@"))
       (Cat (Plus (Cls email_domain))
          (Cat (Cls (char_is "."))
             (Cat (Cls is_alpha) (Plus (Cls is_alpha)))))).

(** [/^\s*\d{1,6}(?:\s+\d{1,6})*\s*$/] *)
Definition OTP_REGEX : regex :=
  Cat (Star (Cls is_ws))
    (Cat (Rep1 6 (Cls is_digit))
       (Cat (Star (Cat (Plus (Cls is_ws)) (Rep1 6 (Cls is_digit))))
          (Star (Cls is_ws)))).

(** [/^\d+(\.\d{1,6})?$/] *)
Definition AMOUNT_REGEX : regex :=
  Cat (Plus (Cls is_digit))
    (Opt (Cat (Cls (char_is ".")) (Rep1 6 (Cls is_digit)))).

End Patterns.

(* ===================================================================== *)
(** ** Values, errors and completions of the JavaScript runtime *)
(* ===================================================================== *)

(** What the sources take from the runtime without defining it: the
    rendering of a number as a string ([Number.prototype.toString], used
    by template literals, [String(x)], [join] and [JSON.stringify]) and the
    parsing of a date string by [new Date(s)] ([None] is an invalid date). *)
Class JsRuntime : Type := {
  Number_toString : Q -> string;
  Date_parse : string -> option Z
}.

Module Js.
Import JsString.

(** A value as [JSON.parse] or the code itself produces it.  The fields of
    an object are its own enumerable properties in enumeration order, each
    key once. *)
Inductive JsVal : Type :=
| VUndef
| VNull
| VBool (b : bool)
| VNum (q : Q)
| VNaN
| VStr (s : string)
| VArr (items : list JsVal)
| VObj (fields : list (string * JsVal)).

(** An [Error] object; only its [message] is ever read. *)
Record JsError : Type := mkError { message : string }.

(** Outcome of evaluating code that may throw. *)
Inductive Completion (A : Type) : Type :=
| Normal (a : A)
| Throw (e : JsError).
Arguments Normal {A} a.
Arguments Throw {A} e.

Definition bind {A B : Type} (c : Completion A) (k : A -> Completion B) : Completion B :=
  match c with
  | Normal a => k a
  | Throw e => Throw e
  end.

Fixpoint mapM {A B : Type} (f : A -> Completion B) (l : list A) : Completion (list B) :=
  match l with
  | [] => Normal []
  | x :: rest =>
      bind (f x) (fun y => bind (mapM f rest) (fun ys => Normal (y :: ys)))
  end.

Definition is_normal {A : Type} (c : Completion A) : bool :=
  match c with Normal _ => true | Throw _ => false end.

(** Reading a property of [undefined] or [null].  The text of the message
    is the engine's and names the property read; it is fixed here, and
    nothing stated below depends on it. *)
Definition TypeError : JsError :=
  mkError "Cannot read properties of undefined".

Definition truthy (v : JsVal) : bool :=
  match v with
  | VUndef | VNull | VNaN => false
  | VBool b => b
  | VNum q => negb (Qeq_bool q 0)
  | VStr s => negb (is_empty s)
  | VArr _ | VObj _ => true
  end.

(** [a || b] *)
Definition or_else (a b : JsVal) : JsVal := if truthy a then a else b.

Definition is_nullish (v : JsVal) : bool :=
  match v with VUndef | VNull => true | _ => false end.

Fixpoint lookup_field (k : string) (fields : list (string * JsVal)) : JsVal :=
  match fields with
  | [] => VUndef
  | (k', v) :: rest => if String.eqb k k' then v else lookup_field k rest
  end.

(** [v.k] on a value that is neither [undefined] nor [null]; none of the
    keys read by the sources is a property of a primitive or of an array. *)
Definition prop (v : JsVal) (k : string) : JsVal :=
  match v with
  | VObj fields => lookup_field k fields
  | _ => VUndef
  end.

(** [v.k] *)
Definition member (v : JsVal) (k : string) : Completion JsVal :=
  if is_nullish v then Throw TypeError else Normal (prop v k).

(** [v?.k] *)
Definition opt_member (v : JsVal) (k : string) : JsVal :=
  if is_nullish v then VUndef else prop v k.

Definition isArray (v : JsVal) : bool :=
  match v with VArr _ => true | _ => false end.

(** [typeof v === 'object'], which holds of [null] and of arrays too. *)
Definition typeof_object (v : JsVal) : bool :=
  match v with VNull | VArr _ | VObj _ => true | _ => false end.

Section WithRuntime.
Context `{RT : JsRuntime}.

(** [String(v)], also the conversion of a template literal. *)
Fixpoint ToString (v : JsVal) : string :=
  match v with
  | VUndef => "undefined"
  | VNull => "null"
  | VBool true => "true"
  | VBool false => "false"
  | VNum q => Number_toString q
  | VNaN => "NaN"
  | VStr s => s
  | VArr items =>
      join "," (map (fun x => if is_nullish x then "" else ToString x) items)
  | VObj _ => "[object Object]"
  end.

(** [items.join(sep)]: [undefined] and [null] elements render empty. *)
Definition array_join (sep : string) (items : list JsVal) : string :=
  join sep (map (fun x => if is_nullish x then "" else ToString x) items).

(** [new Error(v)] for a value that is not [undefined]. *)
Definition new_Error (v : JsVal) : JsError := mkError (ToString v).

Definition hex_digit (n : N) : ascii :=
  if (n <? 10)%N then ascii_of_N (48 + n) else ascii_of_N (87 + n).

(** [QuoteJSONString] *)
Fixpoint json_escape (s : string) : string :=
  match s with
  | EmptyString => EmptyString
  | String c s' =>
      let n := code c in
      let rest := json_escape s' in
      if (n =? 34)%N then "\" +:+ String c rest
      else if (n =? 92)%N then "\\" +:+ rest
      else if (n =? 8)%N then "\b" +:+ rest
      else if (n =? 9)%N then "\t" +:+ rest
      else if (n =? 10)%N then "\n" +:+ rest
      else if (n =? 12)%N then "\f" +:+ rest
      else if (n =? 13)%N then "\r" +:+ rest
      else if (n <? 32)%N then
        "\u00" +:+ String (hex_digit (n / 16)) (String (hex_digit (n mod 16)) rest)
      else String c rest
  end.

Definition json_quote (s : string) : string :=
  String (ascii_of_N 34) (json_escape s) +:+ String (ascii_of_N 34) "".

(** [JSON.stringify(v)]; [None] is the result [undefined]. *)
Fixpoint JSON_stringify (v : JsVal) : option string :=
  match v with
  | VUndef => None
  | VNull | VNaN => Some "null"
  | VBool true => Some "true"
  | VBool false => Some "false"
  | VNum q => Some (Number_toString q)
  | VStr s => Some (json_quote s)
  | VArr items =>
      Some ("[" +:+
            join "," (map (fun x => match JSON_stringify x with
                                     | Some t => t
                                     | None => "null"
                                     end) items) +:+ "]")
  | VObj fields =>
      Some ("{" +:+
            join "," (flat_map (fun kv => match JSON_stringify (snd kv) with
                                          | Some t => [json_quote (fst kv) +:+ ":" +:+ t]
                                          | None => []
                                          end) fields) +:+ "}")
  end.

Fixpoint chars_of (s : string) : list JsVal :=
  match s with
  | EmptyString => []
  | String c s' => VStr (String c "") :: chars_of s'
  end.

(** [Object.values(v)] *)
Definition Object_values (v : JsVal) : Completion (list JsVal) :=
  match v with
  | VUndef | VNull => Throw TypeError
  | VObj fields => Normal (map snd fields)
  | VArr items => Normal items
  | VStr s => Normal (chars_of s)
  | VBool _ | VNum _ | VNaN => Normal []
  end.

Fixpoint index_entries (i : N) (items : list JsVal) : list (string * JsVal) :=
  match items with
  | [] => []
  | x :: rest => (Number_toString (inject_Z (Z.of_N i)), x) :: index_entries (i + 1) rest
  end.

(** [Object.entries(v)] *)
Definition Object_entries (v : JsVal) : Completion (list (string * JsVal)) :=
  match v with
  | VUndef | VNull => Throw TypeError
  | VObj fields => Normal fields
  | VArr items => Normal (index_entries 0 items)
  | VStr s => Normal (index_entries 0 (chars_of s))
  | VBool _ | VNum _ | VNaN => Normal []
  end.

(** [new Date(v).getTime()]: a number is taken as milliseconds and clipped
    to the range of a time value; [None] is NaN. *)
Definition Date_getTime (v : JsVal) : option Z :=
  match v with
  | VNum q =>
      let ms := Qfloor q in
      let ms := if ms <? 0 then Qceiling q else ms in
      if (Z.abs ms <=? 8640000000000000) then Some ms else None
  | VStr s => Date_parse s
  | VBool true => Some 1
  | VBool false | VNull => Some 0
  | VUndef | VNaN => None
  | VArr _ | VObj _ => Date_parse (ToString v)
  end.

End WithRuntime.
End Js.

(* ===================================================================== *)
(** ** The HTTP client as the services see it *)
(* ===================================================================== *)

Module Http.
Import Js.

Record AxiosResponse : Type := mkResponse {
  status : Z;
  data : JsVal
}.

(** The value a rejected request is caught with: always an [Error];
    [isAxiosError] tells whether it is the client's own error type, and
    [response] is present when the server answered with an error status. *)
Record Caught : Type := mkCaught {
  isAxiosError : bool;
  caught_message : string;
  response : option AxiosResponse
}.

Inductive AxiosOutcome : Type :=
| Fulfilled (r : AxiosResponse)
| Rejected (e : Caught).

(** A request as it is handed to the client; [url] is relative to
    [COPPERX_API_URL]. *)
Record Request : Type := mkRequest {
  method : string;
  url : string;
  body : JsVal;
  params : JsVal;
  authorization : option string
}.

(** [error.response?.data?.message] *)
Definition response_message (e : Caught) : JsVal :=
  match response e with
  | None => VUndef
  | Some r => opt_member (data r) "message"
  end.

(** [error.response?.data?.error] where [error.response] is known present,
    and the same for [message]. *)
Definition data_message (r : AxiosResponse) : JsVal := opt_member (data r) "message".
Definition data_error (r : AxiosResponse) : JsVal := opt_member (data r) "error".

End Http.

(* ===================================================================== *)
(** ** services/transfer.ts *)
(* ===================================================================== *)

Module TransferService.
Import JsString Js Http.

(** [TransferResult] and [TransferHistoryResponse]: an absent field is
    [VUndef]. *)
Record ApiResult : Type := mkResult {
  success : bool;
  result_data : JsVal;
  result_error : JsVal
}.

Section WithRuntime.
Context `{RT : JsRuntime}.

(** [amount.toString()] *)
Definition toString_method (v : JsVal) : Completion string :=
  if is_nullish v then Throw TypeError else Normal (ToString v).

Definition bearer (token : JsVal) : option string :=
  Some ("Bearer " +:+ ToString token).

(** The [catch] clause shared by the three submission calls. *)
Definition failure_data (e : Caught) (fallback : string) : ApiResult :=
  mkResult false
    (VObj [("error",
            or_else (response_message e)
              (or_else (VStr (caught_message e)) (VStr fallback)))])
    VUndef.

Definition caught_of_throw (e : JsError) : Caught :=
  mkCaught false (message e) None.

Definition sendFunds (token : JsVal) (recipient : JsVal) (amount : JsVal)
    (description : JsVal) (http : AxiosOutcome) : list Request * ApiResult :=
  match toString_method amount with
  | Throw e => ([], failure_data (caught_of_throw e) "Failed to send funds")
  | Normal amount_text =>
      let req :=
        mkRequest "POST" "/transfers/send"
          (VObj [("recipient", recipient);
                 ("amount", VStr amount_text);
                 ("description", or_else description (VStr "Sent via Telegram"))])
          VUndef (bearer token) in
      match http with
      | Fulfilled r => ([req], mkResult true (data r) VUndef)
      | Rejected e => ([req], failure_data e "Failed to send funds")
      end
  end.

Definition withdrawToWallet (token : JsVal) (address : JsVal) (amount : JsVal)
    (network : JsVal) (http : AxiosOutcome) : list Request * ApiResult :=
  match toString_method amount with
  | Throw e => ([], failure_data (caught_of_throw e) "Failed to withdraw funds")
  | Normal amount_text =>
      let req :=
        mkRequest "POST" "/transfers/wallet-withdraw"
          (VObj [("address", address);
                 ("amount", VStr amount_text);
                 ("network", network)])
          VUndef (bearer token) in
      match http with
      | Fulfilled r => ([req], mkResult true (data r) VUndef)
      | Rejected e => ([req], failure_data e "Failed to withdraw funds")
      end
  end.

Definition withdrawToBank (token : JsVal) (amount : JsVal) (bankId : JsVal)
    (http : AxiosOutcome) : list Request * ApiResult :=
  match toString_method amount with
  | Throw e => ([], failure_data (caught_of_throw e) "Failed to withdraw funds to bank")
  | Normal amount_text =>
      let req :=
        mkRequest "POST" "/transfers/offramp"
          (VObj [("amount", VStr amount_text); ("bankId", bankId)])
          VUndef (bearer token) in
      match http with
      | Fulfilled r => ([req], mkResult true (data r) VUndef)
      | Rejected e => ([req], failure_data e "Failed to withdraw funds to bank")
      end
  end.

Definition getTransactionHistory (token : JsVal) (page limit : JsVal)
    (http : AxiosOutcome) : list Request * ApiResult :=
  let req :=
    mkRequest "GET" "/transfers" VUndef
      (VObj [("page", page); ("limit", limit)]) (bearer token) in
  match http with
  | Fulfilled r => ([req], mkResult true (data r) VUndef)
  | Rejected e =>
      ([req],
       mkResult false VUndef
         (or_else (response_message e)
            (or_else (VStr (caught_message e))
               (VStr "Failed to fetch transaction history"))))
  end.

End WithRuntime.
End TransferService.

(* ===================================================================== *)
(** ** services/wallet.ts *)
(* ===================================================================== *)

Module WalletService.
Import JsString Js Http.

(** [AuthToken], also the shape of a stored session. *)
Record AuthToken : Type := mkAuthToken {
  token : JsVal;
  expiresIn : JsVal;
  organizationId : JsVal;
  refreshToken : option JsVal
}.

Section WithRuntime.
Context `{RT : JsRuntime}.

(** The [catch] clause shared by the four wallet calls: the error is
    thrown again with a message taken from the response body, else from
    the caught error.  The clause's last branch, with the fixed text
    "Failed to ...", is for a caught value that is not an [Error]; the
    client rejects with [Error] objects only. *)
Definition rethrow (e : Caught) : JsError :=
  if isAxiosError e && truthy (response_message e)
  then new_Error (response_message e)
  else mkError (caught_message e).

Definition wallet_call (meth path : string) (payload : JsVal)
    (session : option AuthToken) (http : AxiosOutcome)
    : list Request * Completion JsVal :=
  match session with
  | None => ([], Throw (mkError "User not authenticated"))
  | Some sess =>
      let req :=
        mkRequest meth path payload VUndef
          (Some ("Bearer " +:+ ToString (token sess))) in
      match http with
      | Fulfilled r => ([req], Normal (data r))
      | Rejected e => ([req], Throw (rethrow e))
      end
  end.

Definition getWallets := wallet_call "GET" "/wallets" VUndef.
Definition getWalletBalances := wallet_call "GET" "/wallets/balances" VUndef.
Definition setDefaultWallet (walletId : JsVal) :=
  wallet_call "PUT" "/wallets/default" (VObj [("walletId", walletId)]).
Definition getDefaultWallet := wallet_call "GET" "/wallets/default" VUndef.

End WithRuntime.
End WalletService.

(* ===================================================================== *)
(** ** services/auth.ts *)
(* ===================================================================== *)

Module AuthService.
Import JsString Js Http.
Export WalletService.

Section WithRuntime.
Context `{RT : JsRuntime}.

(** [emailOtpSessions]: the process-wide map from an email to the session
    id of its last OTP request. *)
Definition set_sid (email : string) (sid : JsVal) (sessions : gmap string JsVal)
    : gmap string JsVal := <[email := sid]> sessions.

Definition requestEmailOTP (sessions : gmap string JsVal) (email : string)
    (http : AxiosOutcome)
    : list Request * Completion bool * gmap string JsVal :=
  let req :=
    mkRequest "POST" "/auth/email-otp/request"
      (VObj [("email", VStr email)]) VUndef None in
  match http with
  | Fulfilled r =>
      let sessions' :=
        if truthy (data r) && truthy (prop (data r) "sid")
        then set_sid email (prop (data r) "sid") sessions
        else sessions in
      ([req], Normal (status r =? 200), sessions')
  | Rejected e =>
      match isAxiosError e, response e with
      | true, Some r =>
          ([req],
           Throw (new_Error (or_else (data_message r)
                               (or_else (data_error r) (VStr "Failed to request OTP")))),
           sessions)
      | _, _ => ([req], Throw (mkError "Failed to request OTP"), sessions)
      end
  end.

(** The body sent to [/auth/email-otp/authenticate]. *)
Definition authenticate_body (sessions : gmap string JsVal) (email otp : string) : JsVal :=
  VObj [("email", VStr email);
        ("otp", VStr (remove_whitespace otp));
        ("sid", match sessions !! email with
                | Some sid => sid
                | None => VUndef
                end)].

(** [Math.floor((expireAtTimestamp - currentTimestamp) / 1000)] *)
Definition seconds_until (expireAt : option Z) (now : Z) : JsVal :=
  match expireAt with
  | None => VNaN
  | Some t => VNum (inject_Z (Qfloor (Qdiv (inject_Z (t - now)) (inject_Z 1000))))
  end.

(** The part of the [try] block after the response has arrived. *)
Definition read_auth_response (now : Z) (d : JsVal) : Completion AuthToken :=
  if negb (truthy d) || (negb (truthy (prop d "token")) && negb (truthy (prop d "accessToken")))
  then Throw (mkError "Invalid response from server")
  else
    let token := or_else (prop d "token") (prop d "accessToken") in
    let refreshToken :=
      or_else (prop d "refreshToken") (or_else (prop d "refresh_token") (VStr "")) in
    let expiresIn :=
      if negb (truthy (prop d "expiresIn")) && truthy (prop d "expireAt")
      then seconds_until (Date_getTime (prop d "expireAt")) now
      else prop d "expiresIn" in
    let organizationId := or_else (prop d "organizationId") (VStr "") in
    let organizationId :=
      if negb (truthy organizationId) && truthy (prop d "user")
         && truthy (prop (prop d "user") "organizationId")
      then prop (prop d "user") "organizationId"
      else organizationId in
    if negb (truthy token)
    then Throw (mkError "Missing authentication token in response")
    else Normal (mkAuthToken token expiresIn organizationId
                   (if truthy refreshToken then Some refreshToken else None)).

(** [Object.values(o.constraints).join(', ')] for a truthy [constraints]. *)
Definition constraints_text (constraints : JsVal) : Completion string :=
  bind (Object_values constraints) (fun vs => Normal (array_join ", " vs)).

(** The callback mapped over [errorObj.children]; [""] stands for the
    [null] that [filter(Boolean)] drops just as it drops an empty string. *)
Definition format_child (parent : JsVal) (child : JsVal) : Completion string :=
  bind (member child "property") (fun cp =>
  if truthy cp then
    bind (member child "constraints") (fun cc =>
    if truthy cc then
      bind (constraints_text cc) (fun cs =>
      Normal (ToString parent +:+ "." +:+ ToString cp +:+ ": " +:+ cs))
    else Normal "")
  else Normal "").

Definition keep_nonempty (l : list string) : list string :=
  List.filter (fun x => negb (is_empty x)) l.

(** The callback mapped over the entries of [data.message]. *)
Definition format_entry (errorObj : JsVal) : Completion string :=
  bind (member errorObj "property") (fun p =>
  let constraints := prop errorObj "constraints" in
  let children := prop errorObj "children" in
  if truthy p && truthy constraints then
    bind (constraints_text constraints) (fun cs =>
    Normal (ToString p +:+ ": " +:+ cs))
  else if truthy p && truthy children && isArray children then
    match children with
    | VArr items =>
        bind (mapM (format_child p) items) (fun frags =>
        let nestedErrors := join "; " (keep_nonempty frags) in
        Normal (if is_empty nestedErrors then "Invalid " +:+ ToString p
                else nestedErrors))
    | _ => Normal ""
    end
  else
    Normal (match JSON_stringify errorObj with
            | Some t => t
            | None => ""
            end)).

(** The message read off [data.message] of a 422 body. *)
Definition message_of_422 (d : JsVal) : string :=
  match prop d "message" with
  | VStr m => m
  | VArr items =>
      match items with
      | first :: _ =>
          if typeof_object first then
            match mapM format_entry items with
            | Normal frags =>
                let formattedErrors := join "; " (keep_nonempty frags) in
                if is_empty formattedErrors then "Validation failed"
                else formattedErrors
            | Throw _ => array_join ", " items
            end
          else array_join ", " items
      | [] => array_join ", " items
      end
  | VObj fields =>
      match JSON_stringify (VObj fields) with
      | Some t => t
      | None => "Invalid OTP or validation errors"
      end
  | _ => "Validation failed"
  end.

(** The details appended from [data.errors]. *)
Definition errors_details (d : JsVal) : string :=
  let errs := prop d "errors" in
  if truthy errs && typeof_object errs then
    match Object_entries errs with
    | Normal entries =>
        join "; "
          (map (fun fm =>
                  fst fm +:+ ": " +:+
                  match snd fm with
                  | VArr msgs => array_join ", " msgs
                  | other => ToString other
                  end) entries)
    | Throw _ => ""
    end
  else "".

Definition normalize_422 (d : JsVal) : string :=
  if truthy d then
    let errorMessage := message_of_422 d in
    let errorDetails := errors_details d in
    if is_empty errorDetails then errorMessage
    else errorMessage +:+ ": " +:+ errorDetails
  else "Validation failed".

Definition statusMessages (st : Z) : JsVal :=
  if st =? 400 then VStr "Bad request - Please check your input"
  else if st =? 401 then VStr "Unauthorized - Invalid credentials"
  else if st =? 403 then VStr "Forbidden - You don't have permission to access this resource"
  else if st =? 404 then VStr "Not found - The requested authentication endpoint was not found"
  else if st =? 500 then VStr "Server error - The authentication service is experiencing issues"
  else if st =? 502 then VStr "Bad gateway - The authentication service is currently unavailable"
  else if st =? 503 then VStr "Service unavailable - The authentication service is temporarily down"
  else if st =? 504 then VStr "Gateway timeout - The authentication service timed out"
  else VUndef.

(** The error thrown for a response with a status other than 422.  The
    [throw] of the stringified object sits inside a [try] whose handler
    throws the fixed text instead. *)
Definition normalize_status (r : AxiosResponse) : JsError :=
  let baseErrorMessage :=
    or_else (statusMessages (status r)) (VStr "Authentication failed") in
  let errorMessage :=
    or_else (data_message r) (or_else (data_error r) baseErrorMessage) in
  match errorMessage with
  | VArr items => mkError (array_join ", " items)
  | VObj _ => mkError "Authentication failed with validation errors"
  | other => new_Error other
  end.

(** The [catch] clause of [authenticateWithOTP]. *)
Definition authenticate_error (e : Caught) : JsError :=
  match isAxiosError e, response e with
  | true, Some r =>
      if status r =? 422 then mkError (normalize_422 (data r))
      else normalize_status r
  | _, _ => mkError "Authentication failed"
  end.

Definition authenticateWithOTP (sessions : gmap string JsVal) (email otp : string)
    (now : Z) (http : AxiosOutcome)
    : list Request * Completion AuthToken * gmap string JsVal :=
  let req :=
    mkRequest "POST" "/auth/email-otp/authenticate"
      (authenticate_body sessions email otp) VUndef None in
  match http with
  | Fulfilled r =>
      match read_auth_response now (data r) with
      | Normal tokens => ([req], Normal tokens, delete email sessions)
      | Throw e =>
          ([req], Throw (authenticate_error (mkCaught false (message e) None)), sessions)
      end
  | Rejected e => ([req], Throw (authenticate_error e), sessions)
  end.

End WithRuntime.
End AuthService.

(* ===================================================================== *)
(** ** commands/transfer.ts: the send and bank-withdrawal conversations *)
(* ===================================================================== *)

Module TransferCommands.
Import JsString Regex Patterns Js Http.
Import TransferService AuthService.

(** An incoming [TelegramBot.Message]; [msg_text] is absent for a message
    without text. *)
Record Message : Type := mkMessage {
  msg_chat : Z;
  msg_text : option string
}.

(** An incoming [callback_query]; [cq_chat] is [message.chat.id] when the
    query carries its message. *)
Record CallbackQuery : Type := mkCallback {
  cq_id : string;
  cq_chat : option Z;
  cq_data : option string
}.

(** What a handler does to the outside, in program order.  A keyboard is
    the list of its buttons as (text, callback_data). *)
Inductive Action : Type :=
| SendMessage (chat : Z) (text : string) (keyboard : list (string * string))
| AnswerCallbackQuery (id : string) (text : option string)
| Call (r : Request)
| StartWalletWithdraw (chat : Z)
| StartBankWithdraw (chat : Z).

Definition is_call (a : Action) : bool :=
  match a with Call _ => true | _ => false end.

(** [data === 'literal'] for the possibly absent [callbackQuery.data]. *)
Definition data_is (data : option string) (literal : string) : bool :=
  match data with
  | Some d => String.eqb d literal
  | None => false
  end.

(** Result of running one handler: the state it leaves, what it did, and
    whether its promise was rejected by an exception nobody catches. *)
Record Outcome (S : Type) : Type := mkOutcome {
  next : S;
  actions : list Action;
  rejected : bool
}.
Arguments mkOutcome {S} next actions rejected.
Arguments next {S} o.
Arguments actions {S} o.
Arguments rejected {S} o.

Definition nl : string := String (ascii_of_N 10) "".

(** [msg.text?.trim()] *)
Definition trimmed_text (msg : Message) : JsVal :=
  match msg_text msg with
  | Some t => VStr (trim t)
  | None => VUndef
  end.

Fixpoint digits_value (acc : Z) (s : string) : Z * nat * string :=
  match s with
  | String c s' =>
      if is_digit c
      then
        let '(v, n, rest) := digits_value (acc * 10 + (Z.of_N (code c) - 48)) s' in
        (v, S n, rest)
      else (acc, O, s)
  | EmptyString => (acc, O, EmptyString)
  end.

Definition pow10 (n : nat) : positive := Pos.pow 10 (Pos.of_nat n).

(** [parseFloat]: the value of the longest prefix of the form [digits],
    [digits.], [digits.digits] or [.digits], after leading white space and
    an optional sign; NaN when there is none.  The value is the exact one.
    An exponent part and the literal [Infinity] are not read; the flows
    call [parseFloat] only on a text that has passed [AMOUNT_REGEX], which
    has neither. *)
Definition parseFloat (s : string) : JsVal :=
  let s := trimStart s in
  let '(neg, s) :=
    match s with
    | String c s' =>
        if char_is "-" c then (true, s')
        else if char_is "+" c then (false, s') else (false, s)
    | EmptyString => (false, s)
    end in
  let '(ip, ni, rest) := digits_value 0 s in
  let '(mant, nf) :=
    match rest with
    | String c rest' =>
        if char_is "." c
        then let '(m, nf, _) := digits_value ip rest' in (m, nf)
        else (ip, O)
    | EmptyString => (ip, O)
    end in
  match ni, nf with
  | O, O => VNaN
  | _, _ =>
      let q := match nf with
               | O => inject_Z mant
               | S _ => Qmake mant (pow10 nf)
               end in
      VNum (if neg then Qopp q else q)
  end.

(** [amount <= 0]; a comparison with NaN is false. *)
Definition le_zero (v : JsVal) : bool :=
  match v with
  | VNum q => Qle_bool q 0
  | _ => false
  end.

(** One step of amount validation, shared by the flows: the first reply
    when the text is rejected, else the parsed amount. *)
Definition validate_amount (msg : Message) : string + JsVal :=
  match trimmed_text msg with
  | VStr amountText =>
      if is_empty amountText || negb (test AMOUNT_REGEX amountText)
      then inl "⚠️ Please enter a valid amount (e.g., 10 or 10.5)"
      else
        let amount := parseFloat amountText in
        if le_zero amount then inl "⚠️ Amount must be greater than 0."
        else inr amount
  | _ => inl "⚠️ Please enter a valid amount (e.g., 10 or 10.5)"
  end.

(** [getUserToken] of services/auth.ts, given the stored session. *)
Definition getUserToken (session : option AuthToken) : JsVal :=
  match session with
  | Some sess => token sess
  | None => VUndef
  end.

(** *** The send conversation *)

Record SendDraft : Type := mkSendDraft {
  recipient : JsVal;
  amount : JsVal;
  description : JsVal
}.

Inductive SendListener : Type :=
| EmailListener
| AmountListener
| DescriptionListener.

(** One call of [startSendConversation]: its [chatId], its own
    [userStates] object, and which of its three listeners is currently
    registered for ['message'].  Its [callback_query] handler stays
    registered for good. *)
Record SendConversation : Type := mkSend {
  chatId : Z;
  userStates : gmap Z SendDraft;
  listening : option SendListener
}.

(** The state in which the send flow waits for the amount: the amount
    listener is registered and the recipient step has stored its draft. *)
Definition awaiting_amount (c : SendConversation) : Prop :=
  listening c = Some AmountListener /\ is_Some (userStates c !! chatId c).

Record WalletDraft : Type := mkWalletDraft {
  address : JsVal;
  wallet_amount : JsVal;
  network : JsVal
}.

Inductive WalletListener : Type :=
| AddressListener
| WalletAmountListener.

(** One call of [startWalletWithdrawConversation]: which of its two
    listeners is registered, and how many [callback_query] handlers its
    amount step has registered so far. *)
Record WalletConversation : Type := mkWallet {
  wallet_chat : Z;
  wallet_states : gmap Z WalletDraft;
  wallet_listening : option WalletListener;
  wallet_handlers : nat
}.

(** What the awaited calls of the confirmation handler return: the session
    read by [getUserToken], the one read by [getDefaultWallet], and the
    outcomes of the two requests. *)
Record ConfirmEnv : Type := mkEnv {
  token_session : option AuthToken;
  wallet_session : option AuthToken;
  wallet_http : AxiosOutcome;
  submit_http : AxiosOutcome
}.

Section WithRuntime.
Context `{RT : JsRuntime}.

Definition startSendConversation (chat : Z) : Outcome SendConversation :=
  mkOutcome (mkSend chat ∅ (Some EmailListener))
    [SendMessage chat
       ("📤 *Send Funds*" +:+ nl +:+ nl +:+ "Please enter the recipient's email address:") []]
    false.

Definition emailListener (c : SendConversation) (msg : Message) : Outcome SendConversation :=
  if negb (msg_chat msg =? chatId c) then mkOutcome c [] false
  else
    match trimmed_text msg with
    | VStr email =>
        if is_empty email || negb (includes "@" email)
        then mkOutcome c [SendMessage (chatId c) "⚠️ Please enter a valid email address." []] false
        else
          mkOutcome
            (mkSend (chatId c)
               (<[chatId c := mkSendDraft (VStr email) VUndef VUndef]> (userStates c))
               (Some AmountListener))
            [SendMessage (chatId c)
               ("Please enter the amount in USDC to send to " +:+ email +:+ ":") []]
            false
    | _ => mkOutcome c [SendMessage (chatId c) "⚠️ Please enter a valid email address." []] false
    end.

Definition amountListener (c : SendConversation) (msg : Message) : Outcome SendConversation :=
  if negb (msg_chat msg =? chatId c) then mkOutcome c [] false
  else
    match validate_amount msg with
    | inl reply => mkOutcome c [SendMessage (chatId c) reply []] false
    | inr parsed =>
        match userStates c !! chatId c with
        | None => mkOutcome c [] true
        | Some d =>
            mkOutcome
              (mkSend (chatId c)
                 (<[chatId c := mkSendDraft (recipient d) parsed (description d)]> (userStates c))
                 (Some DescriptionListener))
              [SendMessage (chatId c)
                 "Please enter a description for this transfer (optional, type 'skip' to leave blank):" []]
              false
        end
    end.

Definition confirm_send_keyboard : list (string * string) :=
  [("✅ Confirm", "confirm_send"); ("❌ Cancel", "cancel_send")].

Definition descriptionListener (c : SendConversation) (msg : Message) : Outcome SendConversation :=
  if negb (msg_chat msg =? chatId c) then mkOutcome c [] false
  else
    let description :=
      match trimmed_text msg with
      | VStr t => if String.eqb (toLowerCase t) "skip" then VStr "" else VStr t
      | other => other
      end in
    match userStates c !! chatId c with
    | None => mkOutcome c [] true
    | Some d =>
        let d' := mkSendDraft (recipient d) (amount d) description in
        mkOutcome
          (mkSend (chatId c) (<[chatId c := d']> (userStates c)) None)
          [SendMessage (chatId c)
             ("📤 *Transfer Confirmation*" +:+ nl +:+ nl +:+
              "To: " +:+ ToString (recipient d') +:+ nl +:+
              "Amount: " +:+ ToString (amount d') +:+ " USDC" +:+ nl +:+
              (if truthy description
               then "Description: " +:+ ToString description +:+ nl +:+ nl
               else nl) +:+
              "Please confirm this transfer:")
             confirm_send_keyboard]
          false
    end.

(** Delivery of a ['message'] event to the conversation. *)
Definition on_message (c : SendConversation) (msg : Message) : Outcome SendConversation :=
  match listening c with
  | Some EmailListener => emailListener c msg
  | Some AmountListener => amountListener c msg
  | Some DescriptionListener => descriptionListener c msg
  | None => mkOutcome c [] false
  end.

Definition something_went_wrong (chat : Z) (what : string) : Action :=
  SendMessage chat
    ("❌ Something went wrong while processing your " +:+ what +:+ ". Please try again later.") [].

(** The body of the [confirm_send] branch after [answerCallbackQuery]. *)
Definition confirm_send (c : SendConversation) (env : ConfirmEnv) : Outcome SendConversation :=
  let chat := chatId c in
  match userStates c !! chat with
  | None =>
      mkOutcome c
        [SendMessage chat "❌ Transfer data not found. Please start again with /send" []] false
  | Some userData =>
      let token := getUserToken (token_session env) in
      if negb (truthy token)
      then mkOutcome c
             [SendMessage chat "⚠️ Authentication error. Please login again with /login" []] false
      else
        let '(wallet_calls, defaultWallet) :=
          getDefaultWallet (wallet_session env) (wallet_http env) in
        let wallet_actions := map Call wallet_calls in
        match defaultWallet with
        | Throw error =>
            mkOutcome c
              (wallet_actions ++
               [SendMessage chat
                  ("❌ Couldn't retrieve your default wallet: " +:+ message error) []])
              false
        | Normal wallet =>
            if negb (truthy wallet)
            then mkOutcome c
                   (wallet_actions ++
                    [SendMessage chat
                       "❌ Couldn't retrieve your default wallet: Unknown error" []])
                   false
            else
              let processing := SendMessage chat "🔄 Processing your transfer..." [] in
              match toString_method (amount userData) with
              | Throw _ =>
                  mkOutcome c
                    (wallet_actions ++ [processing; something_went_wrong chat "transfer"])
                    false
              | Normal amount_text =>
                  let '(calls, result) :=
                    sendFunds token (recipient userData) (VStr amount_text)
                      (or_else (description userData) (VStr "")) (submit_http env) in
                  let done := wallet_actions ++ [processing] ++ map Call calls in
                  if success result && truthy (result_data result)
                  then
                    mkOutcome
                      (mkSend chat (delete chat (userStates c)) (listening c))
                      (done ++
                       [SendMessage chat
                          ("✅ *Transfer Successful!*" +:+ nl +:+ nl +:+
                           "Amount: " +:+ ToString (amount userData) +:+ " USDC" +:+ nl +:+
                           "Recipient: " +:+ ToString (recipient userData) +:+ nl +:+ nl +:+
                           "Transaction ID: `" +:+ ToString (prop (result_data result) "id") +:+ "`")
                          []])
                      false
                  else
                    mkOutcome c
                      (done ++
                       [SendMessage chat
                          ("❌ Transfer failed: " +:+
                           ToString (or_else (opt_member (result_data result) "message")
                                       (VStr "Unknown error")))
                          []])
                      false
              end
        end
  end.

(** The [callback_query] handler registered by [startSendConversation]. *)
Definition on_callback (c : SendConversation) (q : CallbackQuery) (env : ConfirmEnv)
    : Outcome SendConversation :=
  match cq_chat q with
  | None => mkOutcome c [] false
  | Some chat =>
      if negb (chat =? chatId c) then mkOutcome c [] false
      else
        let action := cq_data q in
        if data_is action "confirm_send" then
          let r := confirm_send c env in
          mkOutcome (next r) (AnswerCallbackQuery (cq_id q) None :: actions r) (rejected r)
        else if data_is action "cancel_send" then
          mkOutcome
            (mkSend (chatId c) (delete (chatId c) (userStates c)) (listening c))
            [AnswerCallbackQuery (cq_id q) (Some "Transfer canceled");
             SendMessage (chatId c) "❌ Transfer has been canceled." []]
            false
        else if data_is action "withdraw_wallet" then
          mkOutcome c [AnswerCallbackQuery (cq_id q) None; StartWalletWithdraw (chatId c)] false
        else if data_is action "withdraw_bank" then
          mkOutcome c [AnswerCallbackQuery (cq_id q) None; StartBankWithdraw (chatId c)] false
        else mkOutcome c [] false
  end.

(** *** The bank-withdrawal conversation *)

Record BankDraft : Type := mkBankDraft { bank_amount : JsVal }.

(** One call of [startBankWithdrawConversation]: whether its amount
    listener is registered, and how many [callback_query] handlers its
    amount step has registered so far. *)
Record BankConversation : Type := mkBank {
  bank_chat : Z;
  bank_states : gmap Z BankDraft;
  bank_listening : bool;
  bank_handlers : nat
}.

Definition confirm_bank_keyboard : list (string * string) :=
  [("✅ Confirm", "confirm_bank_withdraw"); ("❌ Cancel", "cancel_withdraw")].

Definition startBankWithdrawConversation (chat : Z) : Outcome BankConversation :=
  mkOutcome (mkBank chat ∅ true 0)
    [SendMessage chat
       ("🏦 *Withdraw to Bank Account*" +:+ nl +:+ nl +:+
        "Please enter the amount in USDC to withdraw:") []]
    false.

Definition bank_amountListener (c : BankConversation) (msg : Message) : Outcome BankConversation :=
  if negb (msg_chat msg =? bank_chat c) then mkOutcome c [] false
  else
    match validate_amount msg with
    | inl reply => mkOutcome c [SendMessage (bank_chat c) reply []] false
    | inr parsed =>
        mkOutcome
          (mkBank (bank_chat c)
             (<[bank_chat c := mkBankDraft parsed]> (bank_states c))
             false (S (bank_handlers c)))
          [SendMessage (bank_chat c)
             ("🏦 *Bank Withdrawal Confirmation*" +:+ nl +:+ nl +:+
              "Amount: " +:+ ToString parsed +:+ " USDC" +:+ nl +:+ nl +:+
              "Note: The funds will be sent to your bank account on file." +:+ nl +:+ nl +:+
              "Please confirm this withdrawal:")
             confirm_bank_keyboard]
          false
    end.

Definition bank_on_message (c : BankConversation) (msg : Message) : Outcome BankConversation :=
  if bank_listening c then bank_amountListener c msg else mkOutcome c [] false.

(** The body of the [confirm_bank_withdraw] branch after
    [answerCallbackQuery]. *)
Definition confirm_bank_withdraw (c : BankConversation) (env : ConfirmEnv)
    : Outcome BankConversation :=
  let chat := bank_chat c in
  match bank_states c !! chat with
  | None =>
      mkOutcome c
        [SendMessage chat "❌ Withdrawal data not found. Please start again with /withdraw" []] false
  | Some userData =>
      let token := getUserToken (token_session env) in
      if negb (truthy token)
      then mkOutcome c
             [SendMessage chat "⚠️ Authentication error. Please login again with /login" []] false
      else
        let processing := SendMessage chat "🔄 Processing your bank withdrawal..." [] in
        match toString_method (bank_amount userData) with
        | Throw _ =>
            mkOutcome c [processing; something_went_wrong chat "bank withdrawal"] false
        | Normal amount_text =>
            let '(calls, result) :=
              withdrawToBank token (VStr amount_text) (VStr "") (submit_http env) in
            let done := [processing] ++ map Call calls in
            if success result && truthy (result_data result)
            then
              mkOutcome
                (mkBank chat (delete chat (bank_states c)) (bank_listening c) (bank_handlers c))
                (done ++
                 [SendMessage chat
                    ("✅ *Bank Withdrawal Initiated!*" +:+ nl +:+ nl +:+
                     "Amount: " +:+ ToString (bank_amount userData) +:+ " USDC" +:+ nl +:+ nl +:+
                     "Your funds will be transferred to your bank account on file. This process typically takes 1-3 business days." +:+ nl +:+ nl +:+
                     "Transaction ID: `" +:+ ToString (prop (result_data result) "id") +:+ "`")
                    []])
                false
            else
              mkOutcome c
                (done ++
                 [SendMessage chat
                    ("❌ Bank withdrawal failed: " +:+
                     ToString (or_else (opt_member (result_data result) "message")
                                 (VStr "Unknown error")))
                    []])
                false
        end
  end.

(** One of the [callback_query] handlers registered by the amount step. *)
Definition bank_callback_handler (c : BankConversation) (q : CallbackQuery) (env : ConfirmEnv)
    : Outcome BankConversation :=
  match cq_chat q with
  | None => mkOutcome c [] false
  | Some chat =>
      if negb (chat =? bank_chat c) then mkOutcome c [] false
      else
        let data := cq_data q in
        if data_is data "confirm_bank_withdraw" then
          let r := confirm_bank_withdraw c env in
          mkOutcome (next r) (AnswerCallbackQuery (cq_id q) None :: actions r) (rejected r)
        else if data_is data "cancel_withdraw" then
          mkOutcome
            (mkBank (bank_chat c) (delete (bank_chat c) (bank_states c))
               (bank_listening c) (bank_handlers c))
            [AnswerCallbackQuery (cq_id q) (Some "Withdrawal canceled");
             SendMessage (bank_chat c) "❌ Withdrawal has been canceled." []]
            false
        else mkOutcome c [] false
  end.

(** Delivery of a [callback_query] event: absent before the amount step
    has registered the handler. *)
Definition bank_on_callback (c : BankConversation) (q : CallbackQuery) (env : ConfirmEnv)
    : Outcome BankConversation :=
  match bank_handlers c with
  | O => mkOutcome c [] false
  | S _ => bank_callback_handler c q env
  end.

(** *** The wallet-withdrawal conversation *)

Definition startWalletWithdrawConversation (chat : Z) : Outcome WalletConversation :=
  mkOutcome (mkWallet chat ∅ (Some AddressListener) 0)
    [SendMessage chat
       ("🔑 *Withdraw to External Wallet*" +:+ nl +:+ nl +:+
        "Please enter the destination wallet address:") []]
    false.

Definition addressListener (c : WalletConversation) (msg : Message) : Outcome WalletConversation :=
  if negb (msg_chat msg =? wallet_chat c) then mkOutcome c [] false
  else
    match trimmed_text msg with
    | VStr address =>
        if is_empty address || (String.length address <? 32)%nat
        then mkOutcome c
               [SendMessage (wallet_chat c) "⚠️ Please enter a valid wallet address." []] false
        else
          mkOutcome
            (mkWallet (wallet_chat c)
               (<[wallet_chat c := mkWalletDraft (VStr address) VUndef VUndef]> (wallet_states c))
               (Some WalletAmountListener) (wallet_handlers c))
            [SendMessage (wallet_chat c) "Please enter the amount in USDC to withdraw:" []]
            false
    | _ => mkOutcome c
             [SendMessage (wallet_chat c) "⚠️ Please enter a valid wallet address." []] false
    end.

Definition network_keyboard : list (string * string) :=
  [("Solana", "network_solana"); ("Ethereum", "network_ethereum")].

Definition wallet_amountListener (c : WalletConversation) (msg : Message)
    : Outcome WalletConversation :=
  if negb (msg_chat msg =? wallet_chat c) then mkOutcome c [] false
  else
    match validate_amount msg with
    | inl reply => mkOutcome c [SendMessage (wallet_chat c) reply []] false
    | inr parsed =>
        match wallet_states c !! wallet_chat c with
        | None => mkOutcome c [] true
        | Some d =>
            mkOutcome
              (mkWallet (wallet_chat c)
                 (<[wallet_chat c := mkWalletDraft (address d) parsed (network d)]>
                    (wallet_states c))
                 None (S (wallet_handlers c)))
              [SendMessage (wallet_chat c) "Please select the network for the withdrawal:"
                 network_keyboard]
              false
        end
    end.

Definition wallet_on_message (c : WalletConversation) (msg : Message)
    : Outcome WalletConversation :=
  match wallet_listening c with
  | Some AddressListener => addressListener c msg
  | Some WalletAmountListener => wallet_amountListener c msg
  | None => mkOutcome c [] false
  end.

Definition confirm_wallet_keyboard : list (string * string) :=
  [("✅ Confirm", "confirm_wallet_withdraw"); ("❌ Cancel", "cancel_withdraw")].

(** The body of the [confirm_wallet_withdraw] branch after
    [answerCallbackQuery]. *)
Definition confirm_wallet_withdraw (c : WalletConversation) (env : ConfirmEnv)
    : Outcome WalletConversation :=
  let chat := wallet_chat c in
  match wallet_states c !! chat with
  | None =>
      mkOutcome c
        [SendMessage chat "❌ Withdrawal data not found. Please start again with /withdraw" []] false
  | Some userData =>
      let token := getUserToken (token_session env) in
      if negb (truthy token)
      then mkOutcome c
             [SendMessage chat "⚠️ Authentication error. Please login again with /login" []] false
      else
        let processing := SendMessage chat "🔄 Processing your withdrawal..." [] in
        match toString_method (wallet_amount userData) with
        | Throw _ =>
            mkOutcome c [processing; something_went_wrong chat "withdrawal"] false
        | Normal amount_text =>
            let '(calls, result) :=
              withdrawToWallet token (address userData) (VStr amount_text)
                (network userData) (submit_http env) in
            let done := [processing] ++ map Call calls in
            if success result && truthy (result_data result)
            then
              mkOutcome
                (mkWallet chat (delete chat (wallet_states c))
                   (wallet_listening c) (wallet_handlers c))
                (done ++
                 [SendMessage chat
                    ("✅ *Withdrawal Initiated!*" +:+ nl +:+ nl +:+
                     "Amount: " +:+ ToString (wallet_amount userData) +:+ " USDC" +:+ nl +:+
                     "To: " +:+ ToString (address userData) +:+ nl +:+
                     "Network: " +:+ ToString (network userData) +:+ nl +:+ nl +:+
                     "Transaction ID: `" +:+ ToString (prop (result_data result) "id") +:+ "`")
                    []])
                false
            else
              mkOutcome c
                (done ++
                 [SendMessage chat
                    ("❌ Withdrawal failed: " +:+
                     ToString (or_else (opt_member (result_data result) "message")
                                 (VStr "Unknown error")))
                    []])
                false
        end
  end.

(** One of the [callback_query] handlers registered by the amount step. *)
Definition wallet_callback_handler (c : WalletConversation) (q : CallbackQuery)
    (env : ConfirmEnv) : Outcome WalletConversation :=
  match cq_chat q with
  | None => mkOutcome c [] false
  | Some chat =>
      if negb (chat =? wallet_chat c) then mkOutcome c [] false
      else
        match cq_data q with
        | Some data =>
            if startsWith "network_" data then
              let network := replace_first false "network_" "" data in
              match wallet_states c !! wallet_chat c with
              | None => mkOutcome c [AnswerCallbackQuery (cq_id q) None] true
              | Some d =>
                  let d' := mkWalletDraft (address d) (wallet_amount d) (VStr network) in
                  mkOutcome
                    (mkWallet (wallet_chat c) (<[wallet_chat c := d']> (wallet_states c))
                       (wallet_listening c) (wallet_handlers c))
                    [AnswerCallbackQuery (cq_id q) None;
                     SendMessage (wallet_chat c)
                       ("🔑 *Withdrawal Confirmation*" +:+ nl +:+ nl +:+
                        "To: " +:+ ToString (address d') +:+ nl +:+
                        "Amount: " +:+ ToString (wallet_amount d') +:+ " USDC" +:+ nl +:+
                        "Network: " +:+ network +:+ nl +:+ nl +:+
                        "Please confirm this withdrawal:")
                       confirm_wallet_keyboard]
                    false
              end
            else if String.eqb data "confirm_wallet_withdraw" then
              let r := confirm_wallet_withdraw c env in
              mkOutcome (next r) (AnswerCallbackQuery (cq_id q) None :: actions r) (rejected r)
            else if String.eqb data "cancel_withdraw" then
              mkOutcome
                (mkWallet (wallet_chat c) (delete (wallet_chat c) (wallet_states c))
                   (wallet_listening c) (wallet_handlers c))
                [AnswerCallbackQuery (cq_id q) (Some "Withdrawal canceled");
                 SendMessage (wallet_chat c) "❌ Withdrawal has been canceled." []]
                false
            else mkOutcome c [] false
        | None => mkOutcome c [] false
        end
  end.

Definition wallet_on_callback (c : WalletConversation) (q : CallbackQuery) (env : ConfirmEnv)
    : Outcome WalletConversation :=
  match wallet_handlers c with
  | O => mkOutcome c [] false
  | S _ => wallet_callback_handler c q env
  end.

End WithRuntime.
End TransferCommands.

(* ===================================================================== *)
(** ** commands/auth.ts: the login flow *)
(* ===================================================================== *)

Module AuthCommands.
Import JsString Regex Patterns Js Http.
Import AuthService.
Export TransferCommands.

(** The callbacks the login flow registers with [bot.onText]; each closes
    over the chat that issued [/login], the OTP callback over the email
    too. *)
Inductive Callback : Type :=
| LoginCommand
| EmailCallback (chat : Z)
| OtpCallback (chat : Z) (email : string).

(** An entry of the bot's list of text listeners: the pattern as
    [String(regexp)] renders it, and the callback. *)
Record TextListener : Type := mkListener {
  regexp : string;
  callback : Callback
}.

(** A pending [setTimeout] of the flow. *)
Inductive Timer : Type :=
| EmailTimeout (chat : Z)
| OtpTimeout (chat : Z).

(** The state the flow lives in: the bot's text listeners in registration
    order, the timers not yet fired, the [emailOtpSessions] map of the auth
    service and the session store keyed by chat. *)
Record Bot : Type := mkBot {
  textListeners : list TextListener;
  timers : list Timer;
  emailOtpSessions : gmap string JsVal;
  sessionStore : gmap Z AuthToken
}.

(** Further actions of the login flow, next to those of the transfer
    commands. *)
Inductive AuthAction : Type :=
| Do (a : Action)
| InitializePusher (chat : Z)
| DeleteLoadingMessage (chat : Z).

Record AuthOutcome : Type := mkAuthOutcome {
  bot_next : Bot;
  bot_actions : list AuthAction
}.

Definition say (chat : Z) (text : string) : AuthAction :=
  Do (SendMessage chat text []).

Definition catch_all : string := "/.*/".

(** [bot.onText(regexp, callback)] *)
Definition onText (re : string) (cb : Callback) (b : Bot) : Bot :=
  mkBot (textListeners b ++ [mkListener re cb]) (timers b)
    (emailOtpSessions b) (sessionStore b).

Fixpoint remove_first (re : string) (ls : list TextListener) : list TextListener :=
  match ls with
  | [] => []
  | l :: rest => if String.eqb (regexp l) re then rest else l :: remove_first re rest
  end.

(** [bot.removeTextListener(regexp)]: the first listener whose pattern
    renders as the same string is spliced out, whoever registered it. *)
Definition removeTextListener (re : string) (b : Bot) : Bot :=
  mkBot (remove_first re (textListeners b)) (timers b)
    (emailOtpSessions b) (sessionStore b).

(** [setTimeout(..., 5 * 60 * 1000)] *)
Definition setTimeout (t : Timer) (b : Bot) : Bot :=
  mkBot (textListeners b) (timers b ++ [t]) (emailOtpSessions b) (sessionStore b).

Definition with_otp_sessions (m : gmap string JsVal) (b : Bot) : Bot :=
  mkBot (textListeners b) (timers b) m (sessionStore b).

(** [storeUserSession(chatId, tokens)].  The store keeps the value as it
    is; the real one writes it as JSON and reads it back, which turns a
    NaN among the fields into [null] and leaves the token as it is. *)
Definition storeUserSession (chat : Z) (tokens : AuthToken) (b : Bot) : Bot :=
  mkBot (textListeners b) (timers b) (emailOtpSessions b)
    (<[chat := tokens]> (sessionStore b)).

(** [msg.text?.trim() || ''] *)
Definition text_or_empty (msg : Message) : string :=
  match msg_text msg with
  | Some t => trim t
  | None => ""
  end.

Section WithRuntime.
Context `{RT : JsRuntime}.

(** The [/login] command once [isAuthenticated] has answered. *)
Definition handleLogin (b : Bot) (chat : Z) (authenticated : Completion bool)
    : AuthOutcome :=
  match authenticated with
  | Throw error =>
      mkAuthOutcome b
        [say chat ("❌ An error occurred during login: " +:+ message error +:+
                   ". Please try again.")]
  | Normal true =>
      mkAuthOutcome b
        [say chat "🔒 You are already logged in. Use /profile to view your account details or /logout to sign out."]
  | Normal false =>
      mkAuthOutcome
        (setTimeout (EmailTimeout chat) (onText catch_all (EmailCallback chat) b))
        [say chat "📧 Please enter your Copperx account email:"]
  end.

(** [emailListener] of [handleLogin]: the callback waiting for the email. *)
Definition login_emailListener (b : Bot) (chat : Z) (emailMsg : Message)
    (http : AxiosOutcome) : AuthOutcome :=
  if negb (msg_chat emailMsg =? chat) then mkAuthOutcome b []
  else
    let email := text_or_empty emailMsg in
    let b := removeTextListener catch_all b in
    if negb (test EMAIL_REGEX email)
    then mkAuthOutcome b [say chat "❌ Invalid email format. Please try /login again."]
    else
      let '(calls, sent, sessions) := requestEmailOTP (emailOtpSessions b) email http in
      let b := with_otp_sessions sessions b in
      let called := map (fun r => Do (Call r)) calls in
      match sent with
      | Normal _ =>
          mkAuthOutcome
            (setTimeout (OtpTimeout chat) (onText catch_all (OtpCallback chat email) b))
            (called ++
             [say chat ("✅ OTP sent to " +:+ email +:+ ". Please enter the 6-digit OTP code:")])
      | Throw error =>
          mkAuthOutcome b
            (called ++
             [say chat ("❌ Failed to send OTP: " +:+ message error +:+
                        ". Please try /login again.")])
      end.

(** [getUserProfile(chatId)] of services/auth.ts. *)
Definition getUserProfile (session : option AuthToken) (http : AxiosOutcome)
    : list Request * Completion JsVal :=
  match session with
  | None => ([], Throw (mkError "User not authenticated"))
  | Some sess =>
      let req :=
        mkRequest "GET" "/auth/me" VUndef VUndef
          (Some ("Bearer " +:+ ToString (token sess))) in
      match http with
      | Fulfilled r =>
          if truthy (data r) then ([req], Normal (data r))
          else ([req], Throw (mkError "Failed to fetch user profile"))
      | Rejected e =>
          match isAxiosError e, response e with
          | true, Some r =>
              ([req],
               Throw (new_Error (or_else (data_message r)
                                   (or_else (data_error r)
                                      (VStr "Failed to fetch user profile")))))
          | _, _ => ([req], Throw (mkError "Failed to fetch user profile"))
          end
      end
  end.

(** The text shown for a failed authentication, from the message of the
    caught error (what is caught is always an [Error]: the auth service
    throws nothing else). *)
Definition userFriendlyMessage (raw : string) : string :=
  let errorMessage := trim raw in
  let has (p : string) := includes p errorMessage in
  if has "sid" && (has "required" || has "missing")
  then "Session ID is missing. Please restart the login process."
  else if has "validation failed" || has "Unprocessable Entity"
  then "Validation failed. Please ensure your OTP is correct."
  else if has "expired" || has "timeout"
  then "Your OTP code has expired. Please request a new one."
  else if has "incorrect" || has "invalid" || has "wrong"
  then "The OTP you entered is incorrect. Please check and try again."
  else if has "too many attempts" || has "rate limit"
  then "Too many failed attempts. Please wait a moment before trying again."
  else if includes "email" (toLowerCase errorMessage) && (has "not found" || has "unknown")
  then "This email is not registered. Please check your email or sign up first."
  else if has "unauthorized" || has "Unauthorized"
  then "Authentication failed. Please ensure you are using the correct credentials."
  else if has "server error" || has "500"
  then "Server error occurred. Please try again later."
  else if has "[object Object]"
  then "Authentication failed due to a system error. Please try again."
  else
    let n := String.length errorMessage in
    let cleaned := replace_all n false ["[object Object]"] "system error" errorMessage in
    let cleaned := replace_first true "Error:" "" cleaned in
    let cleaned :=
      replace_all (String.length cleaned) false
        ["{"; "}"; "["; "]"; String (ascii_of_N 34) ""] "" cleaned in
    let cleaned :=
      replace_all (String.length cleaned) true
        ["sid"; "session_id"; "token"; "jwt"] "login credentials" cleaned in
    let cleaned := trim cleaned in
    if (100 <? String.length cleaned)%nat
       || test (AtLeast 20 (Cls (fun c => is_alpha c || is_digit c
                                             || char_is "-" c || char_is "_" c)))
            cleaned
    then "Authentication failed. Please try again."
    else cleaned.

(** What the awaited calls of the OTP callback return. *)
Record OtpEnv : Type := mkOtpEnv {
  authenticate_http : AxiosOutcome;
  now : Z;
  profile_http : AxiosOutcome
}.

(** [otpListener]: the callback waiting for the OTP. *)
Definition otpListener (b : Bot) (chat : Z) (email : string) (otpMsg : Message)
    (env : OtpEnv) : AuthOutcome :=
  if negb (msg_chat otpMsg =? chat) then mkAuthOutcome b []
  else
    let otp := text_or_empty otpMsg in
    let b := removeTextListener catch_all b in
    if negb (test OTP_REGEX otp)
    then mkAuthOutcome b [say chat "❌ Invalid OTP format. Please try /login again."]
    else
      let loading := say chat "🔄 Authenticating..." in
      let failed (b : Bot) (done : list AuthAction) (error : JsError) :=
        mkAuthOutcome b
          (done ++
           [say chat ("❌ " +:+ userFriendlyMessage (message error) +:+
                      " Please try /login again.")]) in
      let '(calls, authToken, sessions) :=
        authenticateWithOTP (emailOtpSessions b) email otp (now env)
          (authenticate_http env) in
      let b := with_otp_sessions sessions b in
      let done := loading :: map (fun r => Do (Call r)) calls in
      match authToken with
      | Throw error => failed b done error
      | Normal authToken =>
          let b := storeUserSession chat authToken b in
          let '(calls, profile) :=
            getUserProfile (sessionStore b !! chat) (profile_http env) in
          let done := done ++ map (fun r => Do (Call r)) calls in
          match profile with
          | Throw error => failed b done error
          | Normal profile =>
              let b :=
                if truthy (prop profile "organizationId")
                then storeUserSession chat
                       (mkAuthToken (token authToken) (expiresIn authToken)
                          (prop profile "organizationId") (refreshToken authToken)) b
                else b in
              mkAuthOutcome b
                (done ++
                 [InitializePusher chat;
                  DeleteLoadingMessage chat;
                  say chat
                    ("🎉 Welcome, " +:+ ToString (prop profile "firstName") +:+
                     "! You are now logged in." +:+ nl +:+ nl +:+
                     "You can use the following commands:" +:+ nl +:+
                     "/profile - View your account details" +:+ nl +:+
                     "/wallets - View your wallets" +:+ nl +:+
                     "/balance - Check your balance" +:+ nl +:+
                     "/send - Send funds" +:+ nl +:+
                     "/withdraw - Withdraw funds" +:+ nl +:+
                     "/history - View transaction history")])
          end
      end.

Definition timer_eqb (t u : Timer) : bool :=
  match t, u with
  | EmailTimeout a, EmailTimeout c => a =? c
  | OtpTimeout a, OtpTimeout c => a =? c
  | _, _ => false
  end.

Fixpoint remove_timer (t : Timer) (ts : list Timer) : list Timer :=
  match ts with
  | [] => []
  | x :: rest => if timer_eqb t x then rest else x :: remove_timer t rest
  end.

(** The body of a timer, run when its five minutes have passed. *)
Definition timer_fires (b : Bot) (t : Timer) : AuthOutcome :=
  let b :=
    mkBot (textListeners b) (remove_timer t (timers b))
      (emailOtpSessions b) (sessionStore b) in
  match t with
  | EmailTimeout chat =>
      mkAuthOutcome (removeTextListener catch_all b)
        [say chat "⏰ Email input timeout. Please try /login again."]
  | OtpTimeout chat =>
      mkAuthOutcome (removeTextListener catch_all b)
        [say chat "⏰ OTP verification timeout. Please try /login again."]
  end.

End WithRuntime.
End AuthCommands.

(* ===================================================================== *)
(** ** A runtime to run the model on examples *)
(* ===================================================================== *)

Module SampleRuntime.
Import JsString.

Fixpoint fraction_digits (fuel : nat) (r d : Z) : string :=
  match fuel with
  | O => ""
  | S fuel' =>
      if r =? 0 then ""
      else String (ascii_of_N (48 + Z.to_N (r * 10 / d)))
             (fraction_digits fuel' (r * 10 mod d) d)
  end.

(** Integers and terminating decimals print as [Number.prototype.toString]
    prints them when they have at most fifteen significant digits and lie
    between 1e-6 and 1e21. *)
Definition decimal_toString (q : Q) : string :=
  let n := Z.abs (Qnum q) in
  let d := Z.pos (Qden q) in
  (if Qnum q <? 0 then "-" else "") +:+ pretty (n / d) +:+
  (if n mod d =? 0 then "" else "." +:+ fraction_digits 20 (n mod d) d).

(** The two date strings of the examples, as milliseconds since the epoch. *)
Definition iso_table (s : string) : option Z :=
  if String.eqb s "2025-01-01T00:00:00.000Z" then Some 1735689600000
  else if String.eqb s "2025-01-01T00:05:00.000Z" then Some 1735689900000
  else None.

Definition runtime : JsRuntime :=
  {| Number_toString := decimal_toString; Date_parse := iso_table |}.

End SampleRuntime.

(* ===================================================================== *)
(** ** Validation errors as the specification describes them *)
(* ===================================================================== *)

(** The typed reading of "an array of {property, constraints} objects,
    with one level of nested children", its rendering as a response body,
    and the text the specification asks for.  Nothing here is taken from
    the code; the code's [authenticate_error] is compared with it. *)
Module ValidationErrors.
Import JsString Js.

Record FieldError : Type := mkFieldError {
  fe_property : string;
  fe_constraints : list (string * string)
}.

Inductive ValidationError : Type :=
| Field (f : FieldError)
| Nested (parent : string) (children : list FieldError).

Definition encode_field (f : FieldError) : JsVal :=
  VObj [("property", VStr (fe_property f));
        ("constraints",
         VObj (map (fun kc => (fst kc, VStr (snd kc))) (fe_constraints f)))].

Definition encode (e : ValidationError) : JsVal :=
  match e with
  | Field f => encode_field f
  | Nested parent children =>
      VObj [("property", VStr parent); ("children", VArr (map encode_field children))]
  end.

(** "property: constraint", the constraints of one property separated by
    a comma. *)
Definition fragment_field (pre : string) (f : FieldError) : string :=
  pre +:+ fe_property f +:+ ": " +:+ join ", " (map snd (fe_constraints f)).

(** "parent.child: constraint" for each child; a parent without children
    is reported as invalid. *)
Definition fragment (e : ValidationError) : string :=
  match e with
  | Field f => fragment_field "" f
  | Nested parent children =>
      match children with
      | [] => "Invalid " +:+ parent
      | _ => join "; " (map (fragment_field (parent +:+ ".")) children)
      end
  end.

Definition named (f : FieldError) : Prop := fe_property f <> "".

Definition well_formed (e : ValidationError) : Prop :=
  match e with
  | Field f => named f
  | Nested parent children => parent <> "" /\ Forall named children
  end.

End ValidationErrors.

(* ===================================================================== *)
(** ** Concrete conversations used by the examples *)
(* ===================================================================== *)

Module Scenario.
Import Js Http TransferService AuthService TransferCommands.

Definition session0 : AuthToken :=
  mkAuthToken (VStr "tok-1") (VNum (inject_Z 300)) (VStr "org-1") None.

Definition draft0 : SendDraft :=
  mkSendDraft (VStr "a@b.com") (VNum (Qmake 105 10)) (VStr "").

(** A send conversation whose three steps have been answered. *)
Definition conv0 : SendConversation := mkSend 7 (<[7 := draft0]> ∅) None.

(** A send conversation waiting for the amount. *)
Definition conv_amount : SendConversation :=
  mkSend 7 (<[7 := mkSendDraft (VStr "a@b.com") VUndef VUndef]> ∅) (Some AmountListener).

Definition confirm_tap : CallbackQuery := mkCallback "cb-1" (Some 7) (Some "confirm_send").

Definition wallet_ok : AxiosOutcome :=
  Fulfilled (mkResponse 200 (VObj [("id", VStr "w-1"); ("isDefault", VBool true)])).

Definition submit_ok : AxiosOutcome :=
  Fulfilled (mkResponse 200 (VObj [("id", VStr "tx-1")])).


Definition env_ok : ConfirmEnv := mkEnv (Some session0) (Some session0) wallet_ok submit_ok.

Definition bank0 : BankConversation :=
  mkBank 7 (<[7 := mkBankDraft (VNum (inject_Z 25))]> ∅) false 1.

Definition bank_tap : CallbackQuery :=
  mkCallback "cb-2" (Some 7) (Some "confirm_bank_withdraw").

(** The API refuses with a message; the client rejects with its own
    error. *)
Definition refused : Caught :=
  mkCaught true "Request failed with status code 400"
    (Some (mkResponse 400 (VObj [("message", VStr "Insufficient balance")]))).

(** Midnight of 1 January 2025, in milliseconds. *)
Definition midnight : Z := 1735689600000.

Definition auth_body : JsVal :=
  VObj [("accessToken", VStr "tok-9"); ("expireAt", VStr "2025-01-01T00:05:00.000Z")].

Definition invalid_otp_body : JsVal :=
  VObj [("statusCode", VNum (inject_Z 422));
        ("message",
         VArr (map ValidationErrors.encode
                 [ValidationErrors.Field
                    (ValidationErrors.mkFieldError "otp"
                       [("isLength", "otp must be 6 characters")]);
                  ValidationErrors.Nested "user"
                    [ValidationErrors.mkFieldError "email"
                       [("isEmail", "email must be an email")]]]))].

End Scenario.

(* ===================================================================== *)
(** ** A login, from the command to the timers *)
(* ===================================================================== *)

Module LoginScenario.
Import Js Http AuthService AuthCommands.

(** The bot after start-up, as far as the login flow goes. *)
Definition bot0 : Bot := mkBot [mkListener "/\/login/" LoginCommand] [] ∅ ∅.

Definition otp_requested : AxiosOutcome :=
  Fulfilled (mkResponse 200 (VObj [("sid", VStr "sid-1")])).

Definition otp_env : OtpEnv :=
  mkOtpEnv (Fulfilled (mkResponse 200 Scenario.auth_body)) Scenario.midnight
    (Fulfilled (mkResponse 200
                  (VObj [("firstName", VStr "Ann"); ("organizationId", VStr "org-1")]))).

Section WithRuntime.
Context `{RT : JsRuntime}.

(** Chat 7 sends [/login] ... *)
Definition asked : AuthOutcome := handleLogin bot0 7 (Normal false).

(** ... answers with its email ... *)
Definition emailed : AuthOutcome :=
  login_emailListener (bot_next asked) 7 (mkMessage 7 (Some "a@b.co")) otp_requested.

(** ... and with the code, which the API accepts: chat 7 is logged in. *)
Definition logged_in : AuthOutcome :=
  otpListener (bot_next emailed) 7 "a@b.co" (mkMessage 7 (Some "12 34 56")) otp_env.

(** Chat 8 sends [/login] within the next minutes. *)
Definition other_asked : AuthOutcome := handleLogin (bot_next logged_in) 8 (Normal false).

(** Five minutes after chat 7's [/login], its email timer runs. *)
Definition email_timer_ran : AuthOutcome :=
  timer_fires (bot_next other_asked) (EmailTimeout 7).

(** Then its OTP timer. *)
Definition otp_timer_ran : AuthOutcome :=
  timer_fires (bot_next email_timer_ran) (OtpTimeout 7).

End WithRuntime.
End LoginScenario.

(* ===================================================================== *)
(** ** Runs of the three conversations *)
(* ===================================================================== *)

(** A conversation is driven by the events the bot delivers to its
    listeners: a message, or a button press together with what the calls
    awaited by its handler return.  The states a conversation can be in
    are those its start leaves and those an event leads to. *)
Module Runs.
Import JsString Js Http TransferService AuthService TransferCommands.

Inductive Event : Type :=
| OnMessage (msg : Message)
| OnCallback (q : CallbackQuery) (env : ConfirmEnv).

Section WithRuntime.
Context `{RT : JsRuntime}.

Definition send_step (c : SendConversation) (ev : Event) : Outcome SendConversation :=
  match ev with
  | OnMessage msg => on_message c msg
  | OnCallback q env => on_callback c q env
  end.

Inductive send_reachable : SendConversation -> Prop :=
| send_started chat : send_reachable (next (startSendConversation chat))
| send_stepped c ev : send_reachable c -> send_reachable (next (send_step c ev)).

Definition bank_step (c : BankConversation) (ev : Event) : Outcome BankConversation :=
  match ev with
  | OnMessage msg => bank_on_message c msg
  | OnCallback q env => bank_on_callback c q env
  end.

Inductive bank_reachable : BankConversation -> Prop :=
| bank_started chat : bank_reachable (next (startBankWithdrawConversation chat))
| bank_stepped c ev : bank_reachable c -> bank_reachable (next (bank_step c ev)).

Definition wallet_step (c : WalletConversation) (ev : Event) : Outcome WalletConversation :=
  match ev with
  | OnMessage msg => wallet_on_message c msg
  | OnCallback q env => wallet_on_callback c q env
  end.

Inductive wallet_reachable : WalletConversation -> Prop :=
| wallet_started chat : wallet_reachable (next (startWalletWithdrawConversation chat))
| wallet_stepped c ev : wallet_reachable c -> wallet_reachable (next (wallet_step c ev)).

End WithRuntime.

(** An amount a flow has stored: a number greater than 0. *)
Definition positive_amount (v : JsVal) : Prop :=
  exists q, v = VNum q /\ (0 < q)%Q.

(** What the steps of the send flow keep true of the draft: the recipient
    is a text containing "@", and the amount is not yet set or positive. *)
Definition send_draft_ok (d : SendDraft) : Prop :=
  (exists e, recipient d = VStr e /\ includes "@" e = true)
  /\ (amount d = VUndef \/ positive_amount (amount d)).

Definition bank_draft_ok (d : BankDraft) : Prop := positive_amount (bank_amount d).

(** Of the wallet flow's draft: the address is a text of at least 32
    characters, and the amount is not yet set or positive. *)
Definition wallet_draft_ok (d : WalletDraft) : Prop :=
  (exists a, address d = VStr a /\ (32 <= String.length a)%nat)
  /\ (wallet_amount d = VUndef \/ positive_amount (wallet_amount d)).

Definition send_inv (c : SendConversation) : Prop :=
  forall d, userStates c !! chatId c = Some d -> send_draft_ok d.

Definition bank_inv (c : BankConversation) : Prop :=
  forall d, bank_states c !! bank_chat c = Some d -> bank_draft_ok d.

Definition wallet_inv (c : WalletConversation) : Prop :=
  forall d, wallet_states c !! wallet_chat c = Some d -> wallet_draft_ok d.

End Runs.

(* ===================================================================== *)
(** ** Character classes used to state what texts contain *)
(* ===================================================================== *)

Module TextClasses.
Import JsString.

(** The characters the last branch of the error text removes:
    braces, brackets and the double quote. *)
Definition json_symbol (c : ascii) : bool :=
  char_is "{" c || char_is "}" c || char_is "[" c || char_is "]" c
  || (code c =? 34)%N.

Definition no_json_symbol (c : ascii) : bool := negb (json_symbol c).

Definition json_symbols : list string :=
  ["{"; "}"; "["; "]"; String (ascii_of_N 34) ""].

End TextClasses.

(* ===================================================================== *)
(** ** services/auth.ts: refreshing a session *)
(* ===================================================================== *)

Module TokenRefresh.
Import JsString Js Http AuthService.

Section WithRuntime.
Context `{RT : JsRuntime}.

(** The error the [catch] clause of [refreshToken] throws once it has
    cleared the session. *)
Definition refresh_error (e : Caught) : JsError :=
  match isAxiosError e, response e with
  | true, Some r =>
      new_Error (or_else (data_message r)
                   (or_else (data_error r) (VStr "Failed to refresh token")))
  | _, _ => mkError "Failed to refresh token"
  end.

(** [refreshToken(chatId)] over the session store.  An error thrown inside
    the [try] block is not the client's, so the clause answers it with its
    fixed text. *)
Definition refreshToken (store : gmap Z AuthToken) (chat : Z) (http : AxiosOutcome)
    : list Request * Completion AuthToken * gmap Z AuthToken :=
  match store !! chat with
  | None => ([], Throw (mkError "User not authenticated"), store)
  | Some session =>
      let failed : Completion AuthToken := Throw (mkError "Failed to refresh token") in
      match WalletService.refreshToken session with
      | None => ([], failed, delete chat store)
      | Some old =>
          if negb (truthy old) then ([], failed, delete chat store)
          else
            let req :=
              mkRequest "POST" "/auth/refresh" (VObj [("refreshToken", old)]) VUndef None in
            match http with
            | Rejected e => ([req], Throw (refresh_error e), delete chat store)
            | Fulfilled r =>
                let d := data r in
                if negb (truthy d) || negb (truthy (prop d "token"))
                then ([req], failed, delete chat store)
                else
                  let organizationId :=
                    match prop d "organizationId" with
                    | VUndef => or_else (organizationId session) (VStr "")
                    | v => v
                    end in
                  let fresh := prop d "refreshToken" in
                  let newTokens :=
                    mkAuthToken (prop d "token") (prop d "expiresIn") organizationId
                      (if truthy fresh then Some fresh else None) in
                  ([req], Normal newTokens, <[chat := newTokens]> store)
            end
      end
  end.

End WithRuntime.
End TokenRefresh.

(* ===================================================================== *)
(** ** services/notification.ts *)
(* ===================================================================== *)

Module Notification.
Import JsString Js Http AuthService.

(** A Pusher client as far as the service uses it: the channels it is
    subscribed to. *)
Record Pusher : Type := mkPusher { channels : list string }.

Inductive PusherAction : Type :=
| NewPusher (chat : Z)
| Subscribe (chat : Z) (channel : string)
| Unsubscribe (chat : Z) (channel : string)
| Disconnect (chat : Z).

Section WithRuntime.
Context `{RT : JsRuntime}.

(** [`private-org-${organizationId}`] *)
Definition channelName (organizationId : JsVal) : string :=
  "private-org-" +:+ ToString organizationId.

(** [initializePusher(chatId, bot)]: [session] is what the first read of
    the session store returns, [freshSession] what the read before the
    subscription returns.  The result is the new map of instances, what
    was done, and the client returned ([None] for [null]). *)
Definition initializePusher (pusherInstances : gmap Z Pusher) (chat : Z)
    (session freshSession : option AuthToken)
    : gmap Z Pusher * list PusherAction * option Pusher :=
  match session with
  | None => (pusherInstances, [], None)
  | Some s =>
      if negb (truthy (token s)) || negb (truthy (organizationId s))
      then (pusherInstances, [], None)
      else
        match pusherInstances !! chat with
        | Some p => (pusherInstances, [], Some p)
        | None =>
            match freshSession with
            | None => (pusherInstances, [NewPusher chat], None)
            | Some f =>
                if negb (truthy (organizationId f))
                then (pusherInstances, [NewPusher chat], None)
                else
                  let name := channelName (organizationId f) in
                  let pusherClient := mkPusher [name] in
                  (<[chat := pusherClient]> pusherInstances,
                   [NewPusher chat; Subscribe chat name],
                   Some pusherClient)
            end
        end
  end.

(** [cleanupPusher(chatId)] *)
Definition cleanupPusher (pusherInstances : gmap Z Pusher) (chat : Z)
    (session : option AuthToken) : gmap Z Pusher * list PusherAction :=
  match pusherInstances !! chat with
  | None => (pusherInstances, [])
  | Some _ =>
      let unsubscribed :=
        match session with
        | Some s =>
            if truthy (organizationId s)
            then [Unsubscribe chat (channelName (organizationId s))]
            else []
        | None => []
        end in
      (delete chat pusherInstances, unsubscribed ++ [Disconnect chat])
  end.

End WithRuntime.
End Notification.

(* ===================================================================== *)
(** ** commands/auth.ts: [/logout] *)
(* ===================================================================== *)

Module LogoutCommand.
Import JsString Js Http AuthService TransferCommands Notification.

(** What [/logout] works on: the session store and the Pusher clients. *)
Record Services : Type := mkServices {
  sessions : gmap Z AuthToken;
  pusherInstances : gmap Z Pusher
}.

Inductive LogoutAction : Type :=
| Reply (a : Action)
| Push (a : PusherAction).

Section WithRuntime.
Context `{RT : JsRuntime}.

(** The callback of [handleLogout]; [isAuthenticated] holds when the
    store has a session for the chat. *)
Definition handleLogout (s : Services) (chat : Z) : Services * list LogoutAction :=
  match sessions s !! chat with
  | None =>
      (s, [Reply (SendMessage chat "❌ You are not logged in. Use /login to sign in." [])])
  | Some _ =>
      let '(instances, done) := cleanupPusher (pusherInstances s) chat (sessions s !! chat) in
      (mkServices (delete chat (sessions s)) instances,
       map Push done ++
       [Reply (SendMessage chat
                 "👋 You have been logged out successfully. Use /login to sign in again." [])])
  end.

End WithRuntime.
End LogoutCommand.

(* ===================================================================== *)
(** ** utils/formatter.ts *)
(* ===================================================================== *)

Module Formatter.
Import JsString.

(** [text.substring(0, n)] *)
Fixpoint substring_to (n : nat) (text : string) : string :=
  match n, text with
  | S n', String c rest => String c (substring_to n' rest)
  | _, _ => EmptyString
  end.

(** [text.substring(n)] *)
Fixpoint substring_from (n : nat) (text : string) : string :=
  match n, text with
  | S n', String _ rest => substring_from n' rest
  | _, _ => text
  end.

(** [truncateMiddle(text, startChars, endChars)] for counts that are
    natural numbers; a start index below 0 is taken as 0, as the
    truncated subtraction gives it. *)
Definition truncateMiddle (text : string) (startChars endChars : nat) : string :=
  if is_empty text then ""
  else if (String.length text <=? startChars + endChars)%nat then text
  else substring_to startChars text +:+ "..." +:+
       substring_from (String.length text - endChars) text.

Definition formatWalletAddress (address : string) : string :=
  if is_empty address || (String.length address <? 10)%nat then address
  else truncateMiddle address 6 4.

End Formatter.

(* ===================================================================== *)
(** ** commands/wallet.ts *)
(* ===================================================================== *)

Module WalletCommands.
Import JsString Js Http AuthService TransferCommands.

(** The entry of [defaultWalletStates] for a chat. *)
Record DefaultWalletState : Type := mkDefaultWalletState {
  awaitingSelection : bool;
  wallets : JsVal
}.

Inductive WalletAction : Type :=
| Bot (a : Action)
| EditMessageReplyMarkup (chat : Z).

(** [isAuthenticated(chatId)] where the call is not awaited: the promise
    itself, an object. *)
Definition isAuthenticated_promise : JsVal := VObj [].

(** The replies of the three commands to a chat that is not logged in
    all begin alike. *)
Definition is_login_prompt (a : Action) : bool :=
  match a with
  | SendMessage _ text _ => startsWith "You need to be logged in" text
  | _ => false
  end.

(** [v.length === 0] for a truthy [v]. *)
Definition length_is_zero (v : JsVal) : bool :=
  match v with
  | VArr [] => true
  | _ => false
  end.

(** [s.split(sep)] for a separator of one character. *)
Fixpoint split (sep : ascii) (s : string) : list string :=
  match s with
  | EmptyString => [EmptyString]
  | String c rest =>
      if char_is sep c then EmptyString :: split sep rest
      else
        match split sep rest with
        | first :: others => String c first :: others
        | [] => [String c EmptyString]
        end
  end.

(** A character other than the colon. *)
Definition no_colon (c : ascii) : bool := negb (char_is ":" c).

(** [parts[i]] *)
Definition at_index (parts : list string) (i : nat) : JsVal :=
  match nth_error parts i with
  | Some p => VStr p
  | None => VUndef
  end.

Section WithRuntime.
Context `{RT : JsRuntime}.

(** [v.map(f)] for a truthy [v]: only an array has [map]. *)
Definition array_map {A : Type} (f : JsVal -> Completion A) (v : JsVal)
    : Completion (list A) :=
  match v with
  | VArr items => mapM f items
  | _ => Throw TypeError
  end.

(** [formatWalletBalance] of services/wallet.ts. *)
Definition formatWalletBalance (balance : JsVal) : Completion string :=
  bind (member balance "name") (fun name =>
  Normal (ToString name +:+ " (" +:+ ToString (prop balance "network") +:+ "): " +:+
          ToString (prop balance "balance") +:+ " USDC " +:+
          (if truthy (prop balance "isDefault") then "(Default)" else ""))).

Definition say (chat : Z) (text : string) : Action := SendMessage chat text [].

Definition calls_of (calls : list Request) : list Action := map Call calls.

Definition balanceCommand (chat : Z) (session : option AuthToken) (http : AxiosOutcome)
    : list Action :=
  if negb (truthy isAuthenticated_promise)
  then [say chat "You need to be logged in to view your wallet balances. Use /login to authenticate."]
  else
    let fetching := say chat "Fetching your wallet balances, please wait..." in
    let '(calls, balances) := getWalletBalances session http in
    let failed (error : JsError) :=
      fetching :: calls_of calls ++
      [say chat ("Error fetching wallet balances: " +:+ message error)] in
    match balances with
    | Throw error => failed error
    | Normal balances =>
        if negb (truthy balances) || length_is_zero balances
        then fetching :: calls_of calls ++
             [say chat "You don't have any wallets yet. Please contact support for assistance."]
        else
          match array_map formatWalletBalance balances with
          | Throw error => failed error
          | Normal balanceMessages =>
              fetching :: calls_of calls ++
              [say chat
                 (nl +:+ "*Your Wallet Balances*" +:+ nl +:+ nl +:+
                  join nl balanceMessages +:+ nl +:+ nl +:+
                  "Use /wallets to see all your wallets." +:+ nl +:+
                  "Use /setdefaultwallet to change your default wallet." +:+ nl)]
          end
    end.

(** The callback mapped over the wallets by [walletsCommand]. *)
Definition wallet_text (wallet : JsVal) : Completion string :=
  bind (member wallet "name") (fun name =>
  Normal (ToString name +:+ " (" +:+ ToString (prop wallet "network") +:+ "):" +:+ nl +:+
          "Address: `" +:+ ToString (prop wallet "address") +:+ "`" +:+ nl +:+
          (if truthy (prop wallet "isDefault") then "✅ Default Wallet" else ""))).

Definition walletsCommand (chat : Z) (session : option AuthToken) (http : AxiosOutcome)
    : list Action :=
  if negb (truthy isAuthenticated_promise)
  then [say chat "You need to be logged in to view your wallets. Use /login to authenticate."]
  else
    let fetching := say chat "Fetching your wallets, please wait..." in
    let '(calls, wallets) := getWallets session http in
    let failed (error : JsError) :=
      fetching :: calls_of calls ++
      [say chat ("Error fetching wallets: " +:+ message error)] in
    match wallets with
    | Throw error => failed error
    | Normal wallets =>
        if negb (truthy wallets) || length_is_zero wallets
        then fetching :: calls_of calls ++
             [say chat "You don't have any wallets yet. Please contact support for assistance."]
        else
          match array_map wallet_text wallets with
          | Throw error => failed error
          | Normal walletMessages =>
              fetching :: calls_of calls ++
              [say chat
                 (nl +:+ "*Your Wallets*" +:+ nl +:+ nl +:+
                  join (nl +:+ nl) walletMessages +:+ nl +:+ nl +:+
                  "Use /balance to check your balances." +:+ nl +:+
                  "Use /setdefaultwallet to change your default wallet." +:+ nl)]
          end
    end.

(** The button [setDefaultWalletCommand] makes for a wallet, as
    (text, callback_data). *)
Definition wallet_button (wallet : JsVal) : Completion (string * string) :=
  bind (member wallet "name") (fun name =>
  Normal (ToString name +:+ " (" +:+ ToString (prop wallet "network") +:+ ")" +:+
          (if truthy (prop wallet "isDefault") then " ✅" else ""),
          "default_wallet:" +:+ ToString (prop wallet "id"))).

(** [setDefaultWalletCommand]: the new [defaultWalletStates], what was
    done, and whether the command has registered its [callback_query]
    handler. *)
Definition setDefaultWalletCommand (states : gmap Z DefaultWalletState) (chat : Z)
    (session : option AuthToken) (http : AxiosOutcome)
    : gmap Z DefaultWalletState * list Action * bool :=
  if negb (truthy isAuthenticated_promise)
  then (states,
        [say chat "You need to be logged in to set a default wallet. Use /login to authenticate."],
        false)
  else
    let fetching := say chat "Fetching your wallets, please wait..." in
    let '(calls, wallets) := getWallets session http in
    let failed (error : JsError) :=
      fetching :: calls_of calls ++
      [say chat ("Error fetching wallets: " +:+ message error)] in
    match wallets with
    | Throw error => (states, failed error, false)
    | Normal wallets =>
        if negb (truthy wallets) || length_is_zero wallets
        then (states,
              fetching :: calls_of calls ++
              [say chat "You don't have any wallets to set as default. Please contact support for assistance."],
              false)
        else
          let states := <[chat := mkDefaultWalletState true wallets]> states in
          match array_map wallet_button wallets with
          | Throw error => (states, failed error, false)
          | Normal keyboard =>
              (states,
               fetching :: calls_of calls ++
               [SendMessage chat "Please select the wallet you want to set as default:"
                  keyboard],
               true)
          end
    end.

(** The [callback_query] handler a run of [setDefaultWalletCommand] for
    [chat] has registered. *)
Definition default_wallet_handler (chat : Z) (states : gmap Z DefaultWalletState)
    (q : CallbackQuery) (session : option AuthToken) (http : AxiosOutcome)
    : gmap Z DefaultWalletState * list WalletAction :=
  match cq_data q with
  | None => (states, [])
  | Some data =>
      if negb (startsWith "default_wallet:" data) then (states, [])
      else if negb (match cq_chat q with Some c => c =? chat | None => false end)
      then (states, [])
      else
        match states !! chat with
        | None => (states, [])
        | Some state =>
            if negb (awaitingSelection state) then (states, [])
            else
              let walletId := at_index (split ":" data) 1 in
              let answered :=
                Bot (AnswerCallbackQuery (cq_id q) (Some "Processing your selection...")) in
              let '(calls, updatedWallet) := setDefaultWallet walletId session http in
              let done := answered :: map Bot (calls_of calls) in
              let failed (error : JsError) :=
                Bot (say chat ("Error setting default wallet: " +:+ message error)) in
              match updatedWallet with
              | Throw error => (states, done ++ [failed error])
              | Normal updatedWallet =>
                  let states := delete chat states in
                  match member updatedWallet "name" with
                  | Throw error => (states, done ++ [failed error])
                  | Normal name =>
                      (states,
                       done ++
                       [Bot (say chat
                               ("✅ Your default wallet has been updated to: " +:+
                                ToString name +:+ " (" +:+
                                ToString (prop updatedWallet "network") +:+ ")"));
                        EditMessageReplyMarkup chat])
                  end
              end
        end
  end.

End WithRuntime.
End WalletCommands.

(* ===================================================================== *)
(** ** commands/transfer.ts: [/history] *)
(* ===================================================================== *)

Module HistoryCommand.
Import JsString Js Http TransferService AuthService TransferCommands.

Section WithFormatters.
Context `{RT : JsRuntime}.

(** [formatDate] and [formatTransferAmount] of utils/formatter.ts, which
    rest on [Intl.DateTimeFormat] and [toFixed]: what they return for a
    value, or that they throw. *)
Variable formatDate : JsVal -> Completion string.
Variable formatTransferAmount : JsVal -> Completion string.

(** The lines the [forEach] callback adds for a transaction. *)
Definition transaction_text (index : nat) (tx : JsVal) : Completion string :=
  bind (member tx "createdAt") (fun createdAt =>
  bind (formatDate createdAt) (fun date =>
  bind (formatTransferAmount (prop tx "amount")) (fun amount =>
  let type := or_else (prop tx "type") (VStr "Transaction") in
  let status := or_else (prop tx "status") (VStr "Completed") in
  Normal ("*" +:+ Number_toString (inject_Z (Z.of_nat (S index))) +:+ ". " +:+
          ToString type +:+ "*" +:+ nl +:+
          "💰 Amount: " +:+ amount +:+ " USDC" +:+ nl +:+
          "📅 Date: " +:+ date +:+ nl +:+
          "🔄 Status: " +:+ ToString status +:+ nl +:+
          (if truthy (prop tx "recipient")
           then "👤 Recipient: " +:+ ToString (prop tx "recipient") +:+ nl else "") +:+
          (if truthy (prop tx "sender")
           then "👤 Sender: " +:+ ToString (prop tx "sender") +:+ nl else "") +:+
          nl)))).

(** The [forEach] over the transactions shown, from position [index]. *)
Fixpoint transactions_text (index : nat) (txs : list JsVal) : Completion string :=
  match txs with
  | [] => Normal ""
  | tx :: rest =>
      bind (transaction_text index tx) (fun t =>
      bind (transactions_text (S index) rest) (fun ts => Normal (t +:+ ts)))
  end.

Definition history_failed (chat : Z) : Action :=
  SendMessage chat
    "❌ Something went wrong while fetching your transaction history. Please try again later."
    [].

(** [historyCommand]; [authenticated] is what [isAuthenticated] answers
    and [session] what [getUserToken] reads. *)
Definition historyCommand (chat : Z) (authenticated : bool) (session : option AuthToken)
    (http : AxiosOutcome) : list Action :=
  if negb authenticated
  then [SendMessage chat "⚠️ You need to login first! Use /login to authenticate." []]
  else
    let token := getUserToken session in
    if negb (truthy token)
    then [SendMessage chat "⚠️ Authentication error. Please login again with /login" []]
    else
      let fetching := SendMessage chat "🔍 Fetching your recent transactions..." [] in
      let '(calls, response) := getTransactionHistory token (VNum 1) (VNum 10) http in
      let done := fetching :: map Call calls in
      if negb (success response) || negb (truthy (result_data response))
      then done ++
           [SendMessage chat
              ("❌ Failed to fetch transaction history: " +:+
               ToString (or_else (result_error response) (VStr "Unknown error"))) []]
      else
        let transactions := prop (result_data response) "transfers" in
        if negb (truthy transactions) || WalletCommands.length_is_zero transactions
        then done ++ [SendMessage chat "📝 You don't have any transactions yet." []]
        else
          match transactions with
          | VArr txs =>
              match transactions_text 0 (firstn 10 txs) with
              | Normal entries =>
                  done ++
                  [SendMessage chat
                     ("📜 *Recent Transactions*" +:+ nl +:+ nl +:+ entries +:+
                      "Use /history to refresh this list.") []]
              | Throw _ => done ++ [history_failed chat]
              end
          | _ => done ++ [history_failed chat]
          end.

End WithFormatters.
End HistoryCommand.

(* ===================================================================== *)
(** ** Runs used as examples *)
(* ===================================================================== *)

Module RunScenario.
Import Js Http TransferService AuthService TransferCommands Runs.

Definition cancel_tap : CallbackQuery := mkCallback "cb-3" (Some 7) (Some "cancel_send").

(** A message and a button press of chat 9. *)
Definition stray_message : Message := mkMessage 9 (Some "10.5").
Definition stray_tap : CallbackQuery := mkCallback "cb-4" (Some 9) (Some "confirm_send").

Definition solana_address : string := "9xQeWvG816bUx9EPjHmaT23yvVM2ZWbrrpZb9PusVFin".

Definition polygon_tap : CallbackQuery := mkCallback "cb-5" (Some 7) (Some "network_polygon").
Definition solana_tap : CallbackQuery := mkCallback "cb-6" (Some 7) (Some "network_solana").
Definition wallet_tap : CallbackQuery :=
  mkCallback "cb-7" (Some 7) (Some "confirm_wallet_withdraw").

Section WithRuntime.
Context `{RT : JsRuntime}.

(** The send flow of chat 7 after recipient, amount and description. *)
Definition send_typed : SendConversation :=
  next (send_step
    (next (send_step
      (next (send_step (next (startSendConversation 7))
               (OnMessage (mkMessage 7 (Some "a@b.com")))))
      (OnMessage (mkMessage 7 (Some "10.5")))))
    (OnMessage (mkMessage 7 (Some "skip")))).

(** The bank flow of chat 7 after the amount. *)
Definition bank_typed : BankConversation :=
  next (bank_step (next (startBankWithdrawConversation 7))
          (OnMessage (mkMessage 7 (Some "25")))).

(** The wallet flow of chat 7 after address and amount ... *)
Definition wallet_typed : WalletConversation :=
  next (wallet_step
    (next (wallet_step (next (startWalletWithdrawConversation 7))
             (OnMessage (mkMessage 7 (Some solana_address)))))
    (OnMessage (mkMessage 7 (Some "10.5")))).

(** ... and after the network has been chosen. *)
Definition wallet_chosen : WalletConversation :=
  next (wallet_step wallet_typed (OnCallback solana_tap Scenario.env_ok)).

End WithRuntime.
End RunScenario.

(* ===================================================================== *)
(** ** The shape of validation errors *)
(* ===================================================================== *)

(** What the 422 branch of [authenticateWithOTP] flattens, described on
    the values themselves: an entry may hold any keys besides those
    named, and a constraint may be any value. *)
Module ValidationShapes.
Import JsString Js.

Section WithRuntime.
Context `{RT : JsRuntime}.

(** [v] has the non-empty text [p] as [property] and an object as
    [constraints]; [text] is the renderings of the constraint values,
    separated by a comma. *)
Definition field_shape (v : JsVal) (p text : string) : Prop :=
  p <> ""
  /\ prop v "property" = VStr p
  /\ exists fields,
       prop v "constraints" = VObj fields /\ text = array_join ", " (map snd fields).

(** A child of the parent [p] is a field; its fragment is
    "p.child: constraints". *)
Definition child_shape (p : string) (child : JsVal) (frag : string) : Prop :=
  exists cp text, field_shape child cp text /\ frag = p +:+ "." +:+ cp +:+ ": " +:+ text.

(** An entry and the fragment it contributes: a field gives
    "property: constraints"; an entry without constraints whose
    [children] is an array of fields gives their fragments separated by
    "; ", or "Invalid property" when the array is empty. *)
Inductive entry_shape : JsVal -> string -> Prop :=
| shape_field v p text :
    field_shape v p text -> entry_shape v (p +:+ ": " +:+ text)
| shape_nested v p items frags :
    p <> "" ->
    prop v "property" = VStr p ->
    truthy (prop v "constraints") = false ->
    prop v "children" = VArr items ->
    Forall2 (child_shape p) items frags ->
    entry_shape v (match frags with
                   | [] => "Invalid " +:+ p
                   | _ => join "; " frags
                   end).

End WithRuntime.
End ValidationShapes.

(* ===================================================================== *)
(** ** Runs of the bot's login flows *)
(* ===================================================================== *)

(** The bot runs a callback when a text arrives for a listener that is
    registered, and a timer body when its time has passed. *)
Module LoginRuns.
Import JsString Js Http AuthService AuthCommands.







Section WithRuntime.
Context `{RT : JsRuntime}.




End WithRuntime.
End LoginRuns.

(* ===================================================================== *)
(** ** A validation answer as class-validator writes it *)
(* ===================================================================== *)

Module ValidationScenario.
Import Js.

(** Each error carries its [target] and [value] and a [children] array
    next to [property] and [constraints]. *)
Definition class_validator_body : JsVal :=
  VObj [("statusCode", VNum (inject_Z 422));
        ("message",
         VArr [VObj [("target", VObj [("otp", VStr "1")]);
                     ("value", VStr "1");
                     ("property", VStr "otp");
                     ("children", VArr []);
                     ("constraints",
                      VObj [("isLength", VStr "otp must be 6 characters")])];
               VObj [("target", VObj []);
                     ("value", VObj [("email", VStr "x")]);
                     ("property", VStr "user");
                     ("children",
                      VArr [VObj [("target", VObj [("email", VStr "x")]);
                                  ("value", VStr "x");
                                  ("property", VStr "email");
                                  ("children", VArr []);
                                  ("constraints",
                                   VObj [("isEmail", VStr "email must be an email")])]])]]);
        ("error", VStr "Unprocessable Entity")].

End ValidationScenario.

(* ===================================================================== *)
(** * Properties *)
(* ===================================================================== *)

Module PatternExamples.
Import JsString Regex Patterns.

Example amount_10_5 : test AMOUNT_REGEX "10.5" = true.
Proof. reflexivity. Qed.
Example amount_0 : test AMOUNT_REGEX "0" = true.
Proof. reflexivity. Qed.
Example amount_six_places : test AMOUNT_REGEX "1.123456" = true.
Proof. reflexivity. Qed.
Example amount_seven_places : test AMOUNT_REGEX "1.1234567" = false.
Proof. reflexivity. Qed.
Example amount_negative : test AMOUNT_REGEX "-1" = false.
Proof. reflexivity. Qed.
Example amount_letters : test AMOUNT_REGEX "abc" = false.
Proof. reflexivity. Qed.
Example amount_trailing_dot : test AMOUNT_REGEX "1." = false.
Proof. reflexivity. Qed.
Example email_ok : test EMAIL_REGEX "a@b.com" = true.
Proof. reflexivity. Qed.
Example email_short_tld : test EMAIL_REGEX "a@b.c" = false.
Proof. reflexivity. Qed.
Example email_no_at : test EMAIL_REGEX "ab.com" = false.
Proof. reflexivity. Qed.
Example otp_grouped : test OTP_REGEX "12 34 56" = true.
Proof. reflexivity. Qed.
Example otp_seven : test OTP_REGEX "1234567" = false.
Proof. reflexivity. Qed.
Example otp_two_groups : test OTP_REGEX "123456 123456" = true.
Proof. reflexivity. Qed.
Example strip_grouped : remove_whitespace "12 34 56" = "123456".
Proof. reflexivity. Qed.
Example trim_both : trim "  a b  " = "a b".
Proof. reflexivity. Qed.
Example lower_skip : toLowerCase "SkIp" = "skip".
Proof. reflexivity. Qed.

Example parse_10_5 : TransferCommands.parseFloat "10.5" = Js.VNum (Qmake 105 10).
Proof. reflexivity. Qed.
Example parse_zero : TransferCommands.parseFloat "0" = Js.VNum (inject_Z 0).
Proof. reflexivity. Qed.
Example parse_letters : TransferCommands.parseFloat "abc" = Js.VNaN.
Proof. reflexivity. Qed.
Example print_10_5 : SampleRuntime.decimal_toString (Qmake 105 10) = "10.5".
Proof. reflexivity. Qed.
Example print_small : SampleRuntime.decimal_toString (Qmake 1 1000000) = "0.000001".
Proof. reflexivity. Qed.

End PatternExamples.

(* ===================================================================== *)
(** ** Facts about strings *)
(* ===================================================================== *)

Module StringFacts.
Import JsString.

Lemma append_cons (x : ascii) (a b : string) : String x a +:+ b = String x (a +:+ b).
Proof. reflexivity. Qed.

Lemma trimStart_no_ws c s : is_ws c = false -> trimStart (String c s) = String c s.
Proof. intros H. simpl. now rewrite H. Qed.

Lemma trimEnd_all_not_ws s : all_chars not_ws s = true -> trimEnd s = s.
Proof.
  induction s as [|c s IH]; simpl; [reflexivity|].
  unfold not_ws at 1. intros H. apply andb_prop in H as [Hc Hs].
  apply negb_true_iff in Hc. rewrite Hc. simpl. now rewrite IH.
Qed.

Lemma trim_all_not_ws s : all_chars not_ws s = true -> trim s = s.
Proof.
  intros H. unfold trim. destruct s as [|c s]; [reflexivity|].
  assert (Hc : is_ws c = false).
  { simpl in H. apply andb_prop in H as [Hc _]. now apply negb_true_iff in Hc. }
  rewrite trimStart_no_ws by exact Hc. now apply trimEnd_all_not_ws.
Qed.

Lemma all_chars_impl (p q : ascii -> bool) s :
  (forall c, p c = true -> q c = true) -> all_chars p s = true -> all_chars q s = true.
Proof.
  intros Hpq. induction s as [|c s IH]; simpl; [reflexivity|].
  intros H. apply andb_prop in H as [Hc Hs]. rewrite (Hpq _ Hc). simpl. auto.
Qed.

Lemma filter_ws c s : is_ws c = true ->
  filter_chars not_ws (String c s) = filter_chars not_ws s.
Proof. intros H. simpl. unfold not_ws. now rewrite H. Qed.

Lemma filter_not_ws c s : is_ws c = false ->
  filter_chars not_ws (String c s) = String c (filter_chars not_ws s).
Proof. intros H. simpl. unfold not_ws. now rewrite H. Qed.

Lemma filter_skip_ws_run s : filter_chars not_ws (skip_ws_run s) = filter_chars not_ws s.
Proof.
  induction s as [|c s IH]; [reflexivity|].
  cbn [skip_ws_run]. destruct (is_ws c) eqn:Hc; [|reflexivity].
  now rewrite filter_ws.
Qed.

Lemma length_skip_ws_run s : (String.length (skip_ws_run s) <= String.length s)%nat.
Proof.
  induction s as [|c s IH]; simpl; [lia|].
  destruct (is_ws c); simpl; lia.
Qed.

Lemma replace_ws_runs_filter fuel : forall s,
  (String.length s <= fuel)%nat -> replace_ws_runs fuel s = filter_chars not_ws s.
Proof.
  induction fuel as [|fuel IH]; intros s Hlen.
  - destruct s; simpl in *; [reflexivity|lia].
  - destruct s as [|c s]; [reflexivity|].
    cbn [replace_ws_runs]. simpl in Hlen. destruct (is_ws c) eqn:Hc.
    + rewrite filter_ws by exact Hc. rewrite IH.
      * apply filter_skip_ws_run.
      * pose proof (length_skip_ws_run s). lia.
    + rewrite filter_not_ws by exact Hc. f_equal. apply IH. lia.
Qed.

(** [replace(/\s+/g, '')] removes exactly the white-space characters. *)
Lemma remove_whitespace_filter s : remove_whitespace s = filter_chars not_ws s.
Proof. unfold remove_whitespace. now apply replace_ws_runs_filter. Qed.

Lemma filter_trimStart s : filter_chars not_ws (trimStart s) = filter_chars not_ws s.
Proof.
  induction s as [|c s IH]; [reflexivity|].
  cbn [trimStart]. destruct (is_ws c) eqn:Hc; [|reflexivity].
  now rewrite filter_ws.
Qed.

Lemma trimEnd_empty_filter s : trimEnd s = "" -> filter_chars not_ws s = "".
Proof.
  induction s as [|c s IH]; [reflexivity|].
  cbn [trimEnd]. destruct (is_ws c) eqn:Hc; simpl andb.
  - destruct (trimEnd s) eqn:Ht; cbn [is_empty]; [|discriminate].
    intros _. rewrite filter_ws by exact Hc. now apply IH.
  - discriminate.
Qed.

Lemma filter_trimEnd s : filter_chars not_ws (trimEnd s) = filter_chars not_ws s.
Proof.
  induction s as [|c s IH]; [reflexivity|].
  cbn [trimEnd]. destruct (is_ws c) eqn:Hc; simpl andb.
  - destruct (trimEnd s) eqn:Ht; cbn [is_empty].
    + rewrite filter_ws by exact Hc. symmetry. now apply trimEnd_empty_filter.
    + rewrite !(filter_ws c) by exact Hc. exact IH.
  - rewrite !(filter_not_ws c) by exact Hc. now rewrite IH.
Qed.

Lemma filter_trim s : filter_chars not_ws (trim s) = filter_chars not_ws s.
Proof. unfold trim. now rewrite filter_trimEnd, filter_trimStart. Qed.

End StringFacts.

(* ===================================================================== *)
(** ** Facts about the matcher *)
(* ===================================================================== *)

Module RegexFacts.
Import JsString Regex StringFacts.

Lemma barren_not_nullable r : barren r = true -> nullable r = false.
Proof.
  induction r; simpl; try discriminate; try reflexivity; intros H.
  - apply orb_prop in H as [H|H]; [rewrite IHr1 by exact H | rewrite IHr2 by exact H].
    + reflexivity.
    + apply andb_false_r.
  - apply andb_prop in H as [H1 H2]. now rewrite IHr1, IHr2.
Qed.

Lemma barren_deriv c r : barren r = true -> barren (deriv c r) = true.
Proof.
  induction r; simpl; try discriminate; try reflexivity; intros H.
  - apply orb_prop in H as [H|H].
    + rewrite (barren_not_nullable _ H). simpl. now rewrite IHr1.
    + destruct (nullable r1); simpl; rewrite H.
      * rewrite orb_true_r. simpl. now apply IHr2.
      * apply orb_true_r.
  - apply andb_prop in H as [H1 H2]. now rewrite IHr1, IHr2.
Qed.

Lemma barren_test s : forall r, barren r = true -> test r s = false.
Proof.
  induction s as [|c s IH]; intros r H; simpl.
  - now apply barren_not_nullable.
  - apply IH. now apply barren_deriv.
Qed.

Lemma deriv_off_alphabet c r : alphabet r c = false -> barren (deriv c r) = true.
Proof.
  induction r; simpl; try reflexivity; intros H.
  - now rewrite H.
  - apply orb_false_elim in H as [H1 H2].
    destruct (nullable r1); simpl; rewrite IHr1 by exact H1; simpl; auto.
  - apply orb_false_elim in H as [H1 H2]. now rewrite IHr1, IHr2.
  - now rewrite IHr.
Qed.

Lemma alphabet_deriv c x r : alphabet (deriv c r) x = true -> alphabet r x = true.
Proof.
  induction r; simpl; try discriminate.
  - destruct (p c); simpl; discriminate.
  - destruct (nullable r1); simpl; intros H.
    + apply orb_prop in H as [H|H].
      * apply orb_prop in H as [H|H]; [rewrite IHr1 by exact H | rewrite H].
        -- reflexivity.
        -- apply orb_true_r.
      * rewrite IHr2 by exact H. apply orb_true_r.
    + apply orb_prop in H as [H|H]; [rewrite IHr1 by exact H | rewrite H].
      * reflexivity.
      * apply orb_true_r.
  - intros H. apply orb_prop in H as [H|H]; [rewrite IHr1 by exact H | rewrite IHr2 by exact H].
    + reflexivity.
    + apply orb_true_r.
  - intros H. apply orb_prop in H as [H|H]; [now apply IHr | exact H].
Qed.

(** A string accepted by [r] is made of characters of [r]'s classes. *)
Lemma test_alphabet s : forall r, test r s = true -> all_chars (alphabet r) s = true.
Proof.
  induction s as [|c s IH]; intros r H; simpl; [reflexivity|].
  simpl in H. apply andb_true_intro. split.
  - destruct (alphabet r c) eqn:Hc; [reflexivity|].
    rewrite barren_test in H; [discriminate|]. now apply deriv_off_alphabet.
  - apply (all_chars_impl (alphabet (deriv c r))).
    + intros x. apply alphabet_deriv.
    + now apply IH.
Qed.

Lemma test_first c s r : test r (String c s) = true -> alphabet r c = true.
Proof.
  intros H. apply test_alphabet in H. simpl in H. now apply andb_prop in H as [H _].
Qed.

Lemma append_empty (s t : string) : s +:+ t = "" -> s = "" /\ t = "".
Proof. destruct s; [auto | discriminate]. Qed.

Lemma lang_cat_inv a b u :
  lang (Cat a b) u -> exists s t, u = s +:+ t /\ lang a s /\ lang b t.
Proof. inversion 1; subst; eauto. Qed.

Lemma lang_alt_inv a b u : lang (Alt a b) u -> lang a u \/ lang b u.
Proof. inversion 1; subst; auto. Qed.

Lemma lang_star_inv a u :
  lang (Star a) u ->
  u = "" \/ exists c s t, u = String c s +:+ t /\ lang a (String c s) /\ lang (Star a) t.
Proof.
  inversion 1 as [ | | | | | | a' c s t H1 H2]; subst;
    [left; reflexivity | right; exists c, s, t; auto].
Qed.

Lemma nullable_lang r : nullable r = true <-> lang r "".
Proof.
  induction r; cbn [nullable].
  - split; [discriminate | inversion 1].
  - split; [constructor | reflexivity].
  - split; [discriminate | inversion 1].
  - rewrite andb_true_iff, IHr1, IHr2. split.
    + intros [H1 H2]. exact (L_cat _ _ "" "" H1 H2).
    + intros H. apply lang_cat_inv in H as (s & t & E & H1 & H2).
      symmetry in E. apply append_empty in E as [-> ->]. auto.
  - rewrite orb_true_iff, IHr1, IHr2. split.
    + intros [H|H]; [now apply L_alt_l | now apply L_alt_r].
    + apply lang_alt_inv.
  - split; [constructor | reflexivity].
Qed.

Lemma deriv_lang c r : forall s, lang (deriv c r) s <-> lang r (String c s).
Proof.
  induction r; intros s; cbn [deriv].
  - split; inversion 1.
  - split; inversion 1.
  - destruct (p c) eqn:Hp; split.
    + inversion 1; subst. now constructor.
    + inversion 1; subst. constructor.
    + inversion 1.
    + inversion 1; subst. congruence.
  - assert (Hl : lang (Cat (deriv c r1) r2) s -> lang (Cat r1 r2) (String c s)).
    { intros H. apply lang_cat_inv in H as (u & t & -> & H1 & H2).
      apply IHr1 in H1. exact (L_cat _ _ (String c u) t H1 H2). }
    assert (Hr : lang (Cat r1 r2) (String c s) ->
                 lang (Cat (deriv c r1) r2) s \/ (lang r1 "" /\ lang (deriv c r2) s)).
    { intros H. apply lang_cat_inv in H as (u & t & E & H1 & H2).
      destruct u as [|x u].
      - right. change ("" +:+ t) with t in E. rewrite <- E in H2.
        split; [exact H1 | now apply IHr2].
      - left. rewrite append_cons in E. injection E as <- ->.
        apply L_cat; [now apply IHr1 | exact H2]. }
    destruct (nullable r1) eqn:Hn; split.
    + intros H. apply lang_alt_inv in H as [H|H]; [now apply Hl|].
      apply IHr2 in H. apply nullable_lang in Hn.
      exact (L_cat _ _ "" (String c s) Hn H).
    + intros H. apply Hr in H as [H|[_ H]]; [now apply L_alt_l | now apply L_alt_r].
    + exact Hl.
    + intros H. apply Hr in H as [H|[H _]]; [exact H|].
      apply nullable_lang in H. congruence.
  - split.
    + intros H. apply lang_alt_inv in H as [H|H];
        [apply L_alt_l; now apply IHr1 | apply L_alt_r; now apply IHr2].
    + intros H. apply lang_alt_inv in H as [H|H];
        [apply L_alt_l; now apply IHr1 | apply L_alt_r; now apply IHr2].
  - split.
    + intros H. apply lang_cat_inv in H as (u & t & -> & H1 & H2).
      apply IHr in H1. exact (L_star_cons _ c u t H1 H2).
    + intros H. apply lang_star_inv in H as [E | (x & u & t & E & H1 & H2)];
        [discriminate E|].
      rewrite append_cons in E. injection E as <- ->.
      apply L_cat; [now apply IHr | exact H2].
Qed.

(** The matcher decides membership in the language of the pattern. *)
Theorem test_lang s : forall r, test r s = true <-> lang r s.
Proof.
  induction s as [|c s IH]; intros r; cbn [test].
  - apply nullable_lang.
  - rewrite IH. apply deriv_lang.
Qed.

End RegexFacts.

(* ===================================================================== *)
(** ** The send and bank-withdrawal conversations *)
(* ===================================================================== *)

Module TransferFacts.
Import JsString Regex Patterns Js Http.
Import TransferService AuthService TransferCommands Runs.
Import StringFacts RegexFacts.

Lemma amount_chars_not_ws c : alphabet AMOUNT_REGEX c = true -> not_ws c = true.
Proof.
  destruct c as [[] [] [] [] [] [] [] []]; vm_compute; intros H;
    first [reflexivity | discriminate H].
Qed.

Lemma amount_text_trimmed s : test AMOUNT_REGEX s = true -> trim s = s.
Proof.
  intros H. apply trim_all_not_ws.
  apply (all_chars_impl (alphabet AMOUNT_REGEX)); [exact amount_chars_not_ws|].
  now apply test_alphabet.
Qed.

Lemma positive_not_le_zero q : (0 < q)%Q -> le_zero (VNum q) = false.
Proof.
  intros H. unfold le_zero. destruct (Qle_bool q 0) eqn:E; [|reflexivity].
  apply Qle_bool_iff in E. exfalso. exact (Qlt_not_le _ _ H E).
Qed.

Lemma validate_amount_accepts chat s q :
  test AMOUNT_REGEX s = true -> parseFloat s = VNum q -> (0 < q)%Q ->
  validate_amount (mkMessage chat (Some s)) = inr (VNum q).
Proof.
  intros Ht Hp Hq. unfold validate_amount, trimmed_text. cbn [msg_text].
  rewrite (amount_text_trimmed s Ht), Ht, Hp, (positive_not_le_zero q Hq).
  destruct s; [discriminate Ht | reflexivity].
Qed.

Lemma digit_facts c :
  is_digit c = true ->
  is_ws c = false /\ char_is "-" c = false /\ char_is "+" c = false
  /\ 0 <= Z.of_N (code c) - 48.
Proof.
  destruct c as [[] [] [] [] [] [] [] []]; vm_compute; intros H;
    first [discriminate H | repeat split; discriminate].
Qed.

Lemma digits_value_nonneg s : forall acc,
  0 <= acc -> 0 <= fst (fst (digits_value acc s)).
Proof.
  induction s as [|c s IH]; intros acc Hacc; cbn [digits_value]; [exact Hacc|].
  destruct (is_digit c) eqn:Hd; [|exact Hacc].
  destruct (digit_facts c Hd) as (_ & _ & _ & Hc).
  specialize (IH (acc * 10 + (Z.of_N (code c) - 48)) ltac:(lia)).
  destruct (digits_value _ s) as [[v n] rest]. exact IH.
Qed.

Lemma amount_starts_with_digit c s :
  test AMOUNT_REGEX (String c s) = true -> is_digit c = true.
Proof.
  intros H. destruct (is_digit c) eqn:Hd; [reflexivity|].
  cbn [test] in H. rewrite barren_test in H; [discriminate H|].
  unfold AMOUNT_REGEX, Plus. cbn [deriv nullable andb]. rewrite Hd. reflexivity.
Qed.

(** A text that matches the amount pattern parses to a number, never to
    NaN, and the number is not negative. *)
Lemma amount_text_parses s :
  test AMOUNT_REGEX s = true -> exists q, parseFloat s = VNum q /\ (0 <= q)%Q.
Proof.
  intros H. destruct s as [|c s]; [discriminate H|].
  pose proof (amount_starts_with_digit c s H) as Hd.
  destruct (digit_facts c Hd) as (Hws & Hm & Hp & Hc).
  unfold parseFloat. cbn [trimStart]. rewrite Hws, Hm, Hp.
  cbn [digits_value]. rewrite Hd.
  pose proof (digits_value_nonneg s (0 * 10 + (Z.of_N (code c) - 48)) ltac:(lia)) as Hv.
  destruct (digits_value _ s) as [[v n] rest]. cbn [fst] in Hv.
  destruct rest as [|x rest].
  - eexists. split; [reflexivity|]. unfold Qle. cbn. lia.
  - destruct (char_is "." x).
    + pose proof (digits_value_nonneg rest v Hv) as Hm'.
      destruct (digits_value v rest) as [[m nf] rest']. cbn [fst] in Hm'.
      destruct nf; eexists; (split; [reflexivity|]); unfold Qle; cbn; lia.
    + eexists. split; [reflexivity|]. unfold Qle. cbn. lia.
Qed.

Section WithRuntime.
Context `{RT : JsRuntime}.

(** A rejected amount leaves the conversation as it was and sends the
    retry prompt. *)
Lemma amount_rejected_reprompts (c : SendConversation) msg reply :
  msg_chat msg = chatId c ->
  validate_amount msg = inl reply ->
  amountListener c msg = mkOutcome c [SendMessage (chatId c) reply []] false.
Proof.
  intros Hc Hv. unfold amountListener. rewrite Hc, Z.eqb_refl, Hv. reflexivity.
Qed.

Lemma recipient_step_awaits_amount (c : SendConversation) msg :
  listening (next (emailListener c msg)) = Some AmountListener ->
  listening c <> Some AmountListener ->
  awaiting_amount (next (emailListener c msg)).
Proof.
  unfold emailListener.
  destruct (negb (msg_chat msg =? chatId c)); cbn [next]; [congruence|].
  destruct (trimmed_text msg); cbn [next]; try congruence.
  destruct (is_empty s || negb (includes "@" s)); cbn [next]; [congruence|].
  intros _ _. split; [reflexivity|]. cbn [userStates chatId].
  rewrite lookup_insert_eq. eauto.
Qed.

Lemma reprompt_keeps_awaiting (c : SendConversation) msg reply :
  awaiting_amount c -> validate_amount msg = inl reply ->
  awaiting_amount (next (on_message c msg)).
Proof.
  intros [Hl Hd] Hv. unfold on_message. rewrite Hl. unfold amountListener.
  destruct (negb (msg_chat msg =? chatId c)); cbn [next]; [now split|].
  rewrite Hv. cbn [next]. now split.
Qed.

(** C6. In the send flow's amount step, with the draft of the recipient
    step in place: every text matching [^\d+(\.\d{1,6})?$] whose parsed
    value is greater than 0 is stored as the draft's amount, the amount
    listener gives way to the description listener and the description
    prompt is sent; the texts "0", "-1", "abc" and "1.1234567" each get a
    retry prompt and leave listener and draft as they were. *)
Theorem amount_step_advances_or_reprompts
    (c : SendConversation) (d : SendDraft) (s : string) (q : Q) :
  listening c = Some AmountListener ->
  userStates c !! chatId c = Some d ->
  test AMOUNT_REGEX s = true ->
  parseFloat s = VNum q ->
  (0 < q)%Q ->
  on_message c (mkMessage (chatId c) (Some s)) =
    mkOutcome
      (mkSend (chatId c)
         (<[chatId c := mkSendDraft (recipient d) (VNum q) (description d)]> (userStates c))
         (Some DescriptionListener))
      [SendMessage (chatId c)
         "Please enter a description for this transfer (optional, type 'skip' to leave blank):" []]
      false
  /\ on_message c (mkMessage (chatId c) (Some "0")) =
       mkOutcome c [SendMessage (chatId c) "⚠️ Amount must be greater than 0." []] false
  /\ on_message c (mkMessage (chatId c) (Some "-1")) =
       mkOutcome c
         [SendMessage (chatId c) "⚠️ Please enter a valid amount (e.g., 10 or 10.5)" []] false
  /\ on_message c (mkMessage (chatId c) (Some "abc")) =
       mkOutcome c
         [SendMessage (chatId c) "⚠️ Please enter a valid amount (e.g., 10 or 10.5)" []] false
  /\ on_message c (mkMessage (chatId c) (Some "1.1234567")) =
       mkOutcome c
         [SendMessage (chatId c) "⚠️ Please enter a valid amount (e.g., 10 or 10.5)" []] false.
Proof.
  intros Hl Hd Ht Hp Hq. unfold on_message. rewrite Hl.
  split; [|repeat split; apply amount_rejected_reprompts; reflexivity].
  unfold amountListener. cbn [msg_chat]. rewrite Z.eqb_refl. cbn [negb].
  rewrite (validate_amount_accepts (chatId c) s q Ht Hp Hq), Hd. reflexivity.
Qed.

(** The amount step of the bank flow validates in the same way. *)
Lemma bank_amount_step (c : BankConversation) (s : string) (q : Q) :
  bank_listening c = true ->
  test AMOUNT_REGEX s = true -> parseFloat s = VNum q -> (0 < q)%Q ->
  let r := bank_on_message c (mkMessage (bank_chat c) (Some s)) in
  bank_states (next r) !! bank_chat c = Some (mkBankDraft (VNum q))
  /\ bank_listening (next r) = false
  /\ bank_handlers (next r) = S (bank_handlers c).
Proof.
  intros Hl Ht Hp Hq. unfold bank_on_message. rewrite Hl.
  unfold bank_amountListener. cbn [msg_chat]. rewrite Z.eqb_refl. cbn [negb].
  rewrite (validate_amount_accepts (bank_chat c) s q Ht Hp Hq).
  cbn [next bank_states bank_chat bank_listening bank_handlers].
  rewrite lookup_insert_eq. auto.
Qed.

Lemma data_is_same (s : string) : data_is (Some s) s = true.
Proof. apply String.eqb_refl. Qed.

(** What a confirmation does on the path that reaches the gateway. *)
Lemma confirm_send_submits (c : SendConversation) (d : SendDraft) (env : ConfirmEnv)
    (calls : list Request) (w : JsVal) :
  userStates c !! chatId c = Some d ->
  truthy (getUserToken (token_session env)) = true ->
  getDefaultWallet (wallet_session env) (wallet_http env) = (calls, Normal w) ->
  truthy w = true ->
  is_nullish (amount d) = false ->
  confirm_send c env =
    let '(sent, result) :=
      sendFunds (getUserToken (token_session env)) (recipient d)
        (VStr (ToString (amount d))) (or_else (description d) (VStr "")) (submit_http env) in
    let done :=
      map Call calls ++ [SendMessage (chatId c) "🔄 Processing your transfer..." []]
        ++ map Call sent in
    if success result && truthy (result_data result)
    then
      mkOutcome (mkSend (chatId c) (delete (chatId c) (userStates c)) (listening c))
        (done ++
         [SendMessage (chatId c)
            ("✅ *Transfer Successful!*" +:+ nl +:+ nl +:+
             "Amount: " +:+ ToString (amount d) +:+ " USDC" +:+ nl +:+
             "Recipient: " +:+ ToString (recipient d) +:+ nl +:+ nl +:+
             "Transaction ID: `" +:+ ToString (prop (result_data result) "id") +:+ "`")
            []])
        false
    else
      mkOutcome c
        (done ++
         [SendMessage (chatId c)
            ("❌ Transfer failed: " +:+
             ToString (or_else (opt_member (result_data result) "message")
                         (VStr "Unknown error")))
            []])
        false.
Proof.
  intros Hd Ht Hw Hwt Ha. unfold confirm_send. rewrite Hd, Ht, Hw, Hwt.
  cbn [negb]. unfold toString_method at 1. rewrite Ha. reflexivity.
Qed.

(** C1. A [confirm_send] event for the chat of a send conversation whose
    draft is gone is answered with the "transfer data not found" reply
    and nothing else: the conversation is left as it is and no request is
    made. *)
Theorem confirm_without_draft_reports_not_found
    (c : SendConversation) (q : CallbackQuery) (env : ConfirmEnv) :
  cq_chat q = Some (chatId c) ->
  cq_data q = Some "confirm_send" ->
  userStates c !! chatId c = None ->
  on_callback c q env =
    mkOutcome c
      [AnswerCallbackQuery (cq_id q) None;
       SendMessage (chatId c) "❌ Transfer data not found. Please start again with /send" []]
      false
  /\ List.filter is_call (actions (on_callback c q env)) = [].
Proof.
  intros Hc Hq Hd.
  assert (E : on_callback c q env =
    mkOutcome c
      [AnswerCallbackQuery (cq_id q) None;
       SendMessage (chatId c) "❌ Transfer data not found. Please start again with /send" []]
      false).
  { unfold on_callback. rewrite Hc, Z.eqb_refl, Hq, data_is_same. cbn [negb].
    unfold confirm_send. rewrite Hd. reflexivity. }
  split; [exact E|]. rewrite E. reflexivity.
Qed.

(** A submission that succeeds deletes the draft, so that a second tap on
    the same button finds none. *)
Lemma second_confirm_after_success (c : SendConversation) (d : SendDraft)
    (q : CallbackQuery) (env env' : ConfirmEnv) (calls : list Request) (w : JsVal)
    (r : AxiosResponse) :
  cq_chat q = Some (chatId c) ->
  cq_data q = Some "confirm_send" ->
  userStates c !! chatId c = Some d ->
  truthy (getUserToken (token_session env)) = true ->
  getDefaultWallet (wallet_session env) (wallet_http env) = (calls, Normal w) ->
  truthy w = true ->
  is_nullish (amount d) = false ->
  submit_http env = Fulfilled r ->
  truthy (data r) = true ->
  let c1 := next (on_callback c q env) in
  userStates c1 !! chatId c1 = None
  /\ List.filter is_call (actions (on_callback c1 q env')) = [].
Proof.
  intros Hc Hq Hd Ht Hw Hwt Ha Hs Hr.
  assert (E : next (on_callback c q env) =
              mkSend (chatId c) (delete (chatId c) (userStates c)) (listening c)).
  { unfold on_callback. rewrite Hc, Z.eqb_refl, Hq, data_is_same. cbn [negb next].
    rewrite (confirm_send_submits c d env calls w Hd Ht Hw Hwt Ha).
    unfold sendFunds, toString_method. cbn [is_nullish]. rewrite Hs.
    cbn [success result_data]. rewrite Hr. reflexivity. }
  cbn zeta. rewrite E. cbn [chatId userStates].
  split; [apply lookup_delete_eq|].
  apply confirm_without_draft_reports_not_found; cbn [chatId userStates];
    [exact Hc | exact Hq | apply lookup_delete_eq].
Qed.




(** Every request a bank-withdrawal conversation makes is the offramp
    request with an empty [bankId], whatever the event, the draft and the
    outcomes of the awaited calls. *)
Lemma bank_requests_carry_empty_bankId
    (c : BankConversation) (q : CallbackQuery) (env : ConfirmEnv) (r : Request) :
  In (Call r) (actions (bank_on_callback c q env)) ->
  url r = "/transfers/offramp" /\ prop (body r) "bankId" = VStr "".
Proof.
  unfold bank_on_callback. destruct (bank_handlers c); [intros []|].
  unfold bank_callback_handler.
  destruct (cq_chat q) as [chat|]; [|intros []].
  destruct (negb (chat =? bank_chat c)); [intros []|].
  cbn zeta. destruct (data_is (cq_data q) "confirm_bank_withdraw").
  - cbn [actions]. unfold confirm_bank_withdraw.
    destruct (bank_states c !! bank_chat c) as [d|];
      [|cbn; intros [H|[H|[]]]; discriminate H].
    destruct (negb (truthy (getUserToken (token_session env))));
      [cbn; intros [H|[H|[]]]; discriminate H|].
    unfold toString_method. destruct (is_nullish (bank_amount d));
      [cbn; intros [H|[H|[H|[]]]]; discriminate H|].
    unfold withdrawToBank, toString_method. cbn [is_nullish].
    destruct (submit_http env) as [resp|err];
      cbn [success result_data failure_data andb].
    + destruct (truthy (data resp)); cbn;
        intros [H|[H|[H|[H|[]]]]]; try discriminate H;
        injection H as <-; split; reflexivity.
    + cbn. intros [H|[H|[H|[H|[]]]]]; try discriminate H.
      injection H as <-. split; reflexivity.
  - destruct (data_is (cq_data q) "cancel_withdraw"); cbn; [|intros []].
    intros [H|[H|[]]]; discriminate H.
Qed.

(** C10. A [confirm_bank_withdraw] event that finds the draft and a token
    makes exactly one request: the offramp request whose [bankId] is the
    empty string and whose amount is the draft's, whatever the user has
    typed in the flow. *)
Theorem bank_confirmation_sends_empty_bankId
    (c : BankConversation) (d : BankDraft) (q : CallbackQuery) (env : ConfirmEnv) :
  bank_handlers c <> O ->
  cq_chat q = Some (bank_chat c) ->
  cq_data q = Some "confirm_bank_withdraw" ->
  bank_states c !! bank_chat c = Some d ->
  is_nullish (bank_amount d) = false ->
  truthy (getUserToken (token_session env)) = true ->
  List.filter is_call (actions (bank_on_callback c q env)) =
    [Call (mkRequest "POST" "/transfers/offramp"
             (VObj [("amount", VStr (ToString (bank_amount d))); ("bankId", VStr "")])
             VUndef
             (Some ("Bearer " +:+ ToString (getUserToken (token_session env)))))].
Proof.
  intros Hh Hc Hq Hd Ha Ht. unfold bank_on_callback.
  destruct (bank_handlers c); [congruence|].
  unfold bank_callback_handler. rewrite Hc, Z.eqb_refl, Hq, data_is_same. cbn [negb actions].
  unfold confirm_bank_withdraw. rewrite Hd, Ht. cbn [negb].
  unfold toString_method at 1. rewrite Ha.
  unfold withdrawToBank, toString_method. cbn [is_nullish].
  destruct (submit_http env) as [resp|err]; cbn [success result_data failure_data andb].
  - destruct (truthy (data resp)); reflexivity.
  - reflexivity.
Qed.

(** The amount step of the wallet flow, with the draft of the address
    step in place. *)
Lemma wallet_amount_step (c : WalletConversation) (d : WalletDraft) (s : string) (q : Q) :
  wallet_listening c = Some WalletAmountListener ->
  wallet_states c !! wallet_chat c = Some d ->
  test AMOUNT_REGEX s = true -> parseFloat s = VNum q -> (0 < q)%Q ->
  let r := wallet_on_message c (mkMessage (wallet_chat c) (Some s)) in
  wallet_states (next r) !! wallet_chat c = Some (mkWalletDraft (address d) (VNum q) (network d))
  /\ wallet_listening (next r) = None
  /\ wallet_handlers (next r) = S (wallet_handlers c).
Proof.
  intros Hl Hd Ht Hp Hq. unfold wallet_on_message. rewrite Hl.
  unfold wallet_amountListener. cbn [msg_chat]. rewrite Z.eqb_refl. cbn [negb].
  rewrite (validate_amount_accepts (wallet_chat c) s q Ht Hp Hq), Hd.
  cbn [next wallet_states wallet_chat wallet_listening wallet_handlers].
  rewrite lookup_insert_eq. auto.
Qed.

End WithRuntime.

Import Scenario.

Lemma amount_step_witness :
  listening conv_amount = Some AmountListener
  /\ test AMOUNT_REGEX "10.5" = true
  /\ userStates (next (on_message (RT := SampleRuntime.runtime) conv_amount
                         (mkMessage 7 (Some "10.5")))) !! 7
     = Some (mkSendDraft (VStr "a@b.com") (VNum (Qmake 105 10)) VUndef).
Proof.
  split; [reflexivity|]. split; [reflexivity|].
  pose proof (amount_step_advances_or_reprompts (RT := SampleRuntime.runtime)
                conv_amount (mkSendDraft (VStr "a@b.com") VUndef VUndef) "10.5" (Qmake 105 10)
                eq_refl eq_refl eq_refl eq_refl eq_refl) as [H _].
  cbn [chatId conv_amount] in H. rewrite H. reflexivity.
Defined.

Lemma confirm_without_draft_witness :
  userStates (mkSend 7 ∅ None) !! 7 = None
  /\ actions (on_callback (RT := SampleRuntime.runtime) (mkSend 7 ∅ None) confirm_tap env_ok)
     = [AnswerCallbackQuery "cb-1" None;
        SendMessage 7 "❌ Transfer data not found. Please start again with /send" []].
Proof.
  split; [reflexivity|].
  pose proof (confirm_without_draft_reports_not_found (RT := SampleRuntime.runtime)
                (mkSend 7 ∅ None) confirm_tap env_ok eq_refl eq_refl eq_refl) as [H _].
  rewrite H. reflexivity.
Defined.



Lemma bank_confirmation_witness :
  bank_states bank0 !! 7 = Some (mkBankDraft (VNum (inject_Z 25)))
  /\ List.filter is_call
       (actions (bank_on_callback (RT := SampleRuntime.runtime) bank0 bank_tap env_ok))
     = [Call (mkRequest "POST" "/transfers/offramp"
                (VObj [("amount", VStr "25"); ("bankId", VStr "")])
                VUndef (Some "Bearer tok-1"))].
Proof.
  split; [reflexivity|].
  refine (bank_confirmation_sends_empty_bankId (RT := SampleRuntime.runtime)
            bank0 (mkBankDraft (VNum (inject_Z 25))) bank_tap env_ok _
            eq_refl eq_refl eq_refl eq_refl eq_refl).
  discriminate.
Defined.

#[local] Existing Instance SampleRuntime.runtime.

(** The send flow from its start: recipient "a@b.com", amount "10.5",
    description "skip".  The summary has no description line, and the
    confirmation posts recipient and amount as they were typed; the empty
    description is replaced by the gateway's default. *)
Example send_round_trip :
  let c1 := next (on_message (next (startSendConversation 7)) (mkMessage 7 (Some "a@b.com"))) in
  let c2 := next (on_message c1 (mkMessage 7 (Some "10.5"))) in
  let r3 := on_message c2 (mkMessage 7 (Some "Skip")) in
  let r4 := on_callback (next r3) confirm_tap env_ok in
  userStates (next r3) !! 7 = Some draft0
  /\ actions r3 =
       [SendMessage 7
          ("📤 *Transfer Confirmation*" +:+ nl +:+ nl +:+ "To: a@b.com" +:+ nl +:+
           "Amount: 10.5 USDC" +:+ nl +:+ nl +:+ "Please confirm this transfer:")
          confirm_send_keyboard]
  /\ List.filter is_call (actions r4) =
       [Call (mkRequest "GET" "/wallets/default" VUndef VUndef (Some "Bearer tok-1"));
        Call (mkRequest "POST" "/transfers/send"
                (VObj [("recipient", VStr "a@b.com");
                       ("amount", VStr "10.5");
                       ("description", VStr "Sent via Telegram")])
                VUndef (Some "Bearer tok-1"))]
  /\ userStates (next r4) !! 7 = None.
Proof. cbn zeta. repeat split; vm_compute; reflexivity. Qed.

(** A cancel button pressed while the flow waits for the amount deletes
    the draft; the amount listener then fails on the missing draft and
    stays registered. *)
Example amount_after_cancel :
  let cancel := mkCallback "cb-3" (Some 7) (Some "cancel_send") in
  let c := next (on_callback conv_amount cancel env_ok) in
  let r := on_message c (mkMessage 7 (Some "10.5")) in
  userStates c !! 7 = None /\ rejected r = true /\ next r = c /\ actions r = [].
Proof. cbn zeta. repeat split; vm_compute; reflexivity. Qed.

(** The bank flow from its start: amount "25", then the confirmation. *)
Example bank_round_trip :
  let c1 := next (bank_on_message (next (startBankWithdrawConversation 7))
                    (mkMessage 7 (Some " 25 "))) in
  let r2 := bank_on_callback c1 bank_tap env_ok in
  c1 = bank0
  /\ List.filter is_call (actions r2) =
       [Call (mkRequest "POST" "/transfers/offramp"
                (VObj [("amount", VStr "25"); ("bankId", VStr "")])
                VUndef (Some "Bearer tok-1"))]
  /\ bank_states (next r2) !! 7 = None.
Proof. cbn zeta. repeat split; vm_compute; reflexivity. Qed.

End TransferFacts.

(* ===================================================================== *)
(** ** The gateway: services/transfer.ts and services/wallet.ts *)
(* ===================================================================== *)

Module GatewayFacts.
Import JsString Js Http TransferService WalletService.

Lemma or_else_truthy a b : truthy b = true -> truthy (or_else a b) = true.
Proof. intros H. unfold or_else. destruct (truthy a) eqn:E; [exact E | exact H]. Qed.

Section WithRuntime.
Context `{RT : JsRuntime}.

Lemma failure_data_shape (e : Caught) (fallback : string) :
  fallback <> "" ->
  success (failure_data e fallback) = false
  /\ truthy (prop (result_data (failure_data e fallback)) "error") = true.
Proof.
  intros Hf. split; [reflexivity|]. unfold failure_data. cbn.
  apply or_else_truthy, or_else_truthy. destruct fallback; [congruence | reflexivity].
Qed.

(** What the transfer operations report for a caught error is never
    undefined or empty text, and it is a non-empty text when the body of
    the response has a text as [message] or none. *)
Lemma reported_is_text (e : Caught) (fallback : string) :
  fallback <> "" ->
  let reported :=
    or_else (response_message e) (or_else (VStr (caught_message e)) (VStr fallback)) in
  truthy reported = true
  /\ ((response_message e = VUndef \/ exists s, response_message e = VStr s) ->
      exists s, reported = VStr s /\ s <> "").
Proof.
  intros Hf. cbn zeta. split.
  { apply or_else_truthy, or_else_truthy. destruct fallback; [congruence | reflexivity]. }
  assert (Hin : exists s,
            or_else (VStr (caught_message e)) (VStr fallback) = VStr s /\ s <> "").
  { unfold or_else. cbn [truthy]. destruct (caught_message e) as [|x m]; cbn [is_empty negb].
    - eauto.
    - exists (String x m). split; [reflexivity | discriminate]. }
  intros [Hu | [s Hs]]; unfold or_else at 1.
  - rewrite Hu. exact Hin.
  - rewrite Hs. cbn [truthy]. destruct s as [|x s]; cbn [is_empty negb]; [exact Hin|].
    exists (String x s). split; [reflexivity | discriminate].
Qed.

(** C5, as amended. On a remote error the four transfer operations
    return a result with the success flag off and, under [data.error] for
    the three submissions and under [error] for the history, the message
    of the response body as it is when that is truthy, else the message
    of the caught error when it is not empty, else the operation's fixed
    text: a value that is always truthy, and a non-empty text whenever
    the body's message is a text or absent.  The four wallet operations
    return nothing: they throw an error whose message is the rendering of
    the body's message when that is truthy, else the message of the
    caught error. *)
Theorem remote_error_is_reported
    (token recipient amount description address network bankId page limit walletId : JsVal)
    (sess : AuthToken) (e : Caught) :
  let reported (fallback : string) :=
    or_else (response_message e) (or_else (VStr (caught_message e)) (VStr fallback)) in
  let thrown : Completion JsVal :=
    Throw (mkError (if isAxiosError e && truthy (response_message e)
                    then ToString (response_message e)
                    else caught_message e)) in
  (let r := snd (sendFunds token recipient amount description (Rejected e)) in
   success r = false /\ truthy (prop (result_data r) "error") = true)
  /\ (let r := snd (withdrawToWallet token address amount network (Rejected e)) in
      success r = false /\ truthy (prop (result_data r) "error") = true)
  /\ (let r := snd (withdrawToBank token amount bankId (Rejected e)) in
      success r = false /\ truthy (prop (result_data r) "error") = true)
  /\ (let r := snd (getTransactionHistory token page limit (Rejected e)) in
      success r = false /\ truthy (result_error r) = true)
  /\ (is_nullish amount = false ->
      snd (sendFunds token recipient amount description (Rejected e))
      = mkResult false (VObj [("error", reported "Failed to send funds")]) VUndef
      /\ snd (withdrawToWallet token address amount network (Rejected e))
         = mkResult false (VObj [("error", reported "Failed to withdraw funds")]) VUndef
      /\ snd (withdrawToBank token amount bankId (Rejected e))
         = mkResult false (VObj [("error", reported "Failed to withdraw funds to bank")])
             VUndef)
  /\ snd (getTransactionHistory token page limit (Rejected e))
     = mkResult false VUndef (reported "Failed to fetch transaction history")
  /\ (forall fallback : string,
        fallback <> "" ->
        (response_message e = VUndef \/ exists s, response_message e = VStr s) ->
        exists s, reported fallback = VStr s /\ s <> "")
  /\ snd (getWallets (Some sess) (Rejected e)) = thrown
  /\ snd (getWalletBalances (Some sess) (Rejected e)) = thrown
  /\ snd (setDefaultWallet walletId (Some sess) (Rejected e)) = thrown
  /\ snd (getDefaultWallet (Some sess) (Rejected e)) = thrown.
Proof.
  cbn zeta.
  assert (Hthrown : rethrow e
                    = mkError (if isAxiosError e && truthy (response_message e)
                               then ToString (response_message e)
                               else caught_message e)).
  { unfold rethrow. now destruct (isAxiosError e && truthy (response_message e)). }
  split; [|split; [|split; [|split; [|split; [|split; [|split]]]]]].
  - unfold sendFunds. destruct (toString_method amount); cbn [snd];
      (split; [reflexivity | apply failure_data_shape; discriminate]).
  - unfold withdrawToWallet. destruct (toString_method amount); cbn [snd];
      (split; [reflexivity | apply failure_data_shape; discriminate]).
  - unfold withdrawToBank. destruct (toString_method amount); cbn [snd];
      (split; [reflexivity | apply failure_data_shape; discriminate]).
  - split; [reflexivity|]. cbn. apply or_else_truthy, or_else_truthy. reflexivity.
  - intros Ha. unfold sendFunds, withdrawToWallet, withdrawToBank, toString_method.
    rewrite Ha. repeat split.
  - reflexivity.
  - intros fallback Hf. exact (proj2 (reported_is_text e fallback Hf)).
  - cbn [getWallets getWalletBalances setDefaultWallet getDefaultWallet wallet_call snd].
    unfold getWallets, getWalletBalances, setDefaultWallet, getDefaultWallet, wallet_call.
    cbn [snd]. rewrite Hthrown. repeat split.
Qed.

(** The error a wallet operation throws carries the text of the response
    body's [message] when there is one. *)
Lemma rethrow_body_message (m : string) (text : string) (st : Z) (d : JsVal) :
  prop d "message" = VStr text -> text <> "" ->
  rethrow (mkCaught true m (Some (mkResponse st d))) = mkError text.
Proof.
  intros Hp Ht. unfold rethrow, response_message, opt_member. cbn [isAxiosError response data].
  assert (Hn : is_nullish d = false).
  { destruct d; try reflexivity; discriminate Hp. }
  rewrite Hn, Hp. cbn. destruct text; [congruence | reflexivity].
Qed.

End WithRuntime.

Import Scenario.

(** C5, as stated, fails: listing the wallets when the API answers with an
    error does not return a result, it throws. *)
Lemma wallets_remote_error_counterexample :
  is_normal (snd (getWallets (RT := SampleRuntime.runtime) (Some session0) (Rejected refused)))
  = false
  /\ snd (getWallets (RT := SampleRuntime.runtime) (Some session0) (Rejected refused))
     = Throw (mkError "Insufficient balance").
Proof. split; reflexivity. Qed.

Lemma remote_error_witness :
  is_nullish (VStr "10.5") = false
  /\ snd (sendFunds (RT := SampleRuntime.runtime) (VStr "tok-1") (VStr "a@b.com")
            (VStr "10.5") (VStr "") (Rejected refused))
     = mkResult false (VObj [("error", VStr "Insufficient balance")]) VUndef.
Proof.
  split; [reflexivity|].
  destruct (remote_error_is_reported (RT := SampleRuntime.runtime)
              (VStr "tok-1") (VStr "a@b.com") (VStr "10.5") (VStr "") VUndef VUndef VUndef
              (VNum 1) (VNum 10) VUndef session0 refused)
    as (_ & _ & _ & _ & H & _).
  exact (proj1 (H eq_refl)).
Defined.

Example sendFunds_refused :
  snd (sendFunds (RT := SampleRuntime.runtime) (VStr "tok-1") (VStr "a@b.com")
         (VStr "10.5") (VStr "") (Rejected refused))
  = mkResult false (VObj [("error", VStr "Insufficient balance")]) VUndef.
Proof. reflexivity. Qed.

End GatewayFacts.

(* ===================================================================== *)
(** ** The auth service: services/auth.ts *)
(* ===================================================================== *)

Module AuthServiceFacts.
Import JsString Js Http AuthService ValidationErrors ValidationShapes StringFacts.

Lemma append_assoc (a b c : string) : (a +:+ b) +:+ c = a +:+ (b +:+ c).
Proof.
  induction a as [|x a IH]; [reflexivity|].
  now rewrite !append_cons, IH.
Qed.

Lemma is_empty_append (a b : string) : is_empty (a +:+ b) = is_empty a && is_empty b.
Proof. destruct a; reflexivity. Qed.

Lemma is_empty_false (s : string) : s <> "" -> is_empty s = false.
Proof. destruct s; [congruence | reflexivity]. Qed.

Lemma join_cons_nonempty (sep x : string) (l : list string) :
  is_empty x = false -> is_empty (join sep (x :: l)) = false.
Proof.
  intros H. destruct l as [|y l]; cbn [join]; [exact H|].
  rewrite is_empty_append, H. reflexivity.
Qed.

Lemma keep_all_nonempty (l : list string) :
  Forall (fun x => is_empty x = false) l -> keep_nonempty l = l.
Proof.
  unfold keep_nonempty. induction 1 as [|x l Hx _ IH]; cbn [List.filter]; [reflexivity|].
  rewrite Hx. cbn [negb]. now rewrite IH.
Qed.

Lemma floor_seconds (x : Z) :
  Qfloor (Qdiv (inject_Z x) (inject_Z 1000)) = x `div` 1000.
Proof.
  unfold Qdiv, Qinv, Qmult, Qfloor, inject_Z. cbn [Qnum Qden].
  now rewrite Z.mul_1_r.
Qed.

Section WithRuntime.
Context `{RT : JsRuntime}.

Lemma seconds_until_floor (te now : Z) :
  seconds_until (Some te) now = VNum (inject_Z ((te - now) `div` 1000)).
Proof. unfold seconds_until. now rewrite floor_seconds. Qed.

(** C8. A response to the authenticate call whose [token] is absent,
    whose [accessToken] is present, which has no [expiresIn] but an
    [expireAt] that reads as the time [te]: the call succeeds, the session
    token is the [accessToken], and [expiresIn] is the floor of
    [(te - now) / 1000]; it is 300 when [expireAt] lies 300 seconds after
    the reading of the clock, and 299 or 300 when up to a second has gone
    by since [expireAt] was 300 seconds away. *)
Theorem accessToken_expireAt_session
    (sessions : gmap string JsVal) (email otp : string) (now st : Z)
    (d tok e : JsVal) (te : Z) :
  truthy (prop d "token") = false ->
  prop d "accessToken" = tok ->
  truthy tok = true ->
  truthy (prop d "expiresIn") = false ->
  prop d "expireAt" = e ->
  truthy e = true ->
  Date_getTime e = Some te ->
  exists tokens,
    authenticateWithOTP sessions email otp now (Fulfilled (mkResponse st d)) =
      ([mkRequest "POST" "/auth/email-otp/authenticate"
          (authenticate_body sessions email otp) VUndef None],
       Normal tokens, delete email sessions)
    /\ token tokens = tok
    /\ expiresIn tokens = VNum (inject_Z ((te - now) `div` 1000))
    /\ (te - now = 300000 -> expiresIn tokens = VNum (inject_Z 300))
    /\ (299000 < te - now <= 300000 ->
        expiresIn tokens = VNum (inject_Z 299) \/ expiresIn tokens = VNum (inject_Z 300)).
Proof.
  intros Htok Hacc Htt Hexp Hat Het Hdate.
  assert (Hd : truthy d = true).
  { destruct d; try reflexivity; cbn in Hacc; subst tok; discriminate Htt. }
  assert (Hread : exists org rt,
            read_auth_response now d =
            Normal (mkAuthToken tok (VNum (inject_Z ((te - now) `div` 1000))) org rt)).
  { assert (Hor : or_else (prop d "token") tok = tok)
      by (unfold or_else; now rewrite Htok).
    unfold read_auth_response. rewrite Hd, Htok, Hacc, Htt, Hexp, Hat, Het, Hdate, Hor, Htt.
    cbn [negb orb andb]. rewrite seconds_until_floor. eauto. }
  destruct Hread as (org & rt & Hread).
  eexists. unfold authenticateWithOTP. cbn [data]. rewrite Hread.
  split; [reflexivity|]. cbn [token expiresIn].
  split; [reflexivity|]. split; [reflexivity|]. split.
  - intros ->. reflexivity.
  - intros [Hlo Hhi].
    assert (H : (te - now) `div` 1000 = 299 \/ (te - now) `div` 1000 = 300).
    { assert (299 <= (te - now) `div` 1000) by (apply Z.div_le_lower_bound; lia).
      assert ((te - now) `div` 1000 <= 300) by (apply Z.div_le_upper_bound; lia).
      lia. }
    destruct H as [-> | ->]; auto.
Qed.

Lemma constraints_text_encoded (cs : list (string * string)) :
  constraints_text (VObj (map (fun kc => (fst kc, VStr (snd kc))) cs))
  = Normal (join ", " (map snd cs)).
Proof.
  unfold constraints_text, Object_values, bind, array_join. do 2 f_equal.
  induction cs as [|[k v] cs IH]; cbn; [reflexivity | now rewrite IH].
Qed.

Lemma format_child_encoded (parent : string) (f : FieldError) :
  named f ->
  format_child (VStr parent) (encode_field f) = Normal (fragment_field (parent +:+ ".") f).
Proof.
  intros Hn. unfold format_child, encode_field, member. cbn [is_nullish bind prop lookup_field].
  cbn [String.eqb Ascii.eqb Bool.eqb truthy]. rewrite (is_empty_false _ Hn). cbn [negb].
  change (lookup_field "constraints" _) with
    (VObj (map (fun kc => (fst kc, VStr (snd kc))) (fe_constraints f))).
  cbn [truthy]. rewrite constraints_text_encoded. cbn [bind ToString].
  unfold fragment_field. now rewrite append_assoc.
Qed.

Lemma format_children_encoded (parent : string) (children : list FieldError) :
  Forall named children ->
  mapM (format_child (VStr parent)) (map encode_field children)
  = Normal (map (fragment_field (parent +:+ ".")) children).
Proof.
  induction 1 as [|f fs Hf _ IH]; cbn [map mapM]; [reflexivity|].
  rewrite (format_child_encoded parent f Hf), IH. reflexivity.
Qed.

Lemma fragment_field_nonempty (pre : string) (f : FieldError) :
  is_empty (fragment_field pre f) = false.
Proof.
  unfold fragment_field. rewrite !is_empty_append. cbn [is_empty].
  now rewrite !andb_false_r.
Qed.

Lemma fragment_nonempty (e : ValidationError) : is_empty (fragment e) = false.
Proof.
  destruct e as [f | parent [|c cs]]; cbn [fragment map].
  - apply fragment_field_nonempty.
  - reflexivity.
  - apply join_cons_nonempty, fragment_field_nonempty.
Qed.

Lemma format_entry_encoded (e : ValidationError) :
  well_formed e -> format_entry (encode e) = Normal (fragment e).
Proof.
  destruct e as [f | parent children]; cbn [well_formed encode].
  - intros Hn. unfold format_entry, encode_field, member.
    cbn [is_nullish bind prop lookup_field String.eqb Ascii.eqb Bool.eqb truthy].
    rewrite (is_empty_false _ Hn). cbn [negb andb].
    change (lookup_field "constraints" _) with
      (VObj (map (fun kc => (fst kc, VStr (snd kc))) (fe_constraints f))).
    cbn [truthy]. rewrite constraints_text_encoded. reflexivity.
  - intros [Hp Hc]. unfold format_entry, member.
    cbn [is_nullish bind prop lookup_field String.eqb Ascii.eqb Bool.eqb truthy isArray].
    rewrite (is_empty_false _ Hp). cbn [negb andb].
    rewrite (format_children_encoded parent children Hc). cbn [bind].
    rewrite keep_all_nonempty
      by (apply Forall_map, Forall_forall; intros; apply fragment_field_nonempty).
    destruct children as [|c cs]; [reflexivity|]. cbn [map fragment ToString].
    now rewrite join_cons_nonempty by apply fragment_field_nonempty.
Qed.

Lemma format_entries_encoded (es : list ValidationError) :
  Forall well_formed es ->
  mapM format_entry (map encode es) = Normal (map fragment es).
Proof.
  induction 1 as [|e es He _ IH]; cbn [map mapM]; [reflexivity|].
  rewrite (format_entry_encoded e He), IH. reflexivity.
Qed.

Lemma typeof_object_encode (e : ValidationError) : typeof_object (encode e) = true.
Proof. destruct e; reflexivity. Qed.

Lemma prop_text_object (v : JsVal) (k t : string) :
  prop v k = VStr t -> exists fields, v = VObj fields.
Proof. destruct v; try discriminate. eauto. Qed.

Lemma field_fragment_nonempty (pre p text : string) :
  is_empty (pre +:+ p +:+ ": " +:+ text) = false.
Proof. rewrite !is_empty_append. cbn [is_empty]. now rewrite !andb_false_r. Qed.

Lemma format_child_shape (p : string) (child : JsVal) (frag : string) :
  child_shape p child frag ->
  format_child (VStr p) child = Normal frag /\ is_empty frag = false.
Proof.
  intros (cp & text & (Hcp & Hprop & fields & Hcs & ->) & ->).
  split.
  2:{ rewrite !is_empty_append. cbn [is_empty andb]. now rewrite andb_false_r. }
  destruct (prop_text_object _ _ _ Hprop) as [fs ->].
  unfold format_child, member. cbn [is_nullish bind]. rewrite Hprop. cbn [truthy].
  rewrite (is_empty_false _ Hcp). cbn [negb]. rewrite Hcs. cbn [truthy].
  unfold constraints_text, Object_values, bind. reflexivity.
Qed.

Lemma format_children_shape (p : string) (items : list JsVal) (frags : list string) :
  Forall2 (child_shape p) items frags ->
  mapM (format_child (VStr p)) items = Normal frags
  /\ Forall (fun x => is_empty x = false) frags.
Proof.
  induction 1 as [|child frag items frags Hc _ [IH1 IH2]]; cbn [mapM]; [now split|].
  destruct (format_child_shape p child frag Hc) as [-> Hne]. rewrite IH1.
  split; [reflexivity | now constructor].
Qed.

Lemma format_entry_shape (v : JsVal) (frag : string) :
  entry_shape v frag ->
  format_entry v = Normal frag /\ is_empty frag = false /\ typeof_object v = true.
Proof.
  intros [x p text (Hp & Hprop & fields & Hcs & ->) | x p items frags Hp Hprop Hcs Hch Hall].
  - destruct (prop_text_object _ _ _ Hprop) as [fs ->].
    split; [|split; [apply (field_fragment_nonempty "") | reflexivity]].
    unfold format_entry, member. cbn [is_nullish bind]. rewrite Hprop, Hcs. cbn [truthy].
    rewrite (is_empty_false _ Hp). cbn [negb andb].
    unfold constraints_text, Object_values, bind. reflexivity.
  - destruct (prop_text_object _ _ _ Hprop) as [fs ->].
    destruct (format_children_shape p items frags Hall) as [Hmap Hne].
    assert (Hfrag : format_entry (VObj fs)
                    = Normal (match frags with
                              | [] => "Invalid " +:+ p
                              | _ => join "; " frags
                              end)).
    { unfold format_entry, member. cbn [is_nullish bind]. rewrite Hprop, Hcs, Hch.
      cbn [truthy isArray]. rewrite (is_empty_false _ Hp). cbn [negb andb].
      rewrite Hmap. cbn [bind ToString]. rewrite (keep_all_nonempty frags Hne).
      destruct frags as [|f frags]; [reflexivity|].
      inversion Hne; subst. now rewrite join_cons_nonempty. }
    split; [exact Hfrag|]. split; [|reflexivity].
    destruct frags as [|f frags]; [reflexivity|].
    inversion Hne; subst. now apply join_cons_nonempty.
Qed.

Lemma format_entries_shape (items : list JsVal) (frags : list string) :
  Forall2 entry_shape items frags ->
  mapM format_entry items = Normal frags
  /\ Forall (fun x => is_empty x = false) frags.
Proof.
  induction 1 as [|v frag items frags Hv _ [IH1 IH2]]; cbn [mapM]; [now split|].
  destruct (format_entry_shape v frag Hv) as (-> & Hne & _). rewrite IH1.
  split; [reflexivity | now constructor].
Qed.

(** C9, as amended. A 422 answer to the authenticate call whose
    [message] is an array of validation errors, each an object with a
    non-empty text as [property] and either an object as [constraints]
    or, without constraints, an array of such objects as [children],
    whatever else the objects hold: the error thrown has as its message
    the fragments "property: constraints" joined by "; ", a nested error
    contributing "parent.child: constraints" for each child; the
    constraints of a property are the renderings of their values,
    separated by a comma.  When the body has an [errors] object its
    details follow after ": "; without one nothing follows. *)
Theorem validation_errors_are_flattened
    (sessions : gmap string JsVal) (email otp : string) (now : Z)
    (m : string) (d : JsVal) (items : list JsVal) (frags : list string) :
  prop d "message" = VArr items ->
  Forall2 entry_shape items frags ->
  authenticateWithOTP sessions email otp now
    (Rejected (mkCaught true m (Some (mkResponse 422 d)))) =
  ([mkRequest "POST" "/auth/email-otp/authenticate"
      (authenticate_body sessions email otp) VUndef None],
   Throw (mkError (if is_empty (errors_details d) then join "; " frags
                   else join "; " frags +:+ ": " +:+ errors_details d)),
   sessions)
  /\ (truthy (prop d "errors") = false -> errors_details d = "").
Proof.
  intros Hm Hshape. split.
  2:{ intros He. unfold errors_details. now rewrite He. }
  unfold authenticateWithOTP, authenticate_error.
  cbn [isAxiosError response status data Z.eqb Pos.eqb].
  do 3 f_equal. unfold normalize_422.
  assert (Hd : truthy d = true).
  { destruct d; try reflexivity; discriminate Hm. }
  rewrite Hd.
  assert (Hflat : message_of_422 d = join "; " frags).
  { unfold message_of_422. rewrite Hm.
    destruct (format_entries_shape items frags Hshape) as [Hmap Hne].
    destruct Hshape as [|v frag items frags Hv Hrest]; [reflexivity|].
    destruct (format_entry_shape v frag Hv) as (_ & Hf & ->).
    rewrite Hmap, (keep_all_nonempty _ Hne).
    now rewrite join_cons_nonempty. }
  now rewrite Hflat.
Qed.

End WithRuntime.

Import Scenario.

Lemma accessToken_expireAt_witness :
  prop auth_body "accessToken" = VStr "tok-9"
  /\ exists tokens,
       snd (fst (authenticateWithOTP (RT := SampleRuntime.runtime) ∅ "a@b.co" "123456"
                   midnight (Fulfilled (mkResponse 200 auth_body)))) = Normal tokens
       /\ token tokens = VStr "tok-9"
       /\ expiresIn tokens = VNum (inject_Z 300).
Proof.
  split; [reflexivity|].
  destruct (accessToken_expireAt_session (RT := SampleRuntime.runtime)
              ∅ "a@b.co" "123456" midnight 200 auth_body (VStr "tok-9")
              (VStr "2025-01-01T00:05:00.000Z") 1735689900000
              eq_refl eq_refl eq_refl eq_refl eq_refl eq_refl eq_refl)
    as (tokens & Hrun & Htok & _ & H300 & _).
  exists tokens. rewrite Hrun. split; [reflexivity|]. split; [exact Htok|].
  apply H300. reflexivity.
Defined.

Lemma validation_errors_witness :
  Forall2 (entry_shape (RT := SampleRuntime.runtime))
    (match prop ValidationScenario.class_validator_body "message" with
     | VArr items => items
     | _ => []
     end)
    ["otp: otp must be 6 characters"; "user.email: email must be an email"]
  /\ snd (fst (authenticateWithOTP (RT := SampleRuntime.runtime) ∅ "a@b.co" "1"
                 midnight
                 (Rejected (mkCaught true "Request failed with status code 422"
                              (Some (mkResponse 422
                                       ValidationScenario.class_validator_body))))))
     = Throw (mkError "otp: otp must be 6 characters; user.email: email must be an email").
Proof.
  assert (Hshape : Forall2 (entry_shape (RT := SampleRuntime.runtime))
            (match prop ValidationScenario.class_validator_body "message" with
             | VArr items => items
             | _ => []
             end)
            ["otp: otp must be 6 characters"; "user.email: email must be an email"]).
  { cbn. constructor; [|constructor; [|constructor]].
    - apply (shape_field (RT := SampleRuntime.runtime) _ "otp" "otp must be 6 characters").
      split; [discriminate|]. split; [reflexivity|]. eexists. split; reflexivity.
    - eapply (shape_nested (RT := SampleRuntime.runtime) _ "user" _
                ["user.email: email must be an email"]);
        [discriminate | reflexivity | reflexivity | reflexivity |].
      constructor; [|constructor].
      exists "email", "email must be an email".
      split; [|reflexivity].
      split; [discriminate|]. split; [reflexivity|]. eexists. split; reflexivity. }
  split; [exact Hshape|].
  exact (f_equal (fun x => snd (fst x))
           (proj1 (validation_errors_are_flattened (RT := SampleRuntime.runtime)
                     ∅ "a@b.co" "1" midnight "Request failed with status code 422"
                     ValidationScenario.class_validator_body _ _ eq_refl Hshape))).
Defined.

(** C9, as stated, fails.  A constraint that is itself an object reaches
    the message unserialized, and the details of an [errors] object
    follow the fragments, so that the message is not the joined fragments
    alone. *)
Lemma flattening_counterexample :
  message
    (authenticate_error (RT := SampleRuntime.runtime)
       (mkCaught true "Request failed with status code 422"
          (Some (mkResponse 422
                   (VObj [("message",
                           VArr [VObj [("property", VStr "otp");
                                       ("constraints",
                                        VObj [("isLength",
                                               VObj [("min", VNum (inject_Z 6))])])]])])))))
  = "otp: [object Object]"
  /\ message
       (authenticate_error (RT := SampleRuntime.runtime)
          (mkCaught true "Request failed with status code 422"
             (Some (mkResponse 422
                      (VObj [("message",
                              VArr [VObj [("property", VStr "otp");
                                          ("constraints",
                                           VObj [("isLength", VStr "otp must be 6 characters")])]]);
                             ("errors", VObj [("otp", VArr [VStr "too short"])])])))))
     = "otp: otp must be 6 characters: otp: too short".
Proof. split; reflexivity. Qed.

#[local] Existing Instance SampleRuntime.runtime.

(** An entry whose property name is empty is not flattened but
    serialized. *)
Example unnamed_property_is_serialized :
  normalize_422
    (VObj [("message", VArr [encode (Field (mkFieldError "" [("isDefined", "required")]))])])
  = "{" +:+ json_quote "property" +:+ ":" +:+ json_quote "" +:+ "," +:+
    json_quote "constraints" +:+ ":{" +:+ json_quote "isDefined" +:+ ":" +:+
    json_quote "required" +:+ "}}".
Proof. reflexivity. Qed.

(** A [null] among the entries makes the mapping throw, and the handler
    falls back to joining the raw entries. *)
Example null_entry_falls_back :
  normalize_422
    (VObj [("message",
            VArr [encode (Field (mkFieldError "otp" [("isLength", "too short")])); VNull])])
  = "[object Object], ".
Proof. reflexivity. Qed.

(** An [errors] object adds its details after the message. *)
Example errors_object_is_appended :
  normalize_422
    (VObj [("message", VStr "Validation failed");
           ("errors", VObj [("otp", VArr [VStr "too short"; VStr "not numeric"])])])
  = "Validation failed: otp: too short, not numeric".
Proof. reflexivity. Qed.

Example status_401_default :
  authenticate_error (mkCaught true "Request failed with status code 401"
                        (Some (mkResponse 401 VUndef)))
  = mkError "Unauthorized - Invalid credentials".
Proof. reflexivity. Qed.

Example object_message_is_replaced :
  authenticate_error (mkCaught true "Request failed with status code 400"
                        (Some (mkResponse 400 (VObj [("message", VObj [("otp", VStr "bad")])]))))
  = mkError "Authentication failed with validation errors".
Proof. reflexivity. Qed.

Example response_without_token :
  snd (fst (authenticateWithOTP ∅ "a@b.co" "123456" midnight
              (Fulfilled (mkResponse 200 (VObj [("ok", VBool true)])))))
  = Throw (mkError "Authentication failed").
Proof. reflexivity. Qed.

End AuthServiceFacts.

(* ===================================================================== *)
(** ** The login flow: commands/auth.ts *)
(* ===================================================================== *)

Module LoginFacts.
Import JsString Regex Patterns Js Http AuthService AuthCommands LoginRuns.
Import StringFacts.

Section WithRuntime.
Context `{RT : JsRuntime}.







(** Whenever the callback does request an OTP, it is for an email that
    matches the pattern. *)
Lemma otp_requested_for_valid_email
    (b : Bot) (chat : Z) (msg : Message) (http : AxiosOutcome) (r : Request) :
  In (Do (Call r)) (bot_actions (login_emailListener b chat msg http)) ->
  exists email,
    body r = VObj [("email", VStr email)] /\ test EMAIL_REGEX email = true.
Proof.
  unfold login_emailListener.
  destruct (negb (msg_chat msg =? chat)); [intros []|].
  destruct (test EMAIL_REGEX (text_or_empty msg)) eqn:Ht; cbn [negb].
  2:{ cbn. intros [H|[]]. discriminate H. }
  unfold requestEmailOTP.
  destruct http as [resp|e].
  - cbn. intros [H|[H|[]]]; [|discriminate H].
    injection H as <-. eauto.
  - destruct (isAxiosError e), (response e); cbn;
      (intros [H|[H|[]]]; [|discriminate H]); injection H as <-; eauto.
Qed.

(** C7. A text from the chat that the OTP step accepts, that is whose
    trimmed form matches the OTP pattern: after the "Authenticating"
    notice the callback posts to the authenticate endpoint, and the [otp]
    of the body is the text with every white-space character removed. *)
Theorem otp_submitted_without_whitespace
    (b : Bot) (chat : Z) (email text : string) (env : OtpEnv) :
  test OTP_REGEX (trim text) = true ->
  exists rest,
    bot_actions (otpListener b chat email (mkMessage chat (Some text)) env) =
      say chat "🔄 Authenticating..."
      :: Do (Call (mkRequest "POST" "/auth/email-otp/authenticate"
                     (VObj [("email", VStr email);
                            ("otp", VStr (filter_chars not_ws text));
                            ("sid", match emailOtpSessions b !! email with
                                    | Some sid => sid
                                    | None => VUndef
                                    end)])
                     VUndef None))
      :: rest.
Proof.
  intros Ht. unfold otpListener, text_or_empty. cbn [msg_chat msg_text].
  rewrite Z.eqb_refl, Ht. cbn [negb].
  unfold authenticateWithOTP, authenticate_body.
  rewrite remove_whitespace_filter, filter_trim.
  cbn [removeTextListener emailOtpSessions].
  destruct (authenticate_http env) as [resp|e].
  - destruct (read_auth_response (now env) (data resp)) as [tokens|err].
    + destruct (getUserProfile _ _) as [calls [profile|err]]; cbn; eauto.
    + cbn. eauto.
  - cbn. eauto.
Qed.

(** A timer of the flow, once run, always sends its notice and always
    splices the first catch-all listener out of the bot's list; nothing
    it reads tells it whether the login has been completed. *)
Lemma timer_always_acts (b : Bot) (t : Timer) :
  textListeners (bot_next (timer_fires b t)) = remove_first catch_all (textListeners b)
  /\ exists chat text, bot_actions (timer_fires b t) = [say chat text].
Proof. destruct t; cbn; eauto. Qed.

End WithRuntime.

Import LoginScenario.
#[local] Existing Instance SampleRuntime.runtime.



(** With the listener of another chat ahead of it, the flow is not over
    after an invalid email: chat 8 has issued [/login] before chat 7;
    chat 7's invalid email removes the listener of chat 8, its own stays
    registered, and its next text, a valid email, requests an OTP. *)
Example listener_ahead_keeps_flow :
  let b := bot_next (handleLogin (bot_next (handleLogin bot0 8 (Normal false))) 7
                       (Normal false)) in
  let r := login_emailListener b 7 (mkMessage 7 (Some "not an email")) otp_requested in
  textListeners b
  = [mkListener "/\/login/" LoginCommand; mkListener catch_all (EmailCallback 8);
     mkListener catch_all (EmailCallback 7)]
  /\ textListeners (bot_next r)
     = [mkListener "/\/login/" LoginCommand; mkListener catch_all (EmailCallback 7)]
  /\ bot_actions (login_emailListener (bot_next r) 7 (mkMessage 7 (Some "a@b.co"))
                    otp_requested)
     = [Do (Call (mkRequest "POST" "/auth/email-otp/request"
                    (VObj [("email", VStr "a@b.co")]) VUndef None));
        say 7 "✅ OTP sent to a@b.co. Please enter the 6-digit OTP code:"].
Proof. cbn zeta. repeat split; vm_compute; reflexivity. Qed.

Lemma otp_submitted_witness :
  test OTP_REGEX (trim "12 34 56") = true
  /\ nth_error
       (bot_actions (otpListener (RT := SampleRuntime.runtime) (bot_next emailed) 7 "a@b.co"
                       (mkMessage 7 (Some "12 34 56")) otp_env)) 1
     = Some (Do (Call (mkRequest "POST" "/auth/email-otp/authenticate"
                         (VObj [("email", VStr "a@b.co");
                                ("otp", VStr "123456");
                                ("sid", VStr "sid-1")])
                         VUndef None))).
Proof.
  split; [reflexivity|].
  destruct (otp_submitted_without_whitespace (RT := SampleRuntime.runtime)
              (bot_next emailed) 7 "a@b.co" "12 34 56" otp_env eq_refl) as [rest H].
  rewrite H. reflexivity.
Defined.

(** C3 fails on the code.  Chat 7 logs in; chat 8 then starts its own
    login; when chat 7's email timer runs, chat 7 is in the session store,
    yet the timer tells it that the email input timed out and removes the
    listener chat 8 is waiting with; the OTP timer then sends its notice
    as well. *)
Theorem timers_run_after_completed_login :
  is_Some (sessionStore (bot_next (logged_in (RT := SampleRuntime.runtime))) !! 7)
  /\ textListeners (bot_next (other_asked (RT := SampleRuntime.runtime)))
     = [mkListener "/\/login/" LoginCommand; mkListener "/.*/" (EmailCallback 8)]
  /\ bot_actions (email_timer_ran (RT := SampleRuntime.runtime))
     = [say 7 "⏰ Email input timeout. Please try /login again."]
  /\ textListeners (bot_next (email_timer_ran (RT := SampleRuntime.runtime)))
     = [mkListener "/\/login/" LoginCommand]
  /\ bot_actions (otp_timer_ran (RT := SampleRuntime.runtime))
     = [say 7 "⏰ OTP verification timeout. Please try /login again."].
Proof.
  split; [vm_compute; eauto|]. repeat split; vm_compute; reflexivity.
Qed.

End LoginFacts.

(* ===================================================================== *)
(** ** What the conversations keep true along a run *)
(* ===================================================================== *)

Module RunFacts.
Import JsString Regex Patterns Js Http.
Import TransferService AuthService TransferCommands Runs.
Import StringFacts RegexFacts TransferFacts.

Lemma validate_amount_positive msg v : validate_amount msg = inr v -> positive_amount v.
Proof.
  unfold validate_amount. destruct (trimmed_text msg) as [| | | | |t| |]; try discriminate.
  destruct (is_empty t); cbn [orb]; [discriminate|].
  destruct (test AMOUNT_REGEX t) eqn:Ht; cbn [negb]; [|discriminate].
  destruct (amount_text_parses t Ht) as (q & Hp & Hq). rewrite Hp.
  unfold le_zero. destruct (Qle_bool q 0) eqn:Hle; [discriminate|].
  intros [= <-]. exists q. split; [reflexivity|].
  apply Qnot_le_lt. intros Hc. apply Qle_bool_iff in Hc. congruence.
Qed.

Ltac in_list H :=
  repeat (cbn [In app map actions] in H;
          match type of H with
          | _ \/ _ => destruct H as [H|H]
          | False => destruct H
          | In _ (_ ++ _) => apply in_app_or in H
          end);
  try discriminate H.

Section WithRuntime.
Context `{RT : JsRuntime}.

(** No listener for messages makes a request. *)
Lemma on_message_no_call (c : SendConversation) msg r :
  ~ In (Call r) (actions (on_message c msg)).
Proof.
  unfold on_message, emailListener, amountListener, descriptionListener.
  intros H.
  destruct (listening c) as [[| |]|];
    destruct (negb (msg_chat msg =? chatId c)); try (in_list H; fail).
  - destruct (trimmed_text msg) as [| | | | |s| |]; try (in_list H; fail).
    destruct (is_empty s || negb (includes "@" s)); in_list H.
  - destruct (validate_amount msg); [in_list H|].
    destruct (userStates c !! chatId c); in_list H.
  - destruct (userStates c !! chatId c); in_list H.
Qed.

(** The two states a confirmation can leave. *)
Lemma confirm_send_next (c : SendConversation) env :
  next (confirm_send c env) = c
  \/ next (confirm_send c env)
     = mkSend (chatId c) (delete (chatId c) (userStates c)) (listening c).
Proof.
  unfold confirm_send.
  destruct (userStates c !! chatId c) as [d|]; [|now left].
  destruct (negb (truthy (getUserToken (token_session env)))); [now left|].
  destruct (getDefaultWallet _ _) as [calls [w|e]]; [|now left].
  destruct (negb (truthy w)); [now left|].
  destruct (toString_method (amount d)); [|now left].
  destruct (sendFunds _ _ _ _ _) as [sent result].
  destruct (success result && truthy (result_data result)); [now right | now left].
Qed.

(** The requests of a confirmation: the default wallet is fetched, and
    the draft is posted with the amount rendered as text. *)
Lemma confirm_send_calls (c : SendConversation) env r :
  In (Call r) (actions (confirm_send c env)) ->
  url r = "/wallets/default"
  \/ exists d text,
       userStates c !! chatId c = Some d
       /\ toString_method (amount d) = Normal text
       /\ r = mkRequest "POST" "/transfers/send"
                (VObj [("recipient", recipient d);
                       ("amount", VStr text);
                       ("description",
                        or_else (or_else (description d) (VStr "")) (VStr "Sent via Telegram"))])
                VUndef (bearer (getUserToken (token_session env))).
Proof.
  unfold confirm_send.
  destruct (userStates c !! chatId c) as [d|]; [|intros H; in_list H].
  destruct (negb (truthy (getUserToken (token_session env)))); [intros H; in_list H|].
  assert (Hw : forall calls (o : Completion JsVal),
             getDefaultWallet (wallet_session env) (wallet_http env) = (calls, o) ->
             forall x, In x calls -> url x = "/wallets/default").
  { unfold getDefaultWallet, wallet_call. intros calls o.
    destruct (wallet_session env); [destruct (wallet_http env)|];
      intros [= <- _] x Hx; in_list Hx; subst x; reflexivity. }
  destruct (getDefaultWallet _ _) as [calls o] eqn:E.
  specialize (Hw calls o eq_refl).
  assert (Hcalls : In (Call r) (map Call calls) -> url r = "/wallets/default").
  { intros H. apply in_map_iff in H as (x & [= ->] & Hx). now apply Hw. }
  destruct o as [w|e].
  2:{ intros H. apply in_app_or in H as [H|H]; [left; auto | in_list H]. }
  destruct (negb (truthy w)).
  { intros H. apply in_app_or in H as [H|H]; [left; auto | in_list H]. }
  destruct (toString_method (amount d)) as [text|e] eqn:Ha.
  2:{ intros H. apply in_app_or in H as [H|H]; [left; auto | in_list H]. }
  unfold sendFunds, toString_method. cbn [is_nullish ToString].
  assert (Hsend : forall x,
             Call (mkRequest "POST" "/transfers/send"
                     (VObj [("recipient", recipient d);
                            ("amount", VStr text);
                            ("description",
                             or_else (or_else (description d) (VStr ""))
                               (VStr "Sent via Telegram"))])
                     VUndef (bearer (getUserToken (token_session env)))) = Call x ->
             url x = "/wallets/default"
             \/ exists d0 text0,
                  Some d = Some d0 /\ toString_method (amount d0) = Normal text0
                  /\ x = mkRequest "POST" "/transfers/send"
                           (VObj [("recipient", recipient d0);
                                  ("amount", VStr text0);
                                  ("description",
                                   or_else (or_else (description d0) (VStr ""))
                                     (VStr "Sent via Telegram"))])
                           VUndef (bearer (getUserToken (token_session env)))).
  { intros x [= <-]. right. exists d, text. auto. }
  destruct (submit_http env) as [resp|err]; cbn [success result_data failure_data andb];
    [destruct (truthy (data resp))|]; cbn [actions]; intros H;
    rewrite !in_app_iff in H; cbn [In map] in H;
    decompose [or] H; try discriminate; try contradiction; auto.
Qed.

Lemma send_inv_delete (c : SendConversation) l :
  send_inv (mkSend (chatId c) (delete (chatId c) (userStates c)) l).
Proof. intros d. cbn [userStates chatId]. rewrite lookup_delete_eq. discriminate. Qed.

Lemma send_inv_insert (c : SendConversation) d l :
  send_draft_ok d -> send_inv (mkSend (chatId c) (<[chatId c := d]> (userStates c)) l).
Proof.
  intros Hd d'. cbn [userStates chatId]. rewrite lookup_insert_eq. now intros [= <-].
Qed.

Lemma send_step_keeps (c : SendConversation) ev :
  send_inv c ->
  send_inv (next (send_step c ev)) /\ chatId (next (send_step c ev)) = chatId c.
Proof.
  intros Hinv. destruct ev as [msg | q env]; cbn [send_step].
  - unfold on_message.
    destruct (listening c) as [[| |]|]; [| | |now split].
    + unfold emailListener.
      destruct (negb (msg_chat msg =? chatId c)); [now split|].
      destruct (trimmed_text msg) as [| | | | |e| |]; try now split.
      destruct (is_empty e) eqn:He; cbn [orb]; [now split|].
      destruct (includes "@" e) eqn:Hat; cbn [negb]; [|now split].
      cbn [next]. split; [|reflexivity].
      apply send_inv_insert. split; [eauto | now left].
    + unfold amountListener.
      destruct (negb (msg_chat msg =? chatId c)); [now split|].
      destruct (validate_amount msg) as [reply|v] eqn:Hv; [now split|].
      destruct (userStates c !! chatId c) as [d|] eqn:Hd; [|now split].
      cbn [next]. split; [|reflexivity].
      apply send_inv_insert. destruct (Hinv d Hd) as [Hr _].
      split; [exact Hr | right; exact (validate_amount_positive msg v Hv)].
    + unfold descriptionListener.
      destruct (negb (msg_chat msg =? chatId c)); [now split|].
      destruct (userStates c !! chatId c) as [d|] eqn:Hd; [|now split].
      cbn [next]. split; [|reflexivity].
      apply send_inv_insert. exact (Hinv d Hd).
  - unfold on_callback.
    destruct (cq_chat q) as [chat|]; [|now split].
    destruct (negb (chat =? chatId c)); [now split|]. cbn zeta.
    destruct (data_is (cq_data q) "confirm_send").
    { cbn [next]. destruct (confirm_send_next c env) as [-> | ->];
        [now split | split; [apply send_inv_delete | reflexivity]]. }
    destruct (data_is (cq_data q) "cancel_send").
    { cbn [next]. split; [apply send_inv_delete | reflexivity]. }
    destruct (data_is (cq_data q) "withdraw_wallet"); [now split|].
    destruct (data_is (cq_data q) "withdraw_bank"); now split.
Qed.

Lemma send_reachable_inv (c : SendConversation) : send_reachable c -> send_inv c.
Proof.
  induction 1 as [chat | c ev _ IH].
  - intros d. cbn. rewrite lookup_empty. discriminate.
  - now apply send_step_keeps.
Qed.

(** X1. Along any run of a send conversation, whatever is typed and
    whatever buttons are pressed, every request posted to
    [/transfers/send] carries a recipient containing "@", an amount that
    is the rendering of a number greater than 0, and a description that
    is not empty. *)
Theorem send_requests_are_validated
    (c : SendConversation) (ev : Event) (r : Request) :
  send_reachable c ->
  In (Call r) (actions (send_step c ev)) ->
  url r = "/transfers/send" ->
  exists e q desc,
    body r = VObj [("recipient", VStr e);
                   ("amount", VStr (Number_toString q));
                   ("description", desc)]
    /\ includes "@" e = true /\ (0 < q)%Q /\ truthy desc = true.
Proof.
  intros Hreach Hin Hurl. pose proof (send_reachable_inv c Hreach) as Hinv.
  destruct ev as [msg | q env]; cbn [send_step] in Hin.
  { exfalso. exact (on_message_no_call c msg r Hin). }
  unfold on_callback in Hin.
  destruct (cq_chat q) as [chat|]; [|in_list Hin].
  destruct (negb (chat =? chatId c)); [in_list Hin|]. cbn zeta in Hin.
  destruct (data_is (cq_data q) "confirm_send").
  2:{ destruct (data_is (cq_data q) "cancel_send"); [in_list Hin|].
      destruct (data_is (cq_data q) "withdraw_wallet"); [in_list Hin|].
      destruct (data_is (cq_data q) "withdraw_bank"); in_list Hin. }
  cbn [actions In] in Hin. destruct Hin as [Hin|Hin]; [discriminate Hin|].
  apply confirm_send_calls in Hin as [Hw | (d & text & Hd & Ht & ->)].
  { rewrite Hw in Hurl. discriminate Hurl. }
  destruct (Hinv d Hd) as [(e & He & Hat) [Hu | (x & Hx & Hpos)]].
  { rewrite Hu in Ht. discriminate Ht. }
  rewrite Hx in Ht. injection Ht as <-. rewrite He. cbn [body].
  exists e, x, (or_else (or_else (description d) (VStr "")) (VStr "Sent via Telegram")).
  repeat split; auto. apply GatewayFacts.or_else_truthy. reflexivity.
Qed.

(** X2. A cancel press deletes the draft whatever the flow has collected,
    and a confirm press that follows it is answered with the "not found"
    reply and makes no request. *)
Theorem cancel_then_confirm_submits_nothing
    (c : SendConversation) (cancel confirm : CallbackQuery) (env env' : ConfirmEnv) :
  cq_chat cancel = Some (chatId c) ->
  cq_data cancel = Some "cancel_send" ->
  cq_chat confirm = Some (chatId c) ->
  cq_data confirm = Some "confirm_send" ->
  let c' := next (on_callback c cancel env) in
  userStates c' !! chatId c = None
  /\ listening c' = listening c
  /\ actions (on_callback c' confirm env') =
       [AnswerCallbackQuery (cq_id confirm) None;
        SendMessage (chatId c) "❌ Transfer data not found. Please start again with /send" []].
Proof.
  intros Hc Hd Hc' Hd'. cbn zeta.
  assert (E : next (on_callback c cancel env)
              = mkSend (chatId c) (delete (chatId c) (userStates c)) (listening c)).
  { unfold on_callback. rewrite Hc, Z.eqb_refl, Hd. reflexivity. }
  rewrite E. cbn [userStates listening].
  split; [apply lookup_delete_eq|]. split; [reflexivity|].
  unfold on_callback. cbn [chatId]. rewrite Hc', Z.eqb_refl, Hd', data_is_same.
  cbn [negb]. unfold confirm_send. cbn [chatId userStates].
  rewrite lookup_delete_eq. reflexivity.
Qed.

(** X3. A conversation ignores what happens in other chats: a message or
    a button press from another chat, or a button press without its
    message, changes nothing in any of the three conversations and
    triggers no action. *)
Theorem other_chats_are_ignored
    (s : SendConversation) (b : BankConversation) (w : WalletConversation)
    (msg : Message) (q : CallbackQuery) (env : ConfirmEnv) :
  msg_chat msg <> chatId s -> msg_chat msg <> bank_chat b -> msg_chat msg <> wallet_chat w ->
  cq_chat q <> Some (chatId s) -> cq_chat q <> Some (bank_chat b) ->
  cq_chat q <> Some (wallet_chat w) ->
  on_message s msg = mkOutcome s [] false
  /\ on_callback s q env = mkOutcome s [] false
  /\ bank_on_message b msg = mkOutcome b [] false
  /\ bank_on_callback b q env = mkOutcome b [] false
  /\ wallet_on_message w msg = mkOutcome w [] false
  /\ wallet_on_callback w q env = mkOutcome w [] false.
Proof.
  intros Hs Hb Hw Hqs Hqb Hqw.
  apply Z.eqb_neq in Hs, Hb, Hw.
  assert (Hq : forall chat, cq_chat q <> Some chat ->
                 match cq_chat q with
                 | Some x => negb (x =? chat) = true
                 | None => True
                 end).
  { intros chat H. destruct (cq_chat q) as [x|]; [|exact I].
    apply negb_true_iff, Z.eqb_neq. congruence. }
  specialize (Hq _ Hqs) as Hq1. specialize (Hq _ Hqb) as Hq2. specialize (Hq _ Hqw) as Hq3.
  repeat split.
  - unfold on_message, emailListener, amountListener, descriptionListener.
    rewrite Hs. now destruct (listening s) as [[| |]|].
  - unfold on_callback. destruct (cq_chat q); [now rewrite Hq1 | reflexivity].
  - unfold bank_on_message, bank_amountListener. rewrite Hb. now destruct (bank_listening b).
  - unfold bank_on_callback, bank_callback_handler.
    destruct (bank_handlers b); [reflexivity|].
    destruct (cq_chat q); [now rewrite Hq2 | reflexivity].
  - unfold wallet_on_message, addressListener, wallet_amountListener.
    rewrite Hw. now destruct (wallet_listening w) as [[|]|].
  - unfold wallet_on_callback, wallet_callback_handler.
    destruct (wallet_handlers w); [reflexivity|].
    destruct (cq_chat q); [now rewrite Hq3 | reflexivity].
Qed.

Lemma bank_step_keeps (c : BankConversation) ev :
  bank_inv c ->
  bank_inv (next (bank_step c ev)) /\ bank_chat (next (bank_step c ev)) = bank_chat c.
Proof.
  intros Hinv.
  assert (Hdel : forall l h,
             bank_inv (mkBank (bank_chat c) (delete (bank_chat c) (bank_states c)) l h)).
  { intros l h d. cbn [bank_states bank_chat]. rewrite lookup_delete_eq. discriminate. }
  destruct ev as [msg | q env]; cbn [bank_step].
  - unfold bank_on_message. destruct (bank_listening c); [|now split].
    unfold bank_amountListener.
    destruct (negb (msg_chat msg =? bank_chat c)); [now split|].
    destruct (validate_amount msg) as [reply|v] eqn:Hv; [now split|].
    cbn [next]. split; [|reflexivity].
    intros d. cbn [bank_states bank_chat]. rewrite lookup_insert_eq. intros [= <-].
    exact (validate_amount_positive msg v Hv).
  - unfold bank_on_callback. destruct (bank_handlers c); [now split|].
    unfold bank_callback_handler.
    destruct (cq_chat q) as [chat|]; [|now split].
    destruct (negb (chat =? bank_chat c)); [now split|]. cbn zeta.
    destruct (data_is (cq_data q) "confirm_bank_withdraw").
    { cbn [next]. unfold confirm_bank_withdraw.
      destruct (bank_states c !! bank_chat c) as [d|]; [|now split].
      destruct (negb (truthy (getUserToken (token_session env)))); [now split|].
      destruct (toString_method (bank_amount d)); [|now split].
      destruct (withdrawToBank _ _ _ _) as [sent result].
      destruct (success result && truthy (result_data result)); [|now split].
      cbn [next]. split; [apply Hdel | reflexivity]. }
    destruct (data_is (cq_data q) "cancel_withdraw"); [|now split].
    cbn [next]. split; [apply Hdel | reflexivity].
Qed.

Lemma bank_reachable_inv (c : BankConversation) : bank_reachable c -> bank_inv c.
Proof.
  induction 1 as [chat | c ev _ IH].
  - intros d. cbn. rewrite lookup_empty. discriminate.
  - now apply bank_step_keeps.
Qed.

(** X4. Along any run of a bank-withdrawal conversation every request is
    the offramp request, its amount the rendering of a number greater than
    0, its [bankId] empty, and its authorization the bearer header of a
    token that is truthy, that is, has passed the handler's test. *)
Theorem bank_requests_are_validated
    (c : BankConversation) (ev : Event) (r : Request) :
  bank_reachable c ->
  In (Call r) (actions (bank_step c ev)) ->
  exists q token,
    r = mkRequest "POST" "/transfers/offramp"
          (VObj [("amount", VStr (Number_toString q)); ("bankId", VStr "")])
          VUndef (bearer token)
    /\ (0 < q)%Q /\ truthy token = true.
Proof.
  intros Hreach Hin. pose proof (bank_reachable_inv c Hreach) as Hinv.
  destruct ev as [msg | q env]; cbn [bank_step] in Hin.
  { unfold bank_on_message, bank_amountListener in Hin.
    destruct (bank_listening c); [|in_list Hin].
    destruct (negb (msg_chat msg =? bank_chat c)); [in_list Hin|].
    destruct (validate_amount msg); in_list Hin. }
  unfold bank_on_callback in Hin. destruct (bank_handlers c); [in_list Hin|].
  unfold bank_callback_handler in Hin.
  destruct (cq_chat q) as [chat|]; [|in_list Hin].
  destruct (negb (chat =? bank_chat c)); [in_list Hin|]. cbn zeta in Hin.
  destruct (data_is (cq_data q) "confirm_bank_withdraw").
  2:{ destruct (data_is (cq_data q) "cancel_withdraw"); in_list Hin. }
  cbn [actions In] in Hin. destruct Hin as [Hin|Hin]; [discriminate Hin|].
  unfold confirm_bank_withdraw in Hin.
  destruct (bank_states c !! bank_chat c) as [d|] eqn:Hd; [|in_list Hin].
  destruct (truthy (getUserToken (token_session env))) eqn:Htok; cbn [negb] in Hin;
    [|in_list Hin].
  destruct (Hinv d Hd) as (x & Hx & Hpos). rewrite Hx in Hin.
  unfold withdrawToBank, toString_method in Hin. cbn [is_nullish ToString] in Hin.
  assert (Hreq : forall y,
            Call (mkRequest "POST" "/transfers/offramp"
                    (VObj [("amount", VStr (Number_toString x)); ("bankId", VStr "")])
                    VUndef (bearer (getUserToken (token_session env)))) = Call y ->
            exists q0 token,
              y = mkRequest "POST" "/transfers/offramp"
                    (VObj [("amount", VStr (Number_toString q0)); ("bankId", VStr "")])
                    VUndef (bearer token)
              /\ (0 < q0)%Q /\ truthy token = true).
  { intros y [= <-]. eauto. }
  destruct (submit_http env) as [resp|err];
    cbn [success result_data failure_data andb] in Hin;
    [destruct (truthy (data resp))|]; cbn [actions] in Hin;
    rewrite ?in_app_iff in Hin; cbn [In map app] in Hin;
    decompose [or] Hin; try discriminate; try contradiction; auto.
Qed.

Lemma wallet_step_keeps (c : WalletConversation) ev :
  wallet_inv c ->
  wallet_inv (next (wallet_step c ev))
  /\ wallet_chat (next (wallet_step c ev)) = wallet_chat c.
Proof.
  intros Hinv.
  assert (Hdel : forall l h,
             wallet_inv (mkWallet (wallet_chat c) (delete (wallet_chat c) (wallet_states c)) l h)).
  { intros l h d. cbn [wallet_states wallet_chat]. rewrite lookup_delete_eq. discriminate. }
  assert (Hins : forall d l h, wallet_draft_ok d ->
             wallet_inv (mkWallet (wallet_chat c) (<[wallet_chat c := d]> (wallet_states c)) l h)).
  { intros d l h Hd d'. cbn [wallet_states wallet_chat]. rewrite lookup_insert_eq.
    now intros [= <-]. }
  destruct ev as [msg | q env]; cbn [wallet_step].
  - unfold wallet_on_message. destruct (wallet_listening c) as [[|]|]; [| |now split].
    + unfold addressListener.
      destruct (negb (msg_chat msg =? wallet_chat c)); [now split|].
      destruct (trimmed_text msg) as [| | | | |a| |]; try now split.
      destruct (is_empty a); cbn [orb]; [now split|].
      destruct (String.length a <? 32)%nat eqn:Hlen; [now split|].
      cbn [next]. split; [|reflexivity]. apply Hins. split; [|now left].
      exists a. split; [reflexivity|]. apply Nat.ltb_ge in Hlen. exact Hlen.
    + unfold wallet_amountListener.
      destruct (negb (msg_chat msg =? wallet_chat c)); [now split|].
      destruct (validate_amount msg) as [reply|v] eqn:Hv; [now split|].
      destruct (wallet_states c !! wallet_chat c) as [d|] eqn:Hd; [|now split].
      cbn [next]. split; [|reflexivity]. apply Hins.
      destruct (Hinv d Hd) as [Ha _].
      split; [exact Ha | right; exact (validate_amount_positive msg v Hv)].
  - unfold wallet_on_callback. destruct (wallet_handlers c); [now split|].
    unfold wallet_callback_handler.
    destruct (cq_chat q) as [chat|]; [|now split].
    destruct (negb (chat =? wallet_chat c)); [now split|].
    destruct (cq_data q) as [dt|]; [|now split].
    destruct (startsWith "network_" dt).
    { destruct (wallet_states c !! wallet_chat c) as [d|] eqn:Hd; [|now split].
      cbn [next]. split; [|reflexivity]. apply Hins. exact (Hinv d Hd). }
    destruct (String.eqb dt "confirm_wallet_withdraw").
    { cbn [next]. unfold confirm_wallet_withdraw.
      destruct (wallet_states c !! wallet_chat c) as [d|]; [|now split].
      destruct (negb (truthy (getUserToken (token_session env)))); [now split|].
      destruct (toString_method (wallet_amount d)); [|now split].
      destruct (withdrawToWallet _ _ _ _ _) as [sent result].
      destruct (success result && truthy (result_data result)); [|now split].
      cbn [next]. split; [apply Hdel | reflexivity]. }
    destruct (String.eqb dt "cancel_withdraw"); [|now split].
    cbn [next]. split; [apply Hdel | reflexivity].
Qed.

Lemma wallet_reachable_inv (c : WalletConversation) : wallet_reachable c -> wallet_inv c.
Proof.
  induction 1 as [chat | c ev _ IH].
  - intros d. cbn. rewrite lookup_empty. discriminate.
  - now apply wallet_step_keeps.
Qed.

(** X5. Along any run of a wallet-withdrawal conversation every request
    is the wallet-withdraw request, its address a text of at least 32
    characters, its amount the rendering of a number greater than 0, and
    its authorization the bearer header of a token that is truthy, that
    is, has passed the handler's test.  The network is whatever the draft
    holds when the confirmation is pressed. *)
Theorem wallet_requests_are_validated
    (c : WalletConversation) (ev : Event) (r : Request) :
  wallet_reachable c ->
  In (Call r) (actions (wallet_step c ev)) ->
  exists a q net token,
    r = mkRequest "POST" "/transfers/wallet-withdraw"
          (VObj [("address", VStr a); ("amount", VStr (Number_toString q)); ("network", net)])
          VUndef (bearer token)
    /\ (32 <= String.length a)%nat /\ (0 < q)%Q /\ truthy token = true.
Proof.
  intros Hreach Hin. pose proof (wallet_reachable_inv c Hreach) as Hinv.
  destruct ev as [msg | q env]; cbn [wallet_step] in Hin.
  { unfold wallet_on_message, addressListener, wallet_amountListener in Hin.
    destruct (wallet_listening c) as [[|]|]; [| |in_list Hin];
      (destruct (negb (msg_chat msg =? wallet_chat c)); [in_list Hin|]).
    - destruct (trimmed_text msg) as [| | | | |a| |]; try (in_list Hin; fail).
      destruct (is_empty a || (String.length a <? 32)%nat); in_list Hin.
    - destruct (validate_amount msg); [in_list Hin|].
      destruct (wallet_states c !! wallet_chat c); in_list Hin. }
  unfold wallet_on_callback in Hin. destruct (wallet_handlers c); [in_list Hin|].
  unfold wallet_callback_handler in Hin.
  destruct (cq_chat q) as [chat|]; [|in_list Hin].
  destruct (negb (chat =? wallet_chat c)); [in_list Hin|].
  destruct (cq_data q) as [dt|]; [|in_list Hin].
  destruct (startsWith "network_" dt).
  { destruct (wallet_states c !! wallet_chat c); in_list Hin. }
  destruct (String.eqb dt "confirm_wallet_withdraw").
  2:{ destruct (String.eqb dt "cancel_withdraw"); in_list Hin. }
  cbn [actions In] in Hin. destruct Hin as [Hin|Hin]; [discriminate Hin|].
  unfold confirm_wallet_withdraw in Hin.
  destruct (wallet_states c !! wallet_chat c) as [d|] eqn:Hd; [|in_list Hin].
  destruct (truthy (getUserToken (token_session env))) eqn:Htok; cbn [negb] in Hin;
    [|in_list Hin].
  destruct (Hinv d Hd) as [(a & Ha & Hlen) [Hu | (x & Hx & Hpos)]].
  { rewrite Hu in Hin. unfold toString_method, something_went_wrong in Hin.
    cbn [is_nullish] in Hin. in_list Hin. }
  rewrite Hx, Ha in Hin.
  unfold withdrawToWallet, toString_method in Hin. cbn [is_nullish ToString] in Hin.
  assert (Hreq : forall y,
            Call (mkRequest "POST" "/transfers/wallet-withdraw"
                    (VObj [("address", VStr a); ("amount", VStr (Number_toString x));
                           ("network", network d)])
                    VUndef (bearer (getUserToken (token_session env)))) = Call y ->
            exists a0 q0 net token,
              y = mkRequest "POST" "/transfers/wallet-withdraw"
                    (VObj [("address", VStr a0); ("amount", VStr (Number_toString q0));
                           ("network", net)])
                    VUndef (bearer token)
              /\ (32 <= String.length a0)%nat /\ (0 < q0)%Q /\ truthy token = true).
  { intros y [= <-]. exists a, x, (network d), (getUserToken (token_session env)). auto. }
  destruct (submit_http env) as [resp|err];
    cbn [success result_data failure_data andb] in Hin;
    [destruct (truthy (data resp))|]; cbn [actions] in Hin;
    rewrite ?in_app_iff in Hin; cbn [In map app] in Hin;
    decompose [or] Hin; try discriminate; try contradiction; auto.
Qed.

Lemma startsWith_append (p x : string) : startsWith p (p +:+ x) = true.
Proof.
  induction p as [|a p IH]; [now destruct x|].
  rewrite append_cons. cbn [startsWith]. unfold char_is. rewrite N.eqb_refl. exact IH.
Qed.

(** X6. The network step takes any button whose data begins with
    "network_", not only the two it offers: what follows the prefix is
    stored as the draft's network, address and amount stay, and the
    summary with the confirm and cancel buttons is sent. *)
Theorem network_is_the_suffix
    (c : WalletConversation) (d : WalletDraft) (q : CallbackQuery) (env : ConfirmEnv)
    (name : string) :
  wallet_handlers c <> O ->
  cq_chat q = Some (wallet_chat c) ->
  cq_data q = Some ("network_" +:+ name) ->
  wallet_states c !! wallet_chat c = Some d ->
  let r := wallet_on_callback c q env in
  wallet_states (next r) !! wallet_chat c
    = Some (mkWalletDraft (address d) (wallet_amount d) (VStr name))
  /\ exists text,
       actions r = [AnswerCallbackQuery (cq_id q) None;
                    SendMessage (wallet_chat c) text confirm_wallet_keyboard].
Proof.
  intros Hh Hc Hq Hd. cbn zeta. unfold wallet_on_callback.
  destruct (wallet_handlers c); [congruence|].
  unfold wallet_callback_handler. rewrite Hc, Z.eqb_refl, Hq. cbn [negb].
  rewrite startsWith_append, Hd.
  replace (replace_first false "network_" "" ("network_" +:+ name)) with name.
  2:{ destruct name; reflexivity. }
  cbn [next actions wallet_states wallet_chat]. rewrite lookup_insert_eq.
  split; [reflexivity | eauto].
Qed.

End WithRuntime.

Import Scenario RunScenario.

#[local] Existing Instance SampleRuntime.runtime.

Lemma send_requests_witness :
  exists e q desc,
    body (mkRequest "POST" "/transfers/send"
            (VObj [("recipient", VStr "a@b.com"); ("amount", VStr "10.5");
                   ("description", VStr "Sent via Telegram")])
            VUndef (Some "Bearer tok-1"))
    = VObj [("recipient", VStr e);
            ("amount", VStr (Number_toString (JsRuntime := SampleRuntime.runtime) q));
            ("description", desc)]
    /\ includes "@" e = true /\ (0 < q)%Q /\ truthy desc = true.
Proof.
  apply (send_requests_are_validated (RT := SampleRuntime.runtime)
           send_typed (OnCallback confirm_tap env_ok)).
  - unfold send_typed. do 3 apply send_stepped. apply send_started.
  - vm_compute. repeat (try (left; reflexivity); right).
  - reflexivity.
Defined.

Lemma cancel_then_confirm_witness :
  cq_data cancel_tap = Some "cancel_send"
  /\ userStates (next (on_callback (RT := SampleRuntime.runtime) conv0 cancel_tap env_ok)) !! 7
     = None.
Proof.
  split; [reflexivity|].
  exact (proj1 (cancel_then_confirm_submits_nothing (RT := SampleRuntime.runtime)
                  conv0 cancel_tap confirm_tap env_ok env_ok
                  eq_refl eq_refl eq_refl eq_refl)).
Defined.

Lemma other_chats_witness :
  msg_chat stray_message = 9
  /\ on_message (RT := SampleRuntime.runtime) conv0 stray_message = mkOutcome conv0 [] false
  /\ bank_on_callback (RT := SampleRuntime.runtime) bank0 stray_tap env_ok
     = mkOutcome bank0 [] false.
Proof.
  split; [reflexivity|].
  destruct (other_chats_are_ignored (RT := SampleRuntime.runtime)
              conv0 bank0 (mkWallet 7 ∅ None 1) stray_message stray_tap env_ok)
    as (H1 & _ & _ & H4 & _); try (cbn; discriminate).
  split; [exact H1 | exact H4].
Defined.

Lemma bank_requests_witness :
  exists q token,
    mkRequest "POST" "/transfers/offramp"
      (VObj [("amount", VStr "25"); ("bankId", VStr "")]) VUndef (Some "Bearer tok-1")
    = mkRequest "POST" "/transfers/offramp"
        (VObj [("amount", VStr (Number_toString (JsRuntime := SampleRuntime.runtime) q));
               ("bankId", VStr "")])
        VUndef (bearer (RT := SampleRuntime.runtime) token)
    /\ (0 < q)%Q /\ truthy token = true.
Proof.
  apply (bank_requests_are_validated (RT := SampleRuntime.runtime)
           bank_typed (OnCallback bank_tap env_ok)).
  - unfold bank_typed. apply bank_stepped. apply bank_started.
  - vm_compute. repeat (try (left; reflexivity); right).
Defined.

Lemma wallet_requests_witness :
  exists a q net token,
    mkRequest "POST" "/transfers/wallet-withdraw"
      (VObj [("address", VStr solana_address); ("amount", VStr "10.5");
             ("network", VStr "solana")])
      VUndef (Some "Bearer tok-1")
    = mkRequest "POST" "/transfers/wallet-withdraw"
        (VObj [("address", VStr a);
               ("amount", VStr (Number_toString (JsRuntime := SampleRuntime.runtime) q));
               ("network", net)])
        VUndef (bearer (RT := SampleRuntime.runtime) token)
    /\ (32 <= String.length a)%nat /\ (0 < q)%Q /\ truthy token = true.
Proof.
  apply (wallet_requests_are_validated (RT := SampleRuntime.runtime)
           wallet_chosen (OnCallback wallet_tap env_ok)).
  - unfold wallet_chosen, wallet_typed. do 3 apply wallet_stepped. apply wallet_started.
  - vm_compute. repeat (try (left; reflexivity); right).
Defined.

Lemma network_is_the_suffix_witness :
  cq_data polygon_tap = Some ("network_" +:+ "polygon")
  /\ wallet_states
       (next (wallet_on_callback (RT := SampleRuntime.runtime)
                (wallet_typed (RT := SampleRuntime.runtime)) polygon_tap env_ok)) !! 7
     = Some (mkWalletDraft (VStr solana_address) (VNum (Qmake 105 10)) (VStr "polygon")).
Proof.
  split; [reflexivity|].
  refine (proj1 (network_is_the_suffix (RT := SampleRuntime.runtime)
                   (wallet_typed (RT := SampleRuntime.runtime))
                   (mkWalletDraft (VStr solana_address) (VNum (Qmake 105 10)) VUndef)
                   polygon_tap env_ok "polygon" _ eq_refl eq_refl eq_refl)).
  vm_compute. discriminate.
Defined.

End RunFacts.

(* ===================================================================== *)
(** ** More on the login flow *)
(* ===================================================================== *)

Module LoginMoreFacts.
Import JsString Regex Patterns Js Http AuthService AuthCommands TextClasses.
Import StringFacts RegexFacts TransferFacts.

Lemma all_chars_append p a b :
  all_chars p (a +:+ b) = all_chars p a && all_chars p b.
Proof.
  induction a as [|x a IH]; [reflexivity|].
  rewrite append_cons. cbn [all_chars]. now rewrite IH, andb_assoc.
Qed.

Lemma strip_prefix_keeps p ci a : forall s rest,
  strip_prefix ci a s = Some rest -> all_chars p s = true -> all_chars p rest = true.
Proof.
  induction a as [|x a IH]; intros s rest; cbn [strip_prefix].
  - now intros [= <-].
  - destruct s as [|y s]; [discriminate|].
    destruct (if ci then _ else _); [|discriminate].
    intros H Hs. cbn [all_chars] in Hs. apply andb_prop in Hs as [_ Hs]. eauto.
Qed.

Lemma strip_any_keeps p ci alts : forall s rest,
  strip_any ci alts s = Some rest -> all_chars p s = true -> all_chars p rest = true.
Proof.
  induction alts as [|a alts IH]; intros s rest; cbn [strip_any]; [discriminate|].
  destruct (strip_prefix ci a s) as [r|] eqn:E.
  - intros [= <-]. now apply (strip_prefix_keeps p ci a s).
  - apply IH.
Qed.

(** Replacing keeps out what neither the subject nor the replacement
    contains. *)
Lemma replace_all_keeps p ci alts by_ fuel : forall s,
  all_chars p by_ = true -> all_chars p s = true ->
  all_chars p (replace_all fuel ci alts by_ s) = true.
Proof.
  induction fuel as [|fuel IH]; intros s Hb Hs; cbn [replace_all]; [exact Hs|].
  destruct s as [|c s]; [reflexivity|].
  destruct (strip_any ci alts (String c s)) as [rest|] eqn:E.
  - rewrite all_chars_append, Hb. cbn [andb]. apply IH; [exact Hb|].
    now apply (strip_any_keeps p ci alts (String c s)).
  - cbn [all_chars] in *. apply andb_prop in Hs as [Hc Hs]. rewrite Hc. cbn [andb]. auto.
Qed.

Lemma replace_first_keeps p ci a by_ : forall s,
  all_chars p by_ = true -> all_chars p s = true ->
  all_chars p (replace_first ci a by_ s) = true.
Proof.
  induction s as [|c s IH]; intros Hb Hs.
  - cbn [replace_first]. destruct (strip_prefix ci a "") as [rest|] eqn:E; [|reflexivity].
    rewrite all_chars_append, Hb. cbn [andb]. now apply (strip_prefix_keeps p ci a "").
  - cbn [replace_first]. destruct (strip_prefix ci a (String c s)) as [rest|] eqn:E.
    + rewrite all_chars_append, Hb. cbn [andb].
      now apply (strip_prefix_keeps p ci a (String c s)).
    + cbn [all_chars] in *. apply andb_prop in Hs as [Hc Hs]. rewrite Hc. cbn [andb]. auto.
Qed.

Lemma trimStart_keeps p s : all_chars p s = true -> all_chars p (trimStart s) = true.
Proof.
  induction s as [|c s IH]; [auto|]. intros H. cbn [trimStart].
  destruct (is_ws c); [|exact H]. cbn [all_chars] in H. apply andb_prop in H as [_ H]. auto.
Qed.

Lemma trimEnd_keeps p s : all_chars p s = true -> all_chars p (trimEnd s) = true.
Proof.
  induction s as [|c s IH]; [auto|]. intros H. cbn [trimEnd].
  cbn [all_chars] in H. apply andb_prop in H as [Hc H].
  destruct (is_ws c && is_empty (trimEnd s)); [reflexivity|].
  cbn [all_chars]. rewrite Hc. cbn [andb]. auto.
Qed.

Lemma trim_keeps p s : all_chars p s = true -> all_chars p (trim s) = true.
Proof. intros H. unfold trim. now apply trimEnd_keeps, trimStart_keeps. Qed.

Lemma strip_symbol c s :
  strip_any false json_symbols (String c s) = if json_symbol c then Some s else None.
Proof.
  unfold json_symbols, json_symbol. cbn [strip_any strip_prefix].
  unfold char_is.
  change (code (ascii_of_N 34)) with 34%N.
  rewrite !(N.eqb_sym (code c)).
  destruct (code "{" =? code c)%N; [reflexivity|].
  destruct (code "}" =? code c)%N; [reflexivity|].
  destruct (code "[" =? code c)%N; [reflexivity|].
  destruct (code "]" =? code c)%N; [reflexivity|].
  destruct (34 =? code c)%N; reflexivity.
Qed.

(** Removing the symbols leaves none. *)
Lemma symbols_removed fuel : forall s,
  (String.length s <= fuel)%nat ->
  all_chars no_json_symbol (replace_all fuel false json_symbols "" s) = true.
Proof.
  induction fuel as [|fuel IH]; intros s Hlen.
  - destruct s; [reflexivity | cbn in Hlen; lia].
  - destruct s as [|c s]; [reflexivity|]. cbn [replace_all]. rewrite strip_symbol.
    cbn [String.length] in Hlen.
    destruct (json_symbol c) eqn:Hc.
    + change ("" +:+ ?x) with x. apply IH. lia.
    + cbn [all_chars]. unfold no_json_symbol at 1. rewrite Hc. cbn [negb andb].
      apply IH. lia.
Qed.


(** X8. The text shown for a failed authentication never contains a
    brace, a bracket or a double quote: a serialized object in the
    error message does not reach the user as such. *)
Theorem error_text_has_no_json_symbols (raw : string) :
  all_chars no_json_symbol (userFriendlyMessage raw) = true.
Proof.
  unfold userFriendlyMessage. cbn zeta.
  repeat match goal with
         | |- all_chars _ (if ?b then _ else _) = true => destruct b eqn:?
         end;
    try (vm_compute; reflexivity).
  apply trim_keeps, replace_all_keeps; [vm_compute; reflexivity|].
  apply (symbols_removed _ _ (Nat.le_refl _)).
Qed.

Lemma otp_chars c : alphabet OTP_REGEX c = true -> is_ws c = true \/ is_digit c = true.
Proof.
  destruct c as [[] [] [] [] [] [] [] []]; vm_compute; intros H;
    first [discriminate H | now left | now right].
Qed.

Lemma digit_not_ws c : is_digit c = true -> is_ws c = false.
Proof. intros H. now destruct (digit_facts c H). Qed.

Lemma filter_append p a b :
  filter_chars p (a +:+ b) = filter_chars p a +:+ filter_chars p b.
Proof.
  induction a as [|x a IH]; [reflexivity|].
  rewrite append_cons. cbn [filter_chars]. destruct (p x); [|exact IH].
  now rewrite append_cons, IH.
Qed.

Lemma filter_leaves_digits s :
  all_chars (fun c => is_ws c || is_digit c) s = true ->
  all_chars is_digit (filter_chars not_ws s) = true.
Proof.
  induction s as [|c s IH]; [reflexivity|]. cbn [all_chars filter_chars].
  intros H. apply andb_prop in H as [Hc Hs]. unfold not_ws at 1.
  destruct (is_ws c) eqn:Hw; cbn [negb]; [auto|].
  cbn [orb] in Hc. cbn [all_chars]. rewrite Hc. cbn [andb]. auto.
Qed.

Lemma lang_cls_inv p u : lang (Cls p) u -> exists c, u = String c "" /\ p c = true.
Proof. inversion 1; subst; eauto. Qed.

(** A text the OTP pattern accepts has a digit in it. *)
Lemma otp_has_digit s :
  test OTP_REGEX s = true ->
  exists a d b, s = a +:+ String d b /\ is_digit d = true.
Proof.
  intros H. apply test_lang in H. unfold OTP_REGEX, Rep1 in H.
  apply lang_cat_inv in H as (a & u & -> & _ & H).
  apply lang_cat_inv in H as (u1 & u2 & -> & H & _).
  apply lang_cat_inv in H as (u3 & u4 & -> & H & _).
  apply lang_cls_inv in H as (d & -> & Hd).
  exists a, d, (u4 +:+ u2). split; [|exact Hd].
  now rewrite append_cons.
Qed.

(** X9. Of a text that has passed the OTP pattern the authenticate call
    sends a non-empty string of digits: the white space between and
    around the groups is gone and nothing else can be in it.  The pattern
    bounds each group by six digits, not the whole: "123456 123456" is
    sent as twelve digits. *)
Theorem submitted_otp_is_digits
    (sessions : gmap string JsVal) (email otp : string) :
  test OTP_REGEX otp = true ->
  exists digits,
    prop (authenticate_body sessions email otp) "otp" = VStr digits
    /\ all_chars is_digit digits = true
    /\ digits <> "".
Proof.
  intros H. exists (filter_chars not_ws otp). split; [|split].
  - unfold authenticate_body. cbn. now rewrite remove_whitespace_filter.
  - apply filter_leaves_digits.
    apply (all_chars_impl (alphabet OTP_REGEX)); [|now apply test_alphabet].
    intros c Hc. destruct (otp_chars c Hc) as [-> | ->]; [reflexivity | apply orb_true_r].
  - destruct (otp_has_digit otp H) as (a & d & b & -> & Hd).
    rewrite filter_append. cbn [filter_chars]. unfold not_ws at 2.
    rewrite (digit_not_ws d Hd). cbn [negb].
    destruct (filter_chars not_ws a); discriminate.
Qed.

Lemma remove_first_skips re (pre : list TextListener) l post :
  Forall (fun x => regexp x <> re) pre -> regexp l = re ->
  remove_first re (pre ++ l :: post) = pre ++ post.
Proof.
  intros Hpre Hl. induction Hpre as [|x pre Hx _ IH]; cbn [remove_first app].
  - rewrite Hl, String.eqb_refl. reflexivity.
  - apply String.eqb_neq in Hx. rewrite Hx. now rewrite IH.
Qed.

Section WithRuntime.
Context `{RT : JsRuntime}.

(** X10. The email callback of one chat removes the first catch-all
    listener of the bot's list, whichever callback it holds and whichever
    chat registered it, not its own: with another chat's listener ahead
    of it, that one is removed and the callback's own stays registered.
    At most the OTP listener of the same chat is added at the end. *)
Theorem email_callback_removes_first_listener
    (b : Bot) (chat : Z) (msg : Message) (http : AxiosOutcome)
    (pre post : list TextListener) (first : TextListener) :
  msg_chat msg = chat ->
  textListeners b = pre ++ first :: post ->
  Forall (fun x => regexp x <> catch_all) pre ->
  regexp first = catch_all ->
  let after := textListeners (bot_next (login_emailListener b chat msg http)) in
  after = pre ++ post
  \/ exists email, after = (pre ++ post) ++ [mkListener catch_all (OtpCallback chat email)].
Proof.
  intros Hc Hl Hpre Hf. cbn zeta. unfold login_emailListener.
  rewrite Hc, Z.eqb_refl. cbn [negb]. unfold removeTextListener.
  rewrite Hl, (remove_first_skips catch_all pre first post Hpre Hf).
  destruct (negb (test EMAIL_REGEX (text_or_empty msg))); [now left|].
  cbn [emailOtpSessions].
  destruct (requestEmailOTP _ _ _) as [[calls [sent|err]] sessions]; cbn; eauto.
Qed.

(** X11. What the OTP callback leaves in the session store depends on the
    authenticate call alone: when it fails nothing is stored; when it
    succeeds the chat's session holds the returned token, also when the
    profile request that follows fails and the user is told that the
    login has failed. *)
Theorem session_follows_authentication
    (b : Bot) (chat : Z) (email text : string) (env : OtpEnv) :
  test OTP_REGEX (trim text) = true ->
  let r := otpListener b chat email (mkMessage chat (Some text)) env in
  match snd (fst (authenticateWithOTP (emailOtpSessions b) email (trim text) (now env)
                    (authenticate_http env))) with
  | Throw _ => sessionStore (bot_next r) = sessionStore b
  | Normal tokens =>
      exists stored,
        sessionStore (bot_next r) !! chat = Some stored /\ token stored = token tokens
  end.
Proof.
  intros Ht. cbn zeta. unfold otpListener, text_or_empty. cbn [msg_chat msg_text].
  rewrite Z.eqb_refl, Ht. cbn [negb removeTextListener emailOtpSessions].
  destruct (authenticateWithOTP _ _ _ _ _) as [[calls [tokens|err]] sessions];
    cbn [fst snd]; [|reflexivity].
  destruct (getUserProfile _ _) as [calls' [profile|err]].
  - destruct (truthy (prop profile "organizationId"));
      cbn [bot_next sessionStore storeUserSession]; rewrite lookup_insert_eq; eauto.
  - cbn [bot_next sessionStore storeUserSession]. rewrite lookup_insert_eq. eauto.
Qed.


End WithRuntime.

Import Scenario LoginScenario.

#[local] Existing Instance SampleRuntime.runtime.


Lemma submitted_otp_digits_witness :
  test OTP_REGEX "12 34 56" = true
  /\ exists digits,
       prop (authenticate_body ∅ "a@b.co" "12 34 56") "otp" = VStr digits
       /\ all_chars is_digit digits = true
       /\ digits <> "".
Proof.
  split; [reflexivity|].
  exact (submitted_otp_is_digits ∅ "a@b.co" "12 34 56" eq_refl).
Defined.

Lemma email_callback_witness :
  let waiting8 := mkListener catch_all (EmailCallback 8) in
  let waiting7 := mkListener catch_all (EmailCallback 7) in
  let b := mkBot [mkListener "/\/login/" LoginCommand; waiting8; waiting7] [] ∅ ∅ in
  let after :=
    textListeners (bot_next (login_emailListener b 7 (mkMessage 7 (Some "a@b.co"))
                               otp_requested)) in
  regexp waiting8 = catch_all
  /\ (after = [mkListener "/\/login/" LoginCommand] ++ [waiting7]
      \/ exists email,
           after = ([mkListener "/\/login/" LoginCommand] ++ [waiting7])
                   ++ [mkListener catch_all (OtpCallback 7 email)]).
Proof.
  cbn zeta. split; [reflexivity|].
  apply (email_callback_removes_first_listener
           (mkBot [mkListener "/\/login/" LoginCommand;
                   mkListener catch_all (EmailCallback 8);
                   mkListener catch_all (EmailCallback 7)] [] ∅ ∅)
           7 (mkMessage 7 (Some "a@b.co")) otp_requested
           [mkListener "/\/login/" LoginCommand] [mkListener catch_all (EmailCallback 7)]
           (mkListener catch_all (EmailCallback 8)));
    [reflexivity | reflexivity | repeat constructor; discriminate | reflexivity].
Defined.

Lemma session_follows_witness :
  test OTP_REGEX (trim "12 34 56") = true
  /\ exists stored,
       sessionStore (bot_next (otpListener (bot_next emailed) 7 "a@b.co"
                                 (mkMessage 7 (Some "12 34 56")) otp_env)) !! 7
       = Some stored
       /\ token stored = VStr "tok-9".
Proof.
  split; [reflexivity|].
  exact (session_follows_authentication (bot_next emailed) 7 "a@b.co" "12 34 56" otp_env
           eq_refl).
Defined.

End LoginMoreFacts.

(* ===================================================================== *)
(** ** More on the auth service *)
(* ===================================================================== *)

Module AuthServiceMoreFacts.
Import JsString Js Http AuthService ValidationErrors StringFacts.

Section WithRuntime.
Context `{RT : JsRuntime}.

(** X12. The session id of an OTP request comes back with the
    authenticate call: after a request for [email] whose response
    carries a [sid], the body of an authenticate call for [email] has
    that [sid], and the body for any other email is what it was before. *)
Theorem sid_is_sent_back
    (sessions : gmap string JsVal) (email other otp : string) (r : AxiosResponse) :
  truthy (prop (data r) "sid") = true ->
  other <> email ->
  let sessions' := snd (requestEmailOTP sessions email (Fulfilled r)) in
  prop (authenticate_body sessions' email otp) "sid" = prop (data r) "sid"
  /\ authenticate_body sessions' other otp = authenticate_body sessions other otp.
Proof.
  intros Hsid Hne. cbn zeta. unfold requestEmailOTP. cbn [snd].
  assert (Hd : truthy (data r) = true).
  { destruct (data r); try reflexivity; discriminate Hsid. }
  rewrite Hd, Hsid. cbn [andb]. unfold authenticate_body, set_sid. split.
  - cbn. now rewrite lookup_insert_eq.
  - now rewrite lookup_insert_ne by congruence.
Qed.

(** X13. A session id is used up by the authentication that succeeds
    with it and by nothing else: after a successful call a further call
    for the same email is sent without [sid], after a failed one it is
    sent with the same [sid] again; the ids of other emails are left
    alone either way. *)
Theorem sid_is_consumed_by_success
    (sessions : gmap string JsVal) (email other otp otp' : string) (now : Z)
    (http : AxiosOutcome) :
  other <> email ->
  let '(_, result, sessions') := authenticateWithOTP sessions email otp now http in
  (match result with
   | Normal _ => prop (authenticate_body sessions' email otp') "sid" = VUndef
   | Throw _ => authenticate_body sessions' email otp' = authenticate_body sessions email otp'
   end)
  /\ authenticate_body sessions' other otp' = authenticate_body sessions other otp'.
Proof.
  intros Hne. unfold authenticateWithOTP.
  destruct http as [r|e]; [destruct (read_auth_response now (data r))|];
    unfold authenticate_body; split; try reflexivity.
  - cbn. now rewrite lookup_delete_eq.
  - now rewrite lookup_delete_ne by congruence.
Qed.

(** X14. A session the authenticate call returns always has a token that
    is truthy, an organization id that is either truthy or the empty
    string (never undefined), and a refresh token only if that is
    truthy.  Truthy is what the code tests: a value other than
    undefined, null, false, 0, NaN and the empty text. *)
Theorem returned_session_is_usable
    (sessions : gmap string JsVal) (email otp : string) (now : Z) (http : AxiosOutcome)
    (tokens : AuthToken) :
  snd (fst (authenticateWithOTP sessions email otp now http)) = Normal tokens ->
  truthy (token tokens) = true
  /\ (organizationId tokens = VStr "" \/ truthy (organizationId tokens) = true)
  /\ (forall rt, refreshToken tokens = Some rt -> truthy rt = true).
Proof.
  unfold authenticateWithOTP. destruct http as [r|e]; [|discriminate].
  destruct (read_auth_response now (data r)) as [t|err] eqn:E; [|discriminate].
  cbn [fst snd]. intros [= ->]. revert E. unfold read_auth_response.
  destruct (negb (truthy (data r)) || _); [discriminate|].
  destruct (negb (truthy (or_else (prop (data r) "token") (prop (data r) "accessToken"))))
    eqn:Htok; [discriminate|].
  intros [= <-]. cbn [token organizationId refreshToken].
  split; [now apply negb_false_iff in Htok|]. split.
  - destruct (negb (truthy (or_else (prop (data r) "organizationId") (VStr ""))) && _ && _)
      eqn:Hn.
    + right. apply andb_prop in Hn as [_ Hn]. exact Hn.
    + unfold or_else. destruct (truthy (prop (data r) "organizationId")) eqn:Ho; auto.
  - intros rt.
    match goal with
    | |- context [if truthy ?x then Some _ else None] => destruct (truthy x) eqn:Hrt
    end; [|discriminate].
    now intros [= <-].
Qed.

(** X15. The flattening of validation errors belongs to status 422
    alone: the same array of error objects under any other status is
    joined as it is, each object rendered as "[object Object]". *)
Theorem validation_errors_raw_outside_422
    (m : string) (st : Z) (d : JsVal) (es : list ValidationError) :
  st <> 422 ->
  prop d "message" = VArr (map encode es) ->
  authenticate_error (mkCaught true m (Some (mkResponse st d)))
  = mkError (join ", " (map (fun _ => "[object Object]") es)).
Proof.
  intros Hst Hm. unfold authenticate_error. cbn [isAxiosError response status].
  apply Z.eqb_neq in Hst. rewrite Hst. unfold normalize_status, data_message, opt_member.
  cbn [data].
  assert (Hn : is_nullish d = false) by (destruct d; try reflexivity; discriminate Hm).
  rewrite Hn, Hm. unfold or_else at 2. cbn [truthy]. unfold array_join.
  do 2 f_equal. rewrite map_map. apply map_ext. intros e. now destruct e.
Qed.

End WithRuntime.

Import Scenario LoginScenario.

#[local] Existing Instance SampleRuntime.runtime.

Lemma sid_is_sent_back_witness :
  truthy (prop (VObj [("sid", VStr "sid-1")]) "sid") = true
  /\ prop (authenticate_body
             (snd (requestEmailOTP ∅ "a@b.co"
                     (Fulfilled (mkResponse 200 (VObj [("sid", VStr "sid-1")])))))
             "a@b.co" "123456") "sid"
     = VStr "sid-1".
Proof.
  split; [reflexivity|].
  refine (proj1 (sid_is_sent_back ∅ "a@b.co" "c@d.co" "123456"
                   (mkResponse 200 (VObj [("sid", VStr "sid-1")])) eq_refl _)).
  discriminate.
Defined.

Lemma sid_is_consumed_witness :
  "c@d.co" <> "a@b.co"
  /\ prop (authenticate_body
             (snd (authenticateWithOTP (<["a@b.co" := VStr "sid-1"]> ∅) "a@b.co" "123456"
                     midnight (Fulfilled (mkResponse 200 auth_body))))
             "a@b.co" "654321") "sid"
     = VUndef.
Proof.
  split; [discriminate|].
  refine (proj1 (sid_is_consumed_by_success (<["a@b.co" := VStr "sid-1"]> ∅)
                   "a@b.co" "c@d.co" "123456" "654321" midnight
                   (Fulfilled (mkResponse 200 auth_body)) _)).
  discriminate.
Defined.

Lemma returned_session_witness :
  snd (fst (authenticateWithOTP ∅ "a@b.co" "123456" midnight
              (Fulfilled (mkResponse 200 auth_body))))
  = Normal (mkAuthToken (VStr "tok-9") (VNum (inject_Z 300)) (VStr "") None)
  /\ truthy (VStr "tok-9") = true.
Proof.
  split; [reflexivity|].
  exact (proj1 (returned_session_is_usable ∅ "a@b.co" "123456" midnight
                  (Fulfilled (mkResponse 200 auth_body))
                  (mkAuthToken (VStr "tok-9") (VNum (inject_Z 300)) (VStr "") None)
                  eq_refl)).
Defined.

Lemma validation_errors_raw_witness :
  400 <> 422
  /\ authenticate_error
       (mkCaught true "Request failed with status code 400"
          (Some (mkResponse 400
                   (VObj [("message",
                           VArr (map encode
                                   [Field (mkFieldError "otp"
                                             [("isLength", "otp must be 6 characters")])]))]))))
     = mkError "[object Object]".
Proof.
  split; [discriminate|].
  refine (validation_errors_raw_outside_422 "Request failed with status code 400" 400
            (VObj [("message",
                    VArr (map encode
                            [Field (mkFieldError "otp"
                                      [("isLength", "otp must be 6 characters")])]))])
            [Field (mkFieldError "otp" [("isLength", "otp must be 6 characters")])]
            _ eq_refl).
  discriminate.
Defined.

End AuthServiceMoreFacts.

(* ===================================================================== *)
(** ** Refreshing a session *)
(* ===================================================================== *)

Module RefreshFacts.
Import JsString Js Http AuthService TokenRefresh.

Section WithRuntime.
Context `{RT : JsRuntime}.

(** X16. A refresh leaves the chat either with the session it returns,
    whose token is truthy, or with no session at all: whenever it
    throws, whatever the reason, the chat is logged out.  The sessions of
    other chats are not touched. *)
Theorem refresh_stores_or_logs_out
    (store : gmap Z AuthToken) (chat other : Z) (http : AxiosOutcome) :
  other <> chat ->
  let '(_, result, store') := refreshToken store chat http in
  (match result with
   | Normal tokens => store' !! chat = Some tokens /\ truthy (token tokens) = true
   | Throw _ => store' !! chat = None
   end)
  /\ store' !! other = store !! other.
Proof.
  intros Hne. unfold refreshToken.
  destruct (store !! chat) as [session|] eqn:E; [|now split].
  assert (Hd : (delete chat store : gmap Z AuthToken) !! chat = None
               /\ (delete chat store : gmap Z AuthToken) !! other = store !! other).
  { split; [apply lookup_delete_eq | now apply lookup_delete_ne]. }
  destruct (WalletService.refreshToken session) as [old|]; [|exact Hd].
  destruct (negb (truthy old)); [exact Hd|].
  destruct http as [r|e]; [|exact Hd].
  destruct (negb (truthy (data r)) || negb (truthy (prop (data r) "token"))) eqn:Hok;
    [exact Hd|].
  apply orb_false_iff in Hok as [_ Hok]. apply negb_false_iff in Hok.
  split; [split|].
  - apply lookup_insert_eq.
  - exact Hok.
  - now apply lookup_insert_ne.
Qed.

(** X17. The only request a refresh makes is the post of the session's
    own refresh token, a truthy value, to [/auth/refresh], sent without
    an authorization header; there is none when the chat has no session
    or its session has no refresh token. *)
Theorem refresh_request_carries_stored_token
    (store : gmap Z AuthToken) (chat : Z) (http : AxiosOutcome) (r : Request) :
  In r (fst (fst (refreshToken store chat http))) ->
  exists session old,
    store !! chat = Some session
    /\ WalletService.refreshToken session = Some old
    /\ truthy old = true
    /\ r = mkRequest "POST" "/auth/refresh" (VObj [("refreshToken", old)]) VUndef None.
Proof.
  unfold refreshToken. destruct (store !! chat) as [session|]; [|intros []].
  destruct (WalletService.refreshToken session) as [old|] eqn:Ho; [|intros []].
  destruct (negb (truthy old)) eqn:Ht; [intros []|]. apply negb_false_iff in Ht.
  intros Hin. exists session, old. repeat split; auto.
  destruct http as [x|e];
    [destruct (negb (truthy (data x)) || negb (truthy (prop (data x) "token")))|];
    cbn [fst In] in Hin; destruct Hin as [<-|[]]; reflexivity.
Qed.

(** X18. A session issued by a login whose response had neither
    [refreshToken] nor [refresh_token] cannot be refreshed: the attempt
    makes no request, throws and deletes the session. *)
Theorem refresh_needs_a_refresh_token
    (sessions : gmap string JsVal) (email otp : string) (now : Z) (r : AxiosResponse)
    (tokens : AuthToken) (store : gmap Z AuthToken) (chat : Z) (http : AxiosOutcome) :
  snd (fst (authenticateWithOTP sessions email otp now (Fulfilled r))) = Normal tokens ->
  truthy (prop (data r) "refreshToken") = false ->
  truthy (prop (data r) "refresh_token") = false ->
  refreshToken (<[chat := tokens]> store) chat http
  = ([], Throw (mkError "Failed to refresh token"), delete chat store).
Proof.
  intros Hrun H1 H2.
  assert (Hnone : WalletService.refreshToken tokens = None).
  { revert Hrun. unfold authenticateWithOTP.
    destruct (read_auth_response now (data r)) as [t|err] eqn:E; [|discriminate].
    cbn [fst snd]. intros [= ->]. revert E. unfold read_auth_response.
    destruct (negb (truthy (data r)) || _); [discriminate|].
    destruct (negb (truthy (or_else (prop (data r) "token") (prop (data r) "accessToken"))));
      [discriminate|].
    intros [= <-]. cbn [WalletService.refreshToken].
    unfold or_else. rewrite H1, H2. reflexivity. }
  unfold refreshToken. rewrite lookup_insert_eq, Hnone.
  now rewrite delete_insert_eq.
Qed.

End WithRuntime.

Import Scenario.

#[local] Existing Instance SampleRuntime.runtime.

Lemma refresh_stores_witness :
  let session := mkAuthToken (VStr "tok-1") (VNum (inject_Z 300)) (VStr "org-1")
                   (Some (VStr "ref-1")) in
  let answer := Fulfilled (mkResponse 200 (VObj [("token", VStr "tok-2")])) in
  8 <> 7
  /\ fst (fst (refreshToken (<[7 := session]> ∅) 7 answer))
     = [mkRequest "POST" "/auth/refresh" (VObj [("refreshToken", VStr "ref-1")]) VUndef None]
  /\ snd (refreshToken (<[7 := session]> ∅) 7 answer) !! 7
     = Some (mkAuthToken (VStr "tok-2") VUndef (VStr "org-1") None)
  /\ truthy (VStr "tok-2") = true.
Proof.
  cbn zeta. split; [discriminate|]. split; [reflexivity|].
  refine (proj1 (refresh_stores_or_logs_out
                   (<[7 := mkAuthToken (VStr "tok-1") (VNum (inject_Z 300)) (VStr "org-1")
                             (Some (VStr "ref-1"))]> ∅)
                   7 8 (Fulfilled (mkResponse 200 (VObj [("token", VStr "tok-2")]))) _)).
  discriminate.
Defined.

Lemma refresh_request_witness :
  let session := mkAuthToken (VStr "tok-1") (VNum (inject_Z 300)) (VStr "org-1")
                   (Some (VStr "ref-1")) in
  exists s old,
    (<[7 := session]> ∅ : gmap Z AuthToken) !! 7 = Some s
    /\ WalletService.refreshToken s = Some old
    /\ truthy old = true
    /\ mkRequest "POST" "/auth/refresh" (VObj [("refreshToken", VStr "ref-1")]) VUndef None
       = mkRequest "POST" "/auth/refresh" (VObj [("refreshToken", old)]) VUndef None.
Proof.
  cbn zeta.
  apply (refresh_request_carries_stored_token
           (<[7 := mkAuthToken (VStr "tok-1") (VNum (inject_Z 300)) (VStr "org-1")
                     (Some (VStr "ref-1"))]> ∅)
           7 (Fulfilled (mkResponse 200 (VObj [("token", VStr "tok-2")])))).
  left. reflexivity.
Defined.

Lemma refresh_needs_witness :
  truthy (prop auth_body "refreshToken") = false
  /\ refreshToken
       (<[7 := mkAuthToken (VStr "tok-9") (VNum (inject_Z 300)) (VStr "") None]> ∅) 7
       (Fulfilled (mkResponse 200 (VObj [("token", VStr "tok-2")])))
     = ([], Throw (mkError "Failed to refresh token"), delete 7 ∅).
Proof.
  split; [reflexivity|].
  exact (refresh_needs_a_refresh_token ∅ "a@b.co" "123456" midnight
           (mkResponse 200 auth_body)
           (mkAuthToken (VStr "tok-9") (VNum (inject_Z 300)) (VStr "") None)
           ∅ 7 (Fulfilled (mkResponse 200 (VObj [("token", VStr "tok-2")])))
           eq_refl eq_refl eq_refl).
Defined.

End RefreshFacts.

(* ===================================================================== *)
(** ** Notifications and [/logout] *)
(* ===================================================================== *)

Module NotificationFacts.
Import JsString Js Http AuthService TransferCommands Notification LogoutCommand.

Section WithRuntime.
Context `{RT : JsRuntime}.

(** X19. Logging out undoes what the login has set up: when
    [initializePusher] has subscribed a chat to a channel and the chat's
    session is still the same, [/logout] unsubscribes from that very
    channel, disconnects, and leaves the chat without client and without
    session. *)
Theorem logout_unsubscribes_the_login_channel
    (s : Services) (chat : Z) (session : AuthToken) (name : string) :
  sessions s !! chat = Some session ->
  In (Subscribe chat name)
     (snd (fst (initializePusher (pusherInstances s) chat (Some session) (Some session)))) ->
  let s' :=
    mkServices (sessions s)
      (fst (fst (initializePusher (pusherInstances s) chat (Some session) (Some session)))) in
  (exists bye,
     snd (handleLogout s' chat)
     = [Push (Unsubscribe chat name); Push (Disconnect chat); Reply bye])
  /\ sessions (fst (handleLogout s' chat)) !! chat = None
  /\ pusherInstances (fst (handleLogout s' chat)) !! chat = None.
Proof.
  intros Hs Hin. cbn zeta. revert Hin. unfold initializePusher.
  destruct (negb (truthy (token session)) || negb (truthy (organizationId session)));
    [intros []|].
  destruct (pusherInstances s !! chat); [intros []|].
  destruct (negb (truthy (organizationId session))) eqn:Horg;
    [cbn; intros [H|[]]; discriminate H|].
  apply negb_false_iff in Horg.
  cbn [fst snd In]. intros [H|[H|[]]]; [discriminate H|]. injection H as <-.
  unfold handleLogout. cbn [sessions pusherInstances]. rewrite Hs.
  unfold cleanupPusher. rewrite lookup_insert_eq, Horg. cbn [fst snd map app].
  split; [eauto|]. cbn [sessions pusherInstances].
  split; apply lookup_delete_eq.
Qed.


(** X21. [/logout] of a chat that is logged in removes its session and
    its Pusher client and nothing else: the sessions and the clients of
    other chats stay as they are. *)
Theorem logout_is_local (s : Services) (chat other : Z) :
  is_Some (sessions s !! chat) ->
  other <> chat ->
  let s' := fst (handleLogout s chat) in
  sessions s' !! chat = None
  /\ pusherInstances s' !! chat = None
  /\ sessions s' !! other = sessions s !! other
  /\ pusherInstances s' !! other = pusherInstances s !! other.
Proof.
  intros [session Hs] Hne. cbn zeta. unfold handleLogout. rewrite Hs.
  unfold cleanupPusher.
  destruct (pusherInstances s !! chat) eqn:E; cbn [fst sessions pusherInstances].
  - repeat split; try apply lookup_delete_eq; now apply lookup_delete_ne.
  - repeat split; try apply lookup_delete_eq; auto; now apply lookup_delete_ne.
Qed.

End WithRuntime.

Import Scenario.

#[local] Existing Instance SampleRuntime.runtime.

Lemma logout_unsubscribes_witness :
  (<[7 := session0]> ∅ : gmap Z AuthToken) !! 7 = Some session0
  /\ exists bye,
       snd (handleLogout
              (mkServices (<[7 := session0]> ∅)
                 (fst (fst (initializePusher ∅ 7 (Some session0) (Some session0))))) 7)
       = [Push (Unsubscribe 7 "private-org-org-1"); Push (Disconnect 7); Reply bye].
Proof.
  split; [reflexivity|].
  refine (proj1 (logout_unsubscribes_the_login_channel
                   (mkServices (<[7 := session0]> ∅) ∅) 7 session0 "private-org-org-1"
                   eq_refl _)).
  right. left. reflexivity.
Defined.


Lemma logout_is_local_witness :
  8 <> 7
  /\ sessions
       (fst (handleLogout
               (mkServices (<[8 := session0]> (<[7 := session0]> ∅)) ∅) 7)) !! 8
     = Some session0.
Proof.
  split; [discriminate|].
  refine (proj1 (proj2 (proj2 (logout_is_local
            (mkServices (<[8 := session0]> (<[7 := session0]> ∅)) ∅) 7 8 _ _)))).
  - eexists. reflexivity.
  - discriminate.
Defined.

End NotificationFacts.

(* ===================================================================== *)
(** ** Formatting of addresses *)
(* ===================================================================== *)

Module FormatterFacts.
Import JsString Formatter StringFacts.

Lemma length_append (a b : string) :
  String.length (a +:+ b) = (String.length a + String.length b)%nat.
Proof.
  induction a as [|x a IH]; [reflexivity|].
  rewrite append_cons. cbn [String.length]. now rewrite IH.
Qed.

Lemma substring_split (n : nat) : forall text,
  text = substring_to n text +:+ substring_from n text.
Proof.
  induction n as [|n IH]; intros [|c text]; try reflexivity.
  cbn [substring_to substring_from]. rewrite append_cons. f_equal. apply IH.
Qed.

Lemma length_substring_to (n : nat) : forall text,
  (n <= String.length text)%nat -> String.length (substring_to n text) = n.
Proof.
  induction n as [|n IH]; intros [|c text] H; cbn [String.length] in *;
    try reflexivity; try lia.
  cbn [substring_to String.length]. rewrite IH; lia.
Qed.

Lemma length_substring_from (n : nat) : forall text,
  String.length (substring_from n text) = (String.length text - n)%nat.
Proof.
  induction n as [|n IH]; intros [|c text]; try reflexivity.
  cbn [substring_from String.length]. apply IH.
Qed.

Lemma substring_from_add (a b : nat) : forall text,
  substring_from (a + b) text = substring_from b (substring_from a text).
Proof.
  induction a as [|a IH]; intros text; [reflexivity|].
  destruct text as [|c text]; cbn [Nat.add substring_from].
  - now destruct b.
  - apply IH.
Qed.

Lemma truncateMiddle_long (text : string) (startChars endChars : nat) :
  (startChars + endChars < String.length text)%nat ->
  truncateMiddle text startChars endChars
  = substring_to startChars text +:+ "..." +:+
    substring_from (String.length text - endChars) text.
Proof.
  intros H. unfold truncateMiddle.
  destruct text as [|c text]; [cbn in H; lia|]. cbn [is_empty].
  destruct (String.length (String c text) <=? startChars + endChars)%nat eqn:Hle;
    [apply Nat.leb_le in Hle; lia | reflexivity].
Qed.

(** X22. When a text is longer than the two counts together, the
    truncation keeps its first [startChars] and its last [endChars]
    characters and puts three dots for the non-empty middle it drops. *)
Theorem truncateMiddle_keeps_ends (text : string) (startChars endChars : nat) :
  (startChars + endChars < String.length text)%nat ->
  exists pre mid suf,
    text = pre +:+ mid +:+ suf
    /\ String.length pre = startChars
    /\ String.length suf = endChars
    /\ mid <> ""
    /\ truncateMiddle text startChars endChars = pre +:+ "..." +:+ suf.
Proof.
  intros H. set (n := String.length text) in *.
  set (rest := substring_from startChars text).
  exists (substring_to startChars text),
         (substring_to (n - endChars - startChars) rest),
         (substring_from (n - endChars - startChars) rest).
  assert (Hrest : String.length rest = (n - startChars)%nat)
    by apply length_substring_from.
  assert (Hsuf : substring_from (n - endChars) text
                 = substring_from (n - endChars - startChars) rest).
  { unfold rest. rewrite <- substring_from_add. f_equal. lia. }
  split; [|split; [|split; [|split]]].
  - rewrite <- (substring_split (n - endChars - startChars) rest).
    apply substring_split.
  - apply length_substring_to. lia.
  - rewrite length_substring_from. lia.
  - intros E.
    assert (L : String.length (substring_to (n - endChars - startChars) rest)
                = (n - endChars - startChars)%nat) by (apply length_substring_to; lia).
    rewrite E in L. cbn in L. lia.
  - rewrite (truncateMiddle_long text startChars endChars H). fold n.
    now rewrite Hsuf.
Qed.

(** X23. A formatted wallet address is never longer than 13 characters,
    and an address of at most 10 characters is shown as it is. *)
Theorem formatWalletAddress_is_short (address : string) :
  (String.length (formatWalletAddress address) <= 13)%nat
  /\ ((String.length address <= 10)%nat -> formatWalletAddress address = address).
Proof.
  unfold formatWalletAddress.
  destruct (is_empty address || (String.length address <? 10)%nat) eqn:Hshort.
  - split; [|reflexivity].
    apply orb_true_iff in Hshort as [He|Hlt].
    + destruct address; [cbn; lia | discriminate He].
    + apply Nat.ltb_lt in Hlt. lia.
  - apply orb_false_iff in Hshort as [_ Hge]. apply Nat.ltb_ge in Hge.
    destruct (Nat.le_gt_cases (String.length address) 10) as [Hle|Hgt].
    + assert (E : truncateMiddle address 6 4 = address).
      { unfold truncateMiddle. destruct address as [|c a]; [reflexivity|].
        cbn [is_empty]. apply Nat.leb_le in Hle. cbn [Nat.add]. now rewrite Hle. }
      rewrite E. split; [lia | reflexivity].
    + rewrite (truncateMiddle_long address 6 4) by (cbn [Nat.add]; lia).
      split; [|lia].
      rewrite !length_append, length_substring_to, length_substring_from by lia.
      cbn [String.length]. lia.
Qed.

Lemma truncateMiddle_witness :
  (6 + 4 < String.length "0x52908400098527886E0F7030069857D2E4169EE7")%nat
  /\ exists pre mid suf,
       "0x52908400098527886E0F7030069857D2E4169EE7" = pre +:+ mid +:+ suf
       /\ String.length pre = 6%nat
       /\ String.length suf = 4%nat
       /\ mid <> ""
       /\ truncateMiddle "0x52908400098527886E0F7030069857D2E4169EE7" 6 4
          = pre +:+ "..." +:+ suf.
Proof.
  split; [cbn; lia|].
  apply (truncateMiddle_keeps_ends "0x52908400098527886E0F7030069857D2E4169EE7" 6 4).
  cbn. lia.
Defined.

Lemma formatWalletAddress_witness :
  (String.length "0x5290" <= 10)%nat /\ formatWalletAddress "0x5290" = "0x5290".
Proof.
  split; [cbn; lia|].
  apply (proj2 (formatWalletAddress_is_short "0x5290")). cbn. lia.
Defined.

End FormatterFacts.

(* ===================================================================== *)
(** ** The wallet commands *)
(* ===================================================================== *)

Module WalletCommandFacts.
Import JsString Js Http AuthService TransferCommands WalletCommands StringFacts.

Lemma split_no_sep (s : string) :
  all_chars no_colon s = true -> split ":" s = [s].
Proof.
  induction s as [|c s IH]; [reflexivity|]. cbn [all_chars split]. unfold no_colon at 1.
  intros H. apply andb_prop in H as [Hc Hs]. apply negb_true_iff in Hc.
  rewrite Hc, (IH Hs). reflexivity.
Qed.

Lemma split_callback_data (id : string) :
  split ":" ("default_wallet:" +:+ id) = "default_wallet" :: split ":" id.
Proof. reflexivity. Qed.

Lemma split_hd (s : string) : exists first others, split ":" s = first :: others.
Proof.
  induction s as [|c s (first & others & IH)]; [now exists "", []|].
  cbn [split]. rewrite IH. destruct (char_is ":" c); eauto.
Qed.

Section WithRuntime.
Context `{RT : JsRuntime}.

(** X24. The three wallet commands do not await [isAuthenticated], so
    their log-in prompt is never sent, whatever the session and whatever
    the service answers; a chat without session is told the service's
    "User not authenticated" as a fetch error instead, after the fetch
    has been announced and without any request. *)
Theorem wallet_commands_never_prompt
    (states : gmap Z DefaultWalletState) (chat : Z) (session : option AuthToken)
    (http : AxiosOutcome) :
  List.filter is_login_prompt (balanceCommand chat session http) = []
  /\ List.filter is_login_prompt (walletsCommand chat session http) = []
  /\ List.filter is_login_prompt (snd (fst (setDefaultWalletCommand states chat session http)))
     = []
  /\ balanceCommand chat None http
     = [say chat "Fetching your wallet balances, please wait...";
        say chat "Error fetching wallet balances: User not authenticated"]
  /\ walletsCommand chat None http
     = [say chat "Fetching your wallets, please wait...";
        say chat "Error fetching wallets: User not authenticated"]
  /\ setDefaultWalletCommand states chat None http
     = (states,
        [say chat "Fetching your wallets, please wait...";
         say chat "Error fetching wallets: User not authenticated"],
        false).
Proof.
  split; [|split; [|split; [|repeat split]]].
  - unfold balanceCommand, getWalletBalances, wallet_call.
    destruct session as [sess|]; [|reflexivity].
    destruct http as [r|e]; [|reflexivity].
    destruct (negb (truthy (data r)) || length_is_zero (data r)); [reflexivity|].
    destruct (array_map formatWalletBalance (data r)); reflexivity.
  - unfold walletsCommand, getWallets, wallet_call.
    destruct session as [sess|]; [|reflexivity].
    destruct http as [r|e]; [|reflexivity].
    destruct (negb (truthy (data r)) || length_is_zero (data r)); [reflexivity|].
    destruct (array_map wallet_text (data r)); reflexivity.
  - unfold setDefaultWalletCommand, getWallets, wallet_call.
    destruct session as [sess|]; [|reflexivity].
    destruct http as [r|e]; [|reflexivity].
    destruct (negb (truthy (data r)) || length_is_zero (data r)); [reflexivity|].
    destruct (array_map wallet_button (data r)); reflexivity.
Qed.

(** X25. The wallet a button stands for is the wallet that is set: when
    the button [setDefaultWalletCommand] makes for a wallet is pressed,
    the handler puts to [/wallets/default] the part of the wallet's id
    before its first colon, which is the id itself when it has none. *)
Theorem chosen_wallet_is_the_one_set
    (chat : Z) (states : gmap Z DefaultWalletState) (state : DefaultWalletState)
    (q : CallbackQuery) (sess : AuthToken) (http : AxiosOutcome)
    (wallet : JsVal) (text pressed : string) :
  wallet_button wallet = Normal (text, pressed) ->
  cq_data q = Some pressed ->
  cq_chat q = Some chat ->
  states !! chat = Some state ->
  awaitingSelection state = true ->
  exists sent rest,
    snd (default_wallet_handler chat states q (Some sess) http)
    = Bot (AnswerCallbackQuery (cq_id q) (Some "Processing your selection..."))
      :: Bot (Call (mkRequest "PUT" "/wallets/default" (VObj [("walletId", VStr sent)])
                      VUndef (Some ("Bearer " +:+ ToString (token sess)))))
      :: rest
    /\ hd_error (split ":" (ToString (prop wallet "id"))) = Some sent
    /\ (all_chars no_colon (ToString (prop wallet "id")) = true ->
        sent = ToString (prop wallet "id")).
Proof.
  intros Hb Hd Hc Hs Ha.
  assert (E : pressed = "default_wallet:" +:+ ToString (prop wallet "id")).
  { revert Hb. unfold wallet_button, member, bind.
    destruct (is_nullish wallet); [discriminate|]. now intros [= _ <-]. }
  destruct (split_hd (ToString (prop wallet "id"))) as (first & others & Hsplit).
  unfold default_wallet_handler. rewrite Hd, E, RunFacts.startsWith_append, Hc, Z.eqb_refl.
  cbn [negb]. rewrite Hs, Ha. cbn [negb].
  rewrite split_callback_data, Hsplit. cbn [at_index nth_error].
  unfold setDefaultWallet, wallet_call.
  exists first.
  destruct http as [r|e].
  - destruct (member (data r) "name"); eexists; (split; [reflexivity|]);
      (split; [reflexivity|]); intros Hn; rewrite (split_no_sep _ Hn) in Hsplit;
      congruence.
  - eexists. split; [reflexivity|]. split; [reflexivity|].
    intros Hn. rewrite (split_no_sep _ Hn) in Hsplit. congruence.
Qed.

(** X26. A selection is accepted once: when the service has set the
    default wallet the chat's selection state is deleted, and a further
    press of the same button does nothing at all; when the service has
    thrown the state stays, so the press can be repeated. *)
Theorem selection_is_accepted_once
    (chat : Z) (states : gmap Z DefaultWalletState) (state : DefaultWalletState)
    (q : CallbackQuery) (pressed : string)
    (session session' : option AuthToken) (http http' : AxiosOutcome) :
  cq_data q = Some pressed ->
  startsWith "default_wallet:" pressed = true ->
  cq_chat q = Some chat ->
  states !! chat = Some state ->
  awaitingSelection state = true ->
  let states' := fst (default_wallet_handler chat states q session http) in
  match snd (setDefaultWallet (at_index (split ":" pressed) 1) session http) with
  | Normal _ =>
      states' !! chat = None
      /\ default_wallet_handler chat states' q session' http' = (states', [])
  | Throw _ => states' = states
  end.
Proof.
  intros Hd Hp Hc Hs Ha. cbn zeta.
  destruct (setDefaultWallet (at_index (split ":" pressed) 1) session http)
    as [calls [w|err]] eqn:E; cbn [snd].
  - assert (H1 : fst (default_wallet_handler chat states q session http)
                 = delete chat states).
    { unfold default_wallet_handler. rewrite Hd, Hp, Hc, Z.eqb_refl. cbn [negb].
      rewrite Hs, Ha. cbn [negb]. rewrite E. now destruct (member w "name"). }
    rewrite H1. split; [apply lookup_delete_eq|].
    unfold default_wallet_handler. rewrite Hd, Hp, Hc, Z.eqb_refl. cbn [negb].
    now rewrite lookup_delete_eq.
  - unfold default_wallet_handler. rewrite Hd, Hp, Hc, Z.eqb_refl. cbn [negb].
    rewrite Hs, Ha. cbn [negb]. now rewrite E.
Qed.

End WithRuntime.

Import Scenario.

#[local] Existing Instance SampleRuntime.runtime.

Lemma chosen_wallet_witness :
  let wallet := VObj [("id", VStr "w-2"); ("name", VStr "Main"); ("network", VStr "solana")] in
  let q := mkCallback "cb-8" (Some 7) (Some "default_wallet:w-2") in
  wallet_button wallet = Normal ("Main (solana)", "default_wallet:w-2")
  /\ exists sent rest,
       snd (default_wallet_handler 7 (<[7 := mkDefaultWalletState true (VArr [wallet])]> ∅)
              q (Some session0) wallet_ok)
       = Bot (AnswerCallbackQuery "cb-8" (Some "Processing your selection..."))
         :: Bot (Call (mkRequest "PUT" "/wallets/default" (VObj [("walletId", VStr sent)])
                         VUndef (Some ("Bearer " +:+ ToString (token session0)))))
         :: rest
       /\ hd_error (split ":" "w-2") = Some sent
       /\ (all_chars no_colon "w-2" = true -> sent = "w-2").
Proof.
  cbn zeta. split; [reflexivity|].
  exact (chosen_wallet_is_the_one_set 7
           (<[7 := mkDefaultWalletState true
                     (VArr [VObj [("id", VStr "w-2"); ("name", VStr "Main");
                                  ("network", VStr "solana")]])]> ∅)
           (mkDefaultWalletState true
              (VArr [VObj [("id", VStr "w-2"); ("name", VStr "Main");
                           ("network", VStr "solana")]]))
           (mkCallback "cb-8" (Some 7) (Some "default_wallet:w-2")) session0 wallet_ok
           (VObj [("id", VStr "w-2"); ("name", VStr "Main"); ("network", VStr "solana")])
           "Main (solana)" "default_wallet:w-2"
           eq_refl eq_refl eq_refl eq_refl eq_refl).
Defined.

Lemma selection_once_witness :
  let q := mkCallback "cb-8" (Some 7) (Some "default_wallet:w-2") in
  let states : gmap Z DefaultWalletState := <[7 := mkDefaultWalletState true (VArr [])]> ∅ in
  let states' := fst (default_wallet_handler 7 states q (Some session0) wallet_ok) in
  startsWith "default_wallet:" "default_wallet:w-2" = true
  /\ states' !! 7 = None
  /\ default_wallet_handler 7 states' q (Some session0) wallet_ok = (states', []).
Proof.
  cbn zeta. split; [reflexivity|].
  exact (selection_is_accepted_once 7 (<[7 := mkDefaultWalletState true (VArr [])]> ∅)
           (mkDefaultWalletState true (VArr []))
           (mkCallback "cb-8" (Some 7) (Some "default_wallet:w-2")) "default_wallet:w-2"
           (Some session0) (Some session0) wallet_ok wallet_ok
           eq_refl eq_refl eq_refl eq_refl eq_refl).
Defined.

End WalletCommandFacts.

(* ===================================================================== *)
(** ** [/history] *)
(* ===================================================================== *)

Module HistoryFacts.
Import JsString Js Http TransferService AuthService TransferCommands HistoryCommand.

Section WithFormatters.
Context `{RT : JsRuntime}.
Variable formatDate : JsVal -> Completion string.
Variable formatTransferAmount : JsVal -> Completion string.

(** X27. When the history request is rejected the user is shown what the
    gateway reports: the message of the response body as it is when that
    is truthy, else the message of the caught error when it is not
    empty, else the gateway's fixed text.  That detail is always truthy,
    so the handler's own "Unknown error" is never put in its place; it is
    a non-empty text whenever the body's message is a text or absent. *)
Theorem history_failure_shows_gateway_message
    (chat : Z) (session : option AuthToken) (e : Caught) :
  truthy (getUserToken session) = true ->
  let detail :=
    or_else (response_message e)
      (or_else (VStr (caught_message e)) (VStr "Failed to fetch transaction history")) in
  truthy detail = true
  /\ last (historyCommand formatDate formatTransferAmount chat true session (Rejected e))
     = Some (SendMessage chat
               ("❌ Failed to fetch transaction history: " +:+ ToString detail) [])
  /\ ((response_message e = VUndef \/ exists s, response_message e = VStr s) ->
      exists s, detail = VStr s /\ s <> "").
Proof.
  intros Ht. cbn zeta.
  destruct (GatewayFacts.reported_is_text e "Failed to fetch transaction history")
    as [Hd Htext]; [discriminate|].
  split; [exact Hd|]. split; [|exact Htext].
  unfold historyCommand. rewrite Ht. cbn [negb getTransactionHistory success orb].
  cbn [result_error map app]. unfold or_else at 1. rewrite Hd. reflexivity.
Qed.

(** X28. The history shows the first ten transfers of the response and
    nothing of the rest: a response with further transfers after the
    tenth gives the same messages and the same request as the response
    cut after the tenth. *)
Theorem history_shows_the_first_ten
    (chat : Z) (authenticated : bool) (session : option AuthToken)
    (st st' : Z) (d d' : JsVal) (shown more : list JsVal) :
  length shown = 10%nat ->
  prop d "transfers" = VArr (shown ++ more) ->
  prop d' "transfers" = VArr shown ->
  historyCommand formatDate formatTransferAmount chat authenticated session
    (Fulfilled (mkResponse st d))
  = historyCommand formatDate formatTransferAmount chat authenticated session
      (Fulfilled (mkResponse st' d')).
Proof.
  intros Hlen Hd Hd'.
  assert (Ht : truthy d = true) by (destruct d; try reflexivity; discriminate Hd).
  assert (Ht' : truthy d' = true) by (destruct d'; try reflexivity; discriminate Hd').
  unfold historyCommand. destruct (negb authenticated); [reflexivity|].
  destruct (negb (truthy (getUserToken session))); [reflexivity|].
  cbn [getTransactionHistory success result_data data negb orb].
  rewrite Ht, Ht', Hd, Hd'. cbn [negb truthy orb].
  assert (Hcut : firstn 10 (shown ++ more) = firstn 10 shown).
  { rewrite List.firstn_app, Hlen, Nat.sub_diag. cbn [firstn]. apply app_nil_r. }
  rewrite Hcut.
  destruct shown as [|tx shown]; [discriminate Hlen|]. reflexivity.
Qed.

End WithFormatters.

Import Scenario.

#[local] Existing Instance SampleRuntime.runtime.

Lemma history_failure_witness :
  truthy (getUserToken (Some session0)) = true
  /\ last (historyCommand (fun _ => Normal "Jan 1, 2025, 12:00 AM")
             (fun _ => Normal "10.50 USDC") 7 true (Some session0) (Rejected refused))
     = Some (SendMessage 7 "❌ Failed to fetch transaction history: Insufficient balance" []).
Proof.
  split; [reflexivity|].
  exact (proj1 (proj2 (history_failure_shows_gateway_message
                         (fun _ => Normal "Jan 1, 2025, 12:00 AM")
                         (fun _ => Normal "10.50 USDC")
                         7 (Some session0) refused eq_refl))).
Defined.

Lemma history_first_ten_witness :
  let tx := VObj [("createdAt", VStr "2025-01-01T00:00:00.000Z"); ("amount", VStr "10.5")] in
  let shown := repeat tx 10 in
  length shown = 10%nat
  /\ historyCommand (fun _ => Normal "Jan 1, 2025, 12:00 AM") (fun _ => Normal "10.50 USDC")
       7 true (Some session0)
       (Fulfilled (mkResponse 200 (VObj [("transfers", VArr (shown ++ [VNull]))])))
     = historyCommand (fun _ => Normal "Jan 1, 2025, 12:00 AM") (fun _ => Normal "10.50 USDC")
         7 true (Some session0)
         (Fulfilled (mkResponse 200 (VObj [("transfers", VArr shown)]))).
Proof.
  cbn zeta. split; [reflexivity|].
  exact (history_shows_the_first_ten
           (fun _ => Normal "Jan 1, 2025, 12:00 AM") (fun _ => Normal "10.50 USDC")
           7 true (Some session0) 200 200
           (VObj [("transfers",
                   VArr (repeat (VObj [("createdAt", VStr "2025-01-01T00:00:00.000Z");
                                       ("amount", VStr "10.5")]) 10 ++ [VNull]))])
           (VObj [("transfers",
                   VArr (repeat (VObj [("createdAt", VStr "2025-01-01T00:00:00.000Z");
                                       ("amount", VStr "10.5")]) 10))])
           (repeat (VObj [("createdAt", VStr "2025-01-01T00:00:00.000Z");
                          ("amount", VStr "10.5")]) 10)
           [VNull] eq_refl eq_refl eq_refl).
Defined.

End HistoryFacts.
